(** * The experiment-run harness of the MLflow tutorial notebook

    A shallow embedding of [mlflow_experiment_tracking.ipynb]: the Dataset
    Preparer cells, the model builders ([build_mlp], [build_fttransformer]),
    the trainers ([train_mlp], [train_model]) and the run recorders
    ([mlp_mlflow_run], [fttransformer_mlflow_run] and the two inline runs).

    Python dictionaries are [gmap string Value]; a Python call that can raise
    returns a [Result]; code that talks to the tracking store threads a
    [Store] through a state-and-exception monad.  Floating-point numbers are
    idealised as rationals.  What the notebook delegates to third-party
    libraries (one training epoch, the forward pass of the transformer, the
    checks that the constructors of the layers make, the scaler statistics,
    square roots, shuffling) is a field of [Libraries]. *)

From Stdlib Require Import QArith Qround ZArith Lia List Permutation.
From stdpp Require Import base option list gmap strings.

Open Scope string_scope.
Open Scope list_scope.
Open Scope nat_scope.

(** ** Python values and exceptions *)

#[warnings="-register-all"]
Inductive Value :=
| VNone
| VBool (b : bool)
| VInt (z : Z)
| VFloat (q : Q)
| VStr (s : string)
| VList (l : list Value)
| VArray (a : list (list Q))
| VDict (d : list (string * Value)).

Inductive Exn :=
| KeyError (key : string)
| TypeError (msg : string)
| ValueError (msg : string)
| IndexError
| NotFittedError
| AttributeError (msg : string)
| InvalidArgumentError (msg : string)
| MlflowException (msg : string)
| LibraryError (msg : string).

Inductive Result (A : Type) :=
| Ok (a : A)
| Raise (e : Exn).
Arguments Ok {A} a.
Arguments Raise {A} e.

#[global] Instance Result_ret : MRet Result := fun A a => Ok a.
#[global] Instance Result_bind : MBind Result :=
  fun A B f m => match m with Ok a => f a | Raise e => Raise e end.

Definition is_Ok {A} (r : Result A) : Prop := exists a, r = Ok a.

(** [d[k]] on a dict. *)
Definition getitem (d : gmap string Value) (k : string) : Result Value :=
  match d !! k with
  | Some v => Ok v
  | None => Raise (KeyError k)
  end.

(** A call that unpacks two dicts as keyword arguments: a keyword
    supplied by both is a [TypeError]. *)
Definition call_kwargs (a b : gmap string Value) : Result (gmap string Value) :=
  if decide (dom a ∩ dom b = (∅ : gset string)) then Ok (a ∪ b)
  else Raise (TypeError "got multiple values for keyword argument").

(** ** Models *)

(** Keras layers once constructed: the constructor arguments are kept as
    given. *)
Inductive Layer :=
| Dense (units : Value) (activation : Value)
| Dropout (rate : Value).

(** The encoder of tabtransformertf with the keywords it was constructed
    from, and its attribute [explainable]. *)
Record Encoder := { encoder_kwargs : gmap string Value; explainable : bool }.

Inductive Model :=
| Sequential (layers : list Layer)
| FTTransformer (encoder : Encoder) (out_dim : Z) (out_activation : string)
| RandomForestRegressor (n_estimators max_depth : Z)
| CatBoostRegressor.

(** Trainable parameters: one (kernel, bias) pair per layer that has any. *)
Definition Weights : Type := list (list (list Q) * list Q).

Definition Fitted : Type := (Model * Weights)%type.

(** ** Data sets *)

Record DataFrame := {
  df_index : list nat;
  df_columns : list (string * list Q)
}.

(** A [tf.data] pipeline as the notebook builds them: slices, an optional
    element shuffle, batching, an optional shuffle of the batches. *)
Record Dataset := {
  ds_keys : option (list string);
  ds_elems : list (list Q * option Q);
  ds_shuffle : option nat;
  ds_batch : nat;
  ds_shuffle_batches : option nat
}.

Record AdamW := { learning_rate : Value; weight_decay : Value }.

Record Compiled := {
  c_model : Model;
  c_optimizer : AdamW;
  c_loss : string;
  c_metrics : list string
}.

(** ** What the third-party libraries compute *)

Record Libraries := {
  (* tabtransformertf: the encoder's constructor checks its keywords *)
  FTTransformerEncoder : gmap string Value -> Result Encoder;
  (* pre-activation of the transformer's output layer on one element *)
  ft_output_layer : Encoder -> Z -> Weights -> option (list string) -> list Q -> list Q;
  (* the feature importances an explainable encoder gives for one element *)
  ft_importances : Encoder -> Weights -> option (list string) -> list Q -> list Q;
  (* Keras: the checks the layers' constructors make on their arguments *)
  Dense_init : Value -> Value -> Result unit;
  Dropout_init : Value -> Result unit;
  (* Keras: activations other than relu and linear, by name *)
  keras_activation : string -> Q -> Q;
  init_weights : Model -> Weights;
  (* one epoch of training, numbered from 0; it may fail *)
  train_epoch : Compiled -> nat -> Dataset -> Weights -> Result Weights;
  (* the value logged for a validation metric after an epoch *)
  evaluate : Compiled -> Weights -> Dataset -> string -> Q;
  (* scikit-learn and CatBoost regressors *)
  tree_fit : Model -> list (list Q) -> list Q -> option (list (list Q) * list Q * Z) -> Result Weights;
  tree_predict : Model -> Weights -> list Q -> Q;
  (* StandardScaler: the statistics of a fit, and their application *)
  scaler_fit : list (list Q) -> list (Q * Q);
  scaler_transform : list (Q * Q) -> list (list Q) -> list (list Q);
  np_sqrt : Q -> Q;
  (* tf.data shuffle: the order drawn for [n] items, given a seed and a buffer *)
  tf_shuffle : nat -> nat -> nat -> list nat
}.

(** ** Model Builder *)

(** [Dense(units, activation=activation)] and [Dropout(rate)]: the
    constructor checks its arguments, then keeps them. *)
Definition new_Dense (lib : Libraries) (units activation : Value) : Result Layer :=
  Dense_init lib units activation;; mret (Dense units activation).

Definition new_Dropout (lib : Libraries) (rate : Value) : Result Layer :=
  Dropout_init lib rate;; mret (Dropout rate).

(** The five layers are constructed one after the other, each one after
    its arguments have been read from [params]. *)
Definition build_mlp (lib : Libraries) (params : gmap string Value) : Result Model :=
  u1 ← getitem params "layer1_size";
  a1 ← getitem params "activation";
  l1 ← new_Dense lib u1 a1;
  r1 ← getitem params "dropout_rate";
  d1 ← new_Dropout lib r1;
  u2 ← getitem params "layer2_size";
  a2 ← getitem params "activation";
  l2 ← new_Dense lib u2 a2;
  r2 ← getitem params "dropout_rate";
  d2 ← new_Dropout lib r2;
  l3 ← new_Dense lib (VInt 1) (VStr "relu");
  mret (Sequential [l1; d1; l2; d2; l3]).


Definition build_fttransformer (lib : Libraries)
    (params_to_log params_to_skip : gmap string Value)
    (out_dim : Z) (out_activation : string) : Result Model :=
  kw ← call_kwargs params_to_log params_to_skip;
  ft_encoder ← FTTransformerEncoder lib kw;
  mret (FTTransformer ft_encoder out_dim out_activation).

(** ** State and exceptions *)

Definition M (S A : Type) : Type := S -> S * Result A.

#[global] Instance M_ret S : MRet (M S) := fun A a s => (s, Ok a).
#[global] Instance M_bind S : MBind (M S) :=
  fun A B f m s =>
    match m s with
    | (s', Ok a) => f a s'
    | (s', Raise e) => (s', Raise e)
    end.

Definition lift {S A} (r : Result A) : M S A := fun s => (s, r).

(** ** Tracking store *)

Inductive RunStatus := NotStarted | Open | Sealed.

Inductive Outcome := FINISHED | FAILED.

(** The calls a store accepted, as a test double would record them. *)
Inductive Call :=
| COpen (run_id : nat) (run_name : string)
| CSetTag (run_id : nat) (key value : string)
| CLogParam (run_id : nat) (key : string) (value : Value)
| CLogMetric (run_id : nat) (key : string) (value : Q)
| CLogModel (run_id : nat) (artifact_path : string) (model : Fitted)
| CSeal (run_id : nat) (outcome : Outcome).

Record Store := {
  runs : list RunStatus;
  active : option nat;
  calls : list Call
}.

Definition empty_store : Store := {| runs := []; active := None; calls := [] |}.

Definition run_status (s : Store) (id : nat) : RunStatus :=
  default NotStarted (runs s !! id).

Definition add_calls (s : Store) (cs : list Call) : Store :=
  {| runs := runs s; active := active s; calls := calls s ++ cs |}.

(** Modelled from the spec: the tracking store's [open] of section 6 (the
    mlflow package is not part of the repository).  A new run record is
    created in state [Open] and its id returned. *)
Definition store_open (name : string) : M Store nat := fun s =>
  let id := length (runs s) in
  ({| runs := runs s ++ [Open]; active := active s;
      calls := calls s ++ [COpen id name] |}, Ok id).

(** Modelled from the spec: [log_params], [log_metric] and [log_artifact] of
    section 6 under the state machine of section 4.4 (mlflow itself is not
    part of the repository): [Open] permits logging, [Sealed] and
    [NotStarted] permit none. *)
Definition store_log (id : nat) (cs : list Call) : M Store unit := fun s =>
  match run_status s id with
  | Open => (add_calls s cs, Ok tt)
  | _ => (s, Raise (MlflowException "the run is not open"))
  end.

(** Modelled from the spec: [seal] of section 6 (mlflow itself is not part
    of the repository), the transition [Open -> Sealed]; a record is never
    reopened. *)
Definition store_seal (id : nat) (o : Outcome) : M Store unit := fun s =>
  match run_status s id with
  | Open => ({| runs := <[id := Sealed]> (runs s); active := active s;
                calls := calls s ++ [CSeal id o] |}, Ok tt)
  | _ => (s, Raise (MlflowException "the run is not open"))
  end.

Definition set_active (a : option nat) : M Store unit := fun s =>
  ({| runs := runs s; active := a; calls := calls s |}, Ok tt).

(** [mlflow.start_run(run_name=name)]: the new run becomes the ambient
    current run; a second run cannot start while one is current. *)
Definition start_run (name : string) : M Store nat := fun s =>
  match active s with
  | Some _ => (s, Raise (MlflowException "a run is already active"))
  | None => (id ← store_open name; set_active (Some id);; mret id) s
  end.

(** [mlflow.end_run(status)]. *)
Definition end_run (o : Outcome) : M Store unit := fun s =>
  match active s with
  | Some id => (store_seal id o;; set_active None) s
  | None => (s, Ok tt)
  end.

(** The run the fluent logging calls write to: the current one, or a run
    started on the spot when there is none. *)
Definition current_run : M Store nat := fun s =>
  match active s with
  | Some id => (s, Ok id)
  | None => start_run "" s
  end.

Definition param_calls (id : nat) (d : gmap string Value) : list Call :=
  map (fun kv => CLogParam id kv.1 kv.2) (map_to_list d).

Definition set_tag (key value : string) : M Store unit :=
  id ← current_run; store_log id [CSetTag id key value].

Definition log_params (d : gmap string Value) : M Store unit :=
  id ← current_run; store_log id (param_calls id d).

Definition log_metric (key : string) (value : Q) : M Store unit :=
  id ← current_run; store_log id [CLogMetric id key value].

Definition log_model (model : Fitted) (artifact_path : string) : M Store unit :=
  id ← current_run; store_log id [CLogModel id artifact_path model].

(** [with mlflow.start_run(run_name=name): body].  The context manager
    ends the run on both exits, [FINISHED] after a normal completion and
    [FAILED] after an exception, which it lets through. *)
Definition with_start_run {A} (name : string) (body : M Store A) : M Store A :=
  fun s =>
    match start_run name s with
    | (s1, Raise e) => (s1, Raise e)
    | (s1, Ok _) =>
        match body s1 with
        | (s2, Ok a) => ((end_run FINISHED s2).1, Ok a)
        | (s2, Raise e) => ((end_run FAILED s2).1, Raise e)
        end
    end.

(** [mlflow.tensorflow.load_model("runs:/<id>/<path>")]. *)
Fixpoint find_model (id : nat) (path : string) (cs : list Call) : option Fitted :=
  match cs with
  | [] => None
  | CLogModel id' path' m :: cs' =>
      match find_model id path cs' with
      | Some m' => Some m'
      | None => if decide (id' = id /\ path' = path) then Some m else None
      end
  | _ :: cs' => find_model id path cs'
  end.

Definition load_model (s : Store) (id : nat) (path : string) : Result Fitted :=
  match find_model id path (calls s) with
  | Some m => Ok m
  | None => Raise (MlflowException "no such artifact")
  end.

(** ** Data frames *)

Definition n_rows (df : DataFrame) : nat := length (df_index df).

Fixpoint assoc {A} (k : string) (l : list (string * A)) : option A :=
  match l with
  | [] => None
  | (k', v) :: l' => if decide (k' = k) then Some v else assoc k l'
  end.

(** [df[c]]. *)
Definition getcol (df : DataFrame) (c : string) : Result (list Q) :=
  match assoc c (df_columns df) with
  | Some v => Ok v
  | None => Raise (KeyError c)
  end.

(** [df[cs]] for a list of column names, in the order asked. *)
Fixpoint getcols (df : DataFrame) (cs : list string) : Result (list (string * list Q)) :=
  match cs with
  | [] => Ok []
  | c :: cs' =>
      v ← getcol df c;
      rest ← getcols df cs';
      mret ((c, v) :: rest)
  end.

Fixpoint set_assoc {A} (k : string) (v : A) (l : list (string * A)) : list (string * A) :=
  match l with
  | [] => [(k, v)]
  | (k', v') :: l' => if decide (k' = k) then (k, v) :: l' else (k', v') :: set_assoc k v l'
  end.

(** [df[c] = v] on a table that has rows, or with no value for a table
    that has none: the column is replaced, or appended when new. *)
Definition setcol (df : DataFrame) (c : string) (v : list Q) : Result DataFrame :=
  if decide (length v = n_rows df)
  then Ok {| df_index := df_index df; df_columns := set_assoc c v (df_columns df) |}
  else Raise (ValueError "length of values does not match length of index").

(** [df.loc[:, cs] = arr], the array given column by column. *)
Definition loc_set (df : DataFrame) (cs : list string) (arr : list (list Q)) : DataFrame :=
  {| df_index := df_index df;
     df_columns := foldl (fun cols cv => set_assoc cv.1 cv.2 cols) (df_columns df) (zip cs arr) |}.

(** The rows at the given positions, in that order. *)
Definition select {A} (pos : list nat) (l : list A) : list A :=
  omap (fun i => l !! i) pos.

Definition take_rows (pos : list nat) (df : DataFrame) : DataFrame :=
  {| df_index := select pos (df_index df);
     df_columns := map (fun cv => (cv.1, select pos cv.2)) (df_columns df) |}.

(** The frame as an array, column by column, and row by row. *)
Definition values (cols : list (string * list Q)) : list (list Q) := map snd cols.

Definition rows (n : nat) (cols : list (string * list Q)) : list (list Q) :=
  map (fun i => map (fun cv => nth i cv.2 0%Q) cols) (seq 0 n).

(** ** Dataset Preparer *)

Record Bunch := {
  data : list (list Q);
  target : list Q;
  feature_names : list string;
  target_names : list string
}.

Definition NUMERIC_FEATURES : list string :=
  ["MedInc"; "HouseAge"; "AveRooms"; "AveBedrms"; "Population"; "AveOccup";
   "Longitude"; "Latitude"].

Definition FEATURES : list string := NUMERIC_FEATURES.

(** The table of an array given row by row: column [j] holds entry [j] of
    each row, and the index is [0 .. n-1]. *)
Definition frame_of_array (array : list (list Q)) (names : list string) : DataFrame :=
  {| df_index := seq 0 (length array);
     df_columns := imap (fun j c => (c, map (fun r => nth j r 0%Q) array)) names |}.

(** [pd.DataFrame(data, columns=names)] on a two-dimensional array: one
    name per column of the array, or a [ValueError]. *)
Definition pd_DataFrame (array : list (list Q)) (names : list string) : Result DataFrame :=
  if decide (Forall (fun r => length r = length names) array)
  then Ok (frame_of_array array names)
  else Raise (ValueError "Shape of passed values does not match the columns").

(** The "Load Data" cell: the table and the name of its label column. *)
Definition load_data (dset : Bunch) : Result (DataFrame * string) :=
  LABEL ← match target_names dset with
          | l :: _ => Ok l
          | [] => Raise IndexError
          end;
  data ← pd_DataFrame (data dset) (feature_names dset);
  df ← setcol data LABEL (target dset);
  mret (df, LABEL).

(** Modelled from the spec: the random split of section 3 (scikit-learn's
    [train_test_split] is not part of the repository).  [perm] is the
    order the random generator drew for the row positions; the first
    [ceil (test_size * n)] of them go to the test part and the others to the
    train part, which may not be empty. *)
Definition train_test_split (perm : list nat) (df : DataFrame) (test_size : Q)
    : Result (DataFrame * DataFrame) :=
  let n := n_rows df in
  let n_test := Z.to_nat (Qceiling (test_size * inject_Z (Z.of_nat n))) in
  let n_train := n - n_test in
  if decide (n_train = 0)
  then Raise (ValueError "the resulting train set will be empty")
  else Ok (take_rows (take n_train (drop n_test perm)) df,
           take_rows (take n_test perm) df).

(** The first split cell. *)
Definition split_cell (perm : list nat) (df : DataFrame)
    : Result (DataFrame * DataFrame) :=
  train_test_split perm df (2 # 10).

(** The scaler object: [None] until it is fitted. *)
Definition Scaler : Type := option (list (Q * Q)).

Definition sc_fit (lib : Libraries) (X : list (list Q)) : M Scaler unit :=
  fun _ => (Some (scaler_fit lib X), Ok tt).

Definition sc_transform (lib : Libraries) (X : list (list Q)) : M Scaler (list (list Q)) :=
  fun sc =>
    match sc with
    | Some st => (sc, Ok (scaler_transform lib st X))
    | None => (sc, Raise NotFittedError)
    end.

Definition sc_fit_transform (lib : Libraries) (X : list (list Q)) : M Scaler (list (list Q)) :=
  sc_fit lib X;; sc_transform lib X.

(** The three scaling statements of the "Feature Scaling" cell. *)
Definition scale_partitions (lib : Libraries) (X_train X_val test_data : DataFrame)
    : M Scaler (DataFrame * DataFrame * DataFrame) :=
  a ← lift (getcols X_train NUMERIC_FEATURES);
  a' ← sc_fit_transform lib (values a);
  let X_train := loc_set X_train NUMERIC_FEATURES a' in
  b ← lift (getcols X_val NUMERIC_FEATURES);
  b' ← sc_transform lib (values b);
  let X_val := loc_set X_val NUMERIC_FEATURES b' in
  c ← lift (getcols test_data NUMERIC_FEATURES);
  c' ← sc_transform lib (values c);
  let test_data := loc_set test_data NUMERIC_FEATURES c' in
  mret (X_train, X_val, test_data).

(** The whole "Feature Scaling" cell: the inner split, then a fresh scaler. *)
Definition scaling_cell (lib : Libraries) (perm : list nat) (train_data test_data : DataFrame)
    : Scaler * Result (DataFrame * DataFrame * DataFrame) :=
  match train_test_split perm train_data (2 # 10) with
  | Ok (X_train, X_val) => scale_partitions lib X_train X_val test_data None
  | Raise e => (None, Raise e)
  end.

(** Both cells: from the raw table to the three partitions. *)
Definition prepare (lib : Libraries) (perm1 perm2 : list nat) (df : DataFrame)
    : Result (DataFrame * DataFrame * DataFrame) :=
  '(train_data, test_data) ← split_cell perm1 df;
  (scaling_cell lib perm2 train_data test_data).2.

(** ** Data sets for the neural models *)

(** [tf.data.Dataset.from_tensor_slices], with or without labels. *)
Definition from_tensor_slices (X : list (list Q)) (y : option (list Q))
    : Result (list (list Q * option Q)) :=
  match y with
  | None => Ok (map (fun x => (x, None)) X)
  | Some y =>
      if decide (length X = length y)
      then Ok (zip_with (fun x l => (x, Some l)) X y)
      else Raise (ValueError "dimensions must be equal")
  end.

(** [from_tensor_slices((X[FEATURES], X[LABEL])).batch(512).shuffle(512*4).prefetch(512)] *)
Definition mlp_labelled_ds (X : DataFrame) (LABEL : string) : Result Dataset :=
  f ← getcols X FEATURES;
  y ← getcol X LABEL;
  es ← from_tensor_slices (rows (n_rows X) f) (Some y);
  mret {| ds_keys := None; ds_elems := es; ds_shuffle := None;
          ds_batch := 512; ds_shuffle_batches := Some (512 * 4) |}.

(** [from_tensor_slices(test_data[FEATURES]).batch(512).prefetch(512)] *)
Definition mlp_unlabelled_ds (X : DataFrame) : Result Dataset :=
  f ← getcols X FEATURES;
  es ← from_tensor_slices (rows (n_rows X) f) None;
  mret {| ds_keys := None; ds_elems := es; ds_shuffle := None;
          ds_batch := 512; ds_shuffle_batches := None |}.

(** Python's truth value of the [target] argument. *)
Definition truthy (target : option string) : bool :=
  match target with
  | Some s => negb (String.eqb s "")
  | None => false
  end.

(** [df.pop(c)], for a name that one column of the table has: the column,
    and the table without it. *)
Definition df_pop (df : DataFrame) (c : string) : Result (list Q * DataFrame) :=
  v ← getcol df c;
  mret (v, {| df_index := df_index df;
              df_columns := filter (fun cv => cv.1 <> c) (df_columns df) |}).

(** [{key: value.values[:, np.newaxis] for key, value in df.items()}]: a
    dict holds a key once, at the place where it was first put and with the
    value that was put last. *)
Definition dict_of_columns (cols : list (string * list Q)) : list (string * list Q) :=
  foldl (fun d cv => set_assoc cv.1 cv.2 d) [] cols.

(** [from_tensor_slices] on a dict of columns alone: a dict without a key
    has nothing to slice. *)
Definition from_dict_slices (n : nat) (dataset : list (string * list Q))
    : Result (list (list Q * option Q)) :=
  match dataset with
  | [] => Raise (ValueError "element should not be empty")
  | _ => from_tensor_slices (rows n dataset) None
  end.

(** [dataset.shuffle(buffer_size=n)]: the buffer may not be empty. *)
Definition ds_shuffled (n : nat) : Result (option nat) :=
  if decide (n = 0)
  then Raise (InvalidArgumentError "buffer_size must be greater than zero")
  else Ok (Some n).

Definition df_to_dataset (dataframe : DataFrame) (target : option string)
    (shuffle : bool) (batch_size : nat) : Result Dataset :=
  let df := dataframe in
  '(keys, es) ← (if truthy target then
                   '(labels, df) ← df_pop df (default "" target);
                   let dataset := dict_of_columns (df_columns df) in
                   es ← from_tensor_slices (rows (n_rows df) dataset) (Some labels);
                   mret (map fst dataset, es)
                 else
                   let dataset := dict_of_columns (df_columns df) in
                   es ← from_dict_slices (n_rows df) dataset;
                   mret (map fst dataset, es));
  shuffled ← (if shuffle then ds_shuffled (n_rows dataframe) else Ok None);
  if decide (batch_size = 0)
  then Raise (InvalidArgumentError "batch_size must be greater than zero")
  else mret {| ds_keys := Some keys; ds_elems := es; ds_shuffle := shuffled;
               ds_batch := batch_size; ds_shuffle_batches := None |}.

(** [df_to_dataset(test_data[FEATURES], shuffle=False)] *)
Definition test_dataset_of (test_data : DataFrame) : Result Dataset :=
  f ← getcols test_data FEATURES;
  df_to_dataset {| df_index := df_index test_data; df_columns := f |} None false 32.

(** [df_to_dataset(X[FEATURES + [LABEL]], LABEL, shuffle=...)] *)
Definition labelled_dataset_of (X : DataFrame) (LABEL : string) (shuffle : bool)
    : Result Dataset :=
  f ← getcols X (FEATURES ++ [LABEL]);
  df_to_dataset {| df_index := df_index X; df_columns := f |} (Some LABEL) shuffle 32.

Fixpoint chunks {A} (fuel n : nat) (l : list A) : list (list A) :=
  match fuel, l with
  | _, [] => []
  | O, _ => []
  | S fuel', _ => take n l :: chunks fuel' n (drop n l)
  end.

(** One pass over a data set: the batches in the order they are produced.
    A shuffle draws its order from the library's generator. *)
Definition iterate (lib : Libraries) (seed : nat) (d : Dataset)
    : list (list (list Q * option Q)) :=
  let es := match ds_shuffle d with
            | Some buffer =>
                select (tf_shuffle lib seed buffer (length (ds_elems d))) (ds_elems d)
            | None => ds_elems d
            end in
  let bs := chunks (length es) (ds_batch d) es in
  match ds_shuffle_batches d with
  | Some buffer => select (tf_shuffle lib (S seed) buffer (length bs)) bs
  | None => bs
  end.

(** ** Prediction *)

Definition relu (x : Q) : Q := if Qle_bool 0 x then x else 0%Q.

(** A Keras activation given by name ([None] is linear). *)
Definition activation_fn (lib : Libraries) (a : Value) : Q -> Q :=
  match a with
  | VStr s =>
      if decide (s = "relu") then relu
      else if decide (s = "linear") then (fun x => x)
      else keras_activation lib s
  | _ => fun x => x
  end.

(** A dense layer before its activation: [x . kernel + bias], the kernel
    given row by row (one row per input). *)
Definition dense (kernel : list (list Q)) (bias : list Q) (x : list Q) : list Q :=
  foldl (fun acc xr => zip_with Qplus acc (map (Qmult xr.1) xr.2)) bias (zip x kernel).

(** The layers in inference mode: dropout passes its input through. *)
Fixpoint forward_layers (lib : Libraries) (layers : list Layer) (ws : Weights)
    (x : list Q) : list Q :=
  match layers with
  | [] => x
  | Dense _ act :: layers' =>
      match ws with
      | (kernel, bias) :: ws' =>
          forward_layers lib layers' ws' (map (activation_fn lib act) (dense kernel bias x))
      | [] => forward_layers lib layers' [] (map (activation_fn lib act) (dense [] [] x))
      end
  | Dropout _ :: layers' => forward_layers lib layers' ws x
  end.

(** The model's output on one element. *)
Definition forward (lib : Libraries) (fm : Fitted) (keys : option (list string))
    (x : list Q) : list Q :=
  match fm.1 with
  | Sequential layers => forward_layers lib layers fm.2 x
  | FTTransformer enc out_dim act =>
      map (activation_fn lib (VStr act)) (ft_output_layer lib enc out_dim fm.2 keys x)
  | RandomForestRegressor _ _ | CatBoostRegressor => [tree_predict lib fm.1 fm.2 x]
  end.

(** [model.predict(dataset)]: one output row per element, batch after batch. *)
Definition predict (lib : Libraries) (fm : Fitted) (d : Dataset) (seed : nat)
    : list (list Q) :=
  map (fun e => forward lib fm (ds_keys d) e.1) (concat (iterate lib seed d)).

Definition ravel (a : list (list Q)) : list Q := concat a.

(** What [model.predict] hands back: an array, or a dict of arrays for a
    model whose call returns a dict. *)
Inductive Predictions :=
| PArray (a : list (list Q))
| PDict (d : list (string * list (list Q))).

(** [model.predict(dataset)] on a Keras model.  The transformer's call
    returns its output alone, or, when its encoder is explainable, the dict
    of its output and of the encoder's importances. *)
Definition keras_predict (lib : Libraries) (fm : Fitted) (d : Dataset) (seed : nat)
    : Predictions :=
  match fm.1 with
  | FTTransformer enc _ _ =>
      if explainable enc
      then PDict [("output", predict lib fm d seed);
                  ("importances",
                   map (fun e => ft_importances lib enc fm.2 (ds_keys d) e.1)
                       (concat (iterate lib seed d)))]
      else PArray (predict lib fm d seed)
  | _ => PArray (predict lib fm d seed)
  end.


(** [test_preds.ravel()]: a method of arrays, which a dict does not have. *)
Definition ravel_of (test_preds : Predictions) : Result (list Q) :=
  match test_preds with
  | PArray a => Ok (ravel a)
  | PDict _ => Raise (AttributeError "'dict' object has no attribute 'ravel'")
  end.

(** ** Evaluation *)

Definition Qsum (l : list Q) : Q := foldr Qplus 0%Q l.

Definition squared_errors (y_true y_pred : list Q) : list Q :=
  zip_with (fun y p => ((y - p) * (y - p))%Q) y_true y_pred.

(** [sklearn.metrics.mean_squared_error(y_true, y_pred, squared=...)]. *)
Definition mean_squared_error (lib : Libraries) (y_true y_pred : list Q) (squared : bool)
    : Result Q :=
  if decide (length y_true = length y_pred /\ length y_true <> 0) then
    let mse := (Qsum (squared_errors y_true y_pred)
                / inject_Z (Z.of_nat (length y_true)))%Q in
    Ok (if squared then mse else np_sqrt lib mse)
  else Raise (ValueError "inconsistent or empty samples").

(** The root-mean-squared error in the spec's words: the square root of the
    mean of the squared differences between labels and predictions. *)
Definition rmse (lib : Libraries) (labels predictions : list Q) : Q :=
  np_sqrt lib (Qsum (map (fun yp => ((yp.1 - yp.2) * (yp.1 - yp.2))%Q) (zip labels predictions))
               / inject_Z (Z.of_nat (length labels)))%Q.

(** ** Trainer *)

Record EarlyStopping := {
  monitor : string;
  mode : string;
  patience : Value;
  restore_best_weights : bool
}.

(** What the stopping policy remembers between epochs. *)
Record EarlyState := {
  best : option Q;
  best_weights : option Weights;
  wait : Z
}.

Definition Qltb (x y : Q) : bool := negb (Qle_bool y x).

Definition as_int (v : Value) : Result Z :=
  match v with
  | VInt z => Ok z
  | _ => Raise (TypeError "an integer is required")
  end.

(** Modelled from the spec: the monitored-metric policy of section 4.3
    (the Keras [EarlyStopping] callback is not part of the repository).  An
    epoch improves when its monitored value is strictly better than the
    best seen, in the direction [mode] gives. *)
Definition is_improvement (es : EarlyStopping) (current : Q) (b : option Q) : bool :=
  match b with
  | None => true
  | Some b => if decide (mode es = "max") then Qltb b current else Qltb current b
  end.

(** Modelled from the spec: section 4.3's "fails to improve for [patience]
    consecutive epochs" (Keras is not part of the repository).  An improving
    epoch records its value and weights and resets the count; any other
    epoch adds one to it. *)
Definition on_epoch_end (es : EarlyStopping) (st : EarlyState) (w : Weights) (current : Q)
    : EarlyState :=
  if is_improvement es current (best st)
  then {| best := Some current; best_weights := Some w; wait := 0 |}
  else {| best := best st; best_weights := best_weights st; wait := wait st + 1 |}.

(** Modelled from the spec: section 4.3's "the best-observed weights are
    restored before returning" (Keras is not part of the repository). *)
Definition restore (es : EarlyStopping) (st : EarlyState) (w : Weights) : Weights :=
  if restore_best_weights es then default w (best_weights st) else w.

(** Modelled from the spec: the training loop of section 4.3 (Keras' [fit]
    is not part of the repository).  [budget] epochs are left and [epoch] is
    the next one; the loop halts when the budget is spent or when the count
    of epochs without improvement has reached [p].  The monitored values are
    returned as the history. *)
Fixpoint fit_loop (lib : Libraries) (cm : Compiled) (es : EarlyStopping) (p : Z)
    (train val : Dataset) (budget epoch : nat) (w : Weights) (st : EarlyState)
    : Result (Weights * list Q) :=
  match budget with
  | O => Ok (restore es st w, [])
  | S budget' =>
      w' ← train_epoch lib cm epoch train w;
      let current := evaluate lib cm w' val (monitor es) in
      let st' := on_epoch_end es st w' current in
      if decide (p <= wait st')%Z then Ok (restore es st' w', [current])
      else
        '(w_end, history) ← fit_loop lib cm es p train val budget' (S epoch) w' st';
        mret (w_end, current :: history)
  end.

(** [model.fit(train, epochs=..., validation_data=val, callbacks=[es])]. *)
Definition fit (lib : Libraries) (cm : Compiled) (train : Dataset) (epochs : Value)
    (val : Dataset) (es : EarlyStopping) : Result (Fitted * list Q) :=
  n ← as_int epochs;
  p ← as_int (patience es);
  '(w, history) ← fit_loop lib cm es p train val (Z.to_nat n) 0
                     (init_weights lib (c_model cm))
                     {| best := None; best_weights := None; wait := 0 |};
  mret ((c_model cm, w), history).

Definition train_mlp (lib : Libraries) (mlp : Model) (train_params : gmap string Value)
    (train_dataset val_dataset : Dataset) : Result Fitted :=
  lr ← getitem train_params "learning_rate";
  wd ← getitem train_params "weight_decay";
  let optimizer := {| learning_rate := lr; weight_decay := wd |} in
  let compiled := {| c_model := mlp; c_optimizer := optimizer;
                     c_loss := "mse"; c_metrics := ["rmse"] |} in
  p ← getitem train_params "early_stop_patience";
  let early_stopping := {| monitor := "val_rmse"; mode := "min"; patience := p;
                           restore_best_weights := true |} in
  n ← getitem train_params "num_epochs";
  '(mlp, _) ← fit lib compiled train_dataset n val_dataset early_stopping;
  mret mlp.

Definition train_model (lib : Libraries) (model : Model) (train_params : gmap string Value)
    (train_dataset val_dataset : Dataset) : Result Fitted :=
  lr ← getitem train_params "learning_rate";
  wd ← getitem train_params "weight_decay";
  let optimizer := {| learning_rate := lr; weight_decay := wd |} in
  let compiled := {| c_model := model; c_optimizer := optimizer;
                     c_loss := "mse"; c_metrics := ["rmse"] |} in
  p ← getitem train_params "early_stop_patience";
  let early := {| monitor := "val_output_loss"; mode := "min"; patience := p;
                  restore_best_weights := true |} in
  n ← getitem train_params "num_epochs";
  '(model, hist) ← fit lib compiled train_dataset n val_dataset early;
  mret model.

(** ** Run Recorder *)

(** The body of [mlp_mlflow_run]'s [with] block. *)
Definition mlp_run_body (lib : Libraries) (mlp_params train_params : gmap string Value)
    (train_dataset val_dataset test_dataset : Dataset) (y_test : list Q) (seed : nat)
    : M Store unit :=
  log_params mlp_params;;
  log_params train_params;;
  set_tag "model_name" "MLP";;
  mlp ← lift (build_mlp lib mlp_params);
  mlp ← lift (train_mlp lib mlp train_params train_dataset val_dataset);
  let test_preds := keras_predict lib mlp test_dataset seed in
  flat ← lift (ravel_of test_preds);
  test_rms ← lift (mean_squared_error lib y_test flat false);
  log_metric "test_rmse" test_rms;;
  log_model mlp "tf_models".

Definition mlp_mlflow_run (lib : Libraries) (name : string)
    (mlp_params train_params : gmap string Value)
    (train_dataset val_dataset test_dataset : Dataset) (y_test : list Q) (seed : nat)
    : M Store unit :=
  with_start_run name
    (mlp_run_body lib mlp_params train_params train_dataset val_dataset test_dataset
       y_test seed).

(** The body of [fttransformer_mlflow_run]'s [with] block. *)
Definition fttransformer_run_body (lib : Libraries)
    (encoder_params train_params params_to_skip : gmap string Value)
    (train_dataset val_dataset test_dataset : Dataset) (y_test : list Q) (seed : nat)
    : M Store unit :=
  set_tag "model_name" "FTTransformer";;
  log_params encoder_params;;
  log_params train_params;;
  ft_transformer ← lift (build_fttransformer lib encoder_params params_to_skip 1 "relu");
  ft_transformer ← lift (train_model lib ft_transformer train_params train_dataset val_dataset);
  let test_preds := keras_predict lib ft_transformer test_dataset seed in
  flat ← lift (ravel_of test_preds);
  test_rms ← lift (mean_squared_error lib y_test flat false);
  log_metric "test_rmse" test_rms;;
  log_model ft_transformer "tf_models".

Definition fttransformer_mlflow_run (lib : Libraries) (name : string)
    (encoder_params train_params params_to_skip : gmap string Value)
    (train_dataset val_dataset test_dataset : Dataset) (y_test : list Q) (seed : nat)
    : M Store unit :=
  with_start_run name
    (fttransformer_run_body lib encoder_params train_params params_to_skip
       train_dataset val_dataset test_dataset y_test seed).

Definition rf_params : gmap string Value :=
  {[ "n_estimators" := VInt 100; "max_depth" := VInt 20 ]}.

(** The body of the [rf_baseline] run. *)
Definition rf_run_body (lib : Libraries) (X_train test_data : DataFrame) (LABEL : string)
    : M Store unit :=
  let params := rf_params in
  set_tag "model_name" "RF";;
  log_params params;;
  let rf := RandomForestRegressor 100 20 in
  X ← lift (getcols X_train FEATURES);
  y ← lift (getcol X_train LABEL);
  w ← lift (tree_fit lib rf (rows (n_rows X_train) X) y None);
  Xt ← lift (getcols test_data FEATURES);
  let rf_preds := map (tree_predict lib rf w) (rows (n_rows test_data) Xt) in
  yt ← lift (getcol test_data LABEL);
  rf_rms ← lift (mean_squared_error lib yt rf_preds false);
  log_metric "test_rmse" rf_rms;;
  log_model (rf, w) "sk_models".

Definition rf_baseline_run (lib : Libraries) (X_train test_data : DataFrame) (LABEL : string)
    : M Store unit :=
  with_start_run "rf_baseline" (rf_run_body lib X_train test_data LABEL).

Record Pool := { pool_X : list (list Q); pool_y : list Q }.

(** [cb.Pool(X[FEATURES], X[LABEL])] *)
Definition cb_Pool (X : DataFrame) (LABEL : string) : Result Pool :=
  f ← getcols X FEATURES;
  y ← getcol X LABEL;
  mret {| pool_X := rows (n_rows X) f; pool_y := y |}.

(** The body of the [catboost] run; the fit stops early after 50 rounds
    without improvement on the evaluation set. *)
Definition catboost_run_body (lib : Libraries)
    (catb_train_dataset catb_val_dataset catb_test_dataset : Pool)
    (test_data : DataFrame) (LABEL : string) : M Store unit :=
  set_tag "model_name" "CatBoost";;
  let catb := CatBoostRegressor in
  w ← lift (tree_fit lib catb (pool_X catb_train_dataset) (pool_y catb_train_dataset)
              (Some (pool_X catb_val_dataset, pool_y catb_val_dataset, 50%Z)));
  let catb_preds := map (tree_predict lib catb w) (pool_X catb_test_dataset) in
  yt ← lift (getcol test_data LABEL);
  catb_rms ← lift (mean_squared_error lib yt catb_preds false);
  log_metric "test_rmse" catb_rms;;
  log_model (catb, w) "cb_models".

Definition catboost_run (lib : Libraries)
    (catb_train_dataset catb_val_dataset catb_test_dataset : Pool)
    (test_data : DataFrame) (LABEL : string) : M Store unit :=
  with_start_run "catboost"
    (catboost_run_body lib catb_train_dataset catb_val_dataset catb_test_dataset
       test_data LABEL).

(** The last two cells: reload a stored model and predict on the test set. *)
Definition reload_and_predict (lib : Libraries) (s : Store) (run_id : nat)
    (test_dataset : Dataset) (seed : nat) : Result Predictions :=
  loaded_ft ← load_model s run_id "tf_models";
  mret (keras_predict lib loaded_ft test_dataset seed).

(** ** Reading a store *)

Definition outcome_of {A} (r : Result A) : Outcome :=
  match r with
  | Ok _ => FINISHED
  | Raise _ => FAILED
  end.

(** What a run adds to the calls the store had accepted before. *)
Definition new_calls (s s' : Store) : list Call := drop (length (calls s)) (calls s').

Definition is_open (c : Call) : bool :=
  match c with COpen _ _ => true | _ => false end.

Definition is_seal (c : Call) : bool :=
  match c with CSeal _ _ => true | _ => false end.

(** A logging call on record [id]. *)
Definition is_logging (id : nat) (c : Call) : Prop :=
  match c with
  | CSetTag i _ _ | CLogParam i _ _ | CLogMetric i _ _ | CLogModel i _ _ => i = id
  | COpen _ _ | CSeal _ _ => False
  end.

Definition params_of (id : nat) (cs : list Call) : list (string * Value) :=
  omap (fun c => match c with
                 | CLogParam i k v => if decide (i = id) then Some (k, v) else None
                 | _ => None
                 end) cs.

Definition metrics_of (id : nat) (cs : list Call) : list (string * Q) :=
  omap (fun c => match c with
                 | CLogMetric i k v => if decide (i = id) then Some (k, v) else None
                 | _ => None
                 end) cs.

(** The state in which a [with] block runs its body: record [id] is the
    current run and it is open. *)
Definition in_run (id : nat) (s : Store) : Prop :=
  active s = Some id /\ run_status s id = Open.

(** A body that, inside a run, only adds calls [new id] and ends in [r]. *)
Definition effect {A} (body : M Store A) (new : nat -> list Call) (r : Result A) : Prop :=
  forall id s, in_run id s -> body s = (add_calls s (new id), r).

(** The store after a scoped session that started in [s]. *)
Definition sealed (s : Store) (name : string) (new : list Call) (o : Outcome) : Store :=
  let id := length (runs s) in
  {| runs := <[id := Sealed]> (runs s ++ [Open]);
     active := None;
     calls := calls s ++ COpen id name :: new ++ [CSeal id o] |}.

(** One scoped session, from [s] to [s'] with result [r]: the new record
    was opened once, then logged to, then sealed once, and it takes no
    further call (a later [log_metric] or [log_params] goes to another
    record); no run is current afterwards. *)
Definition scoped_session {A} (s s' : Store) (r : Result A) : Prop :=
  let id := length (runs s) in
  exists name logged,
    calls s' = calls s ++ COpen id name :: logged ++ [CSeal id (outcome_of r)]
    /\ Forall (is_logging id) logged
    /\ length (filter is_open (new_calls s s')) = 1
    /\ length (filter is_seal (new_calls s s')) = 1
    /\ run_status s' id = Sealed
    /\ active s' = None
    /\ (forall j, j <> id -> run_status s' j = run_status s j)
    /\ (forall cs, exists e, store_log id cs s' = (s', Raise e))
    /\ (forall k v, metrics_of id (new_calls s' (log_metric k v s').1) = [])
    /\ (forall d, params_of id (new_calls s' (log_params d s').1) = []).

(** The part of each run that does not touch the store. *)
Definition mlp_pipeline (lib : Libraries) (mlp_params train_params : gmap string Value)
    (train_dataset val_dataset test_dataset : Dataset) (y_test : list Q) (seed : nat)
    : Result (Fitted * Q) :=
  mlp ← build_mlp lib mlp_params;
  mlp ← train_mlp lib mlp train_params train_dataset val_dataset;
  flat ← ravel_of (keras_predict lib mlp test_dataset seed);
  test_rms ← mean_squared_error lib y_test flat false;
  mret (mlp, test_rms).

Definition ft_pipeline (lib : Libraries)
    (encoder_params train_params params_to_skip : gmap string Value)
    (train_dataset val_dataset test_dataset : Dataset) (y_test : list Q) (seed : nat)
    : Result (Fitted * Q) :=
  ft ← build_fttransformer lib encoder_params params_to_skip 1 "relu";
  ft ← train_model lib ft train_params train_dataset val_dataset;
  flat ← ravel_of (keras_predict lib ft test_dataset seed);
  test_rms ← mean_squared_error lib y_test flat false;
  mret (ft, test_rms).

Definition rf_pipeline (lib : Libraries) (X_train test_data : DataFrame) (LABEL : string)
    : Result (Fitted * Q) :=
  let rf := RandomForestRegressor 100 20 in
  X ← getcols X_train FEATURES;
  y ← getcol X_train LABEL;
  w ← tree_fit lib rf (rows (n_rows X_train) X) y None;
  Xt ← getcols test_data FEATURES;
  yt ← getcol test_data LABEL;
  rf_rms ← mean_squared_error lib yt
              (map (tree_predict lib rf w) (rows (n_rows test_data) Xt)) false;
  mret ((rf, w), rf_rms).

Definition catboost_pipeline (lib : Libraries)
    (catb_train_dataset catb_val_dataset catb_test_dataset : Pool)
    (test_data : DataFrame) (LABEL : string) : Result (Fitted * Q) :=
  let catb := CatBoostRegressor in
  w ← tree_fit lib catb (pool_X catb_train_dataset) (pool_y catb_train_dataset)
        (Some (pool_X catb_val_dataset, pool_y catb_val_dataset, 50%Z));
  yt ← getcol test_data LABEL;
  catb_rms ← mean_squared_error lib yt
                (map (tree_predict lib catb w) (pool_X catb_test_dataset)) false;
  mret ((catb, w), catb_rms).

(** The calls a run body makes after its parameters and tag. *)
Definition result_calls (id : nat) (path : string) (p : Result (Fitted * Q)) : list Call :=
  match p with
  | Ok (m, v) => [CLogMetric id "test_rmse" v; CLogModel id path m]
  | Raise _ => []
  end.

Definition result_of (p : Result (Fitted * Q)) : Result unit :=
  match p with
  | Ok _ => Ok tt
  | Raise e => Raise e
  end.

(** The metrics in the record a run creates when started in [s]. *)
Definition recorded_metrics (s : Store) (run : M Store unit) : list (string * Q) :=
  metrics_of (length (runs s)) (new_calls s (run s).1).

(** The parameters in the record a run creates when started in [s]. *)
Definition recorded_params (s : Store) (run : M Store unit) : list (string * Value) :=
  params_of (length (runs s)) (new_calls s (run s).1).

(** What each run evaluates: the fitted model, the test labels and the
    model's predictions on the test partition. *)
Definition mlp_evaluation (lib : Libraries) (mlp_params train_params : gmap string Value)
    (train_dataset val_dataset test_dataset : Dataset) (y_test : list Q) (seed : nat)
    : Result (Fitted * list Q * list Q) :=
  mlp ← build_mlp lib mlp_params;
  mlp ← train_mlp lib mlp train_params train_dataset val_dataset;
  flat ← ravel_of (keras_predict lib mlp test_dataset seed);
  mret (mlp, y_test, flat).

Definition ft_evaluation (lib : Libraries)
    (encoder_params train_params params_to_skip : gmap string Value)
    (train_dataset val_dataset test_dataset : Dataset) (y_test : list Q) (seed : nat)
    : Result (Fitted * list Q * list Q) :=
  ft ← build_fttransformer lib encoder_params params_to_skip 1 "relu";
  ft ← train_model lib ft train_params train_dataset val_dataset;
  flat ← ravel_of (keras_predict lib ft test_dataset seed);
  mret (ft, y_test, flat).

Definition rf_evaluation (lib : Libraries) (X_train test_data : DataFrame) (LABEL : string)
    : Result (Fitted * list Q * list Q) :=
  let rf := RandomForestRegressor 100 20 in
  X ← getcols X_train FEATURES;
  y ← getcol X_train LABEL;
  w ← tree_fit lib rf (rows (n_rows X_train) X) y None;
  Xt ← getcols test_data FEATURES;
  yt ← getcol test_data LABEL;
  mret ((rf, w), yt, map (tree_predict lib rf w) (rows (n_rows test_data) Xt)).

Definition catboost_evaluation (lib : Libraries)
    (catb_train_dataset catb_val_dataset catb_test_dataset : Pool)
    (test_data : DataFrame) (LABEL : string) : Result (Fitted * list Q * list Q) :=
  let catb := CatBoostRegressor in
  w ← tree_fit lib catb (pool_X catb_train_dataset) (pool_y catb_train_dataset)
        (Some (pool_X catb_val_dataset, pool_y catb_val_dataset, 50%Z));
  yt ← getcol test_data LABEL;
  mret ((catb, w), yt, map (tree_predict lib catb w) (pool_X catb_test_dataset)).

(** The record holds the test RMSE as its one metric when the run returned,
    and no metric when it raised. *)
Definition single_rmse_metric (lib : Libraries) (recorded : list (string * Q))
    (r : Result unit) (evaluation : Result (Fitted * list Q * list Q)) : Prop :=
  match r with
  | Ok _ =>
      exists fitted labels predictions,
        evaluation = Ok (fitted, labels, predictions)
        /\ recorded = [("test_rmse", rmse lib labels predictions)]
  | Raise _ => recorded = []
  end.

(** The run returned, and its record holds the test RMSE of [labels] and
    [predictions] as its one metric. *)
Definition records_test_rmse (lib : Libraries) (s : Store) (run : M Store unit)
    (labels predictions : list Q) : Prop :=
  (run s).2 = Ok tt
  /\ recorded_metrics s run = [("test_rmse", rmse lib labels predictions)].

(** The run raised [e], and its record holds no metric. *)
Definition records_no_metric (s : Store) (run : M Store unit) (e : Exn) : Prop :=
  (run s).2 = Raise e /\ recorded_metrics s run = [].

(** ** Reading a training run *)

(** The compiled model and the stopping policy as both trainers set them up. *)
Definition compiled_with (model : Model) (lr wd : Value) : Compiled :=
  {| c_model := model; c_optimizer := {| learning_rate := lr; weight_decay := wd |};
     c_loss := "mse"; c_metrics := ["rmse"] |}.

Definition early_stopping_on (mon : string) (p : Value) : EarlyStopping :=
  {| monitor := mon; mode := "min"; patience := p; restore_best_weights := true |}.

(** The model a trainer returns, out of what [fit] returns. *)
Definition fitted_of (r : Result (Fitted * list Q)) : Result Fitted :=
  '(model, _) ← r; mret model.

(** [w e] are the weights before epoch [e]: every epoch within the budget
    trains without an error. *)
Definition trajectory (lib : Libraries) (cm : Compiled) (train : Dataset) (n : nat)
    (w : nat -> Weights) : Prop :=
  w 0 = init_weights lib (c_model cm)
  /\ forall e, e < n -> train_epoch lib cm e train (w e) = Ok (w (S e)).

(** The monitored values improve at every epoch up to [k] and at none after
    it, as far as the budget [n] goes. *)
Definition stops_improving_at (m : nat -> Q) (k n : nat) : Prop :=
  (forall i j, i < j -> j <= k -> (m j < m i)%Q)
  /\ (forall j, k < j -> j < n -> (m k <= m j)%Q).

(** The last epoch up to [e] whose monitored value improved on every
    earlier one. *)
Fixpoint best_epoch (m : nat -> Q) (e : nat) : nat :=
  match e with
  | O => O
  | S e' => if Qltb (m (S e')) (m (best_epoch m e')) then S e' else best_epoch m e'
  end.

(** The number of epochs in a row, up to [e], that did not improve. *)
Definition epochs_without_improvement (m : nat -> Q) (e : nat) : nat :=
  e - best_epoch m e.

(** What training returns under patience [p] and a budget of [n] epochs:
    [n_run] epochs were run and the weights returned are those of the best
    of them; it halted because the budget was spent or because [p] epochs
    in a row had not improved, and it did not halt before that; for a
    sequence that stops improving at [k] it halted within [p] epochs
    after [k]. *)
Definition early_stopped (result : Result (Fitted * list Q)) (model : Model)
    (w : nat -> Weights) (m : nat -> Q) (n : nat) (p : Z) : Prop :=
  exists n_run,
    result = Ok ((model, w (S (best_epoch m (n_run - 1)))), map m (seq 0 n_run))
    /\ 0 < n_run /\ n_run <= n
    /\ (forall e, e < n_run -> (m (best_epoch m (n_run - 1)) <= m e)%Q)
    /\ (n_run = n \/ (p <= Z.of_nat (epochs_without_improvement m (n_run - 1)))%Z)
    /\ (forall e, e + 1 < n_run -> (Z.of_nat (epochs_without_improvement m e) < p)%Z)
    /\ (forall k, k < n -> stops_improving_at m k n ->
          n_run <= k + Z.to_nat p + 1
          /\ ((1 <= p)%Z ->
              best_epoch m (n_run - 1) = k /\ n_run = min n (k + Z.to_nat p + 1))).

(** What the stopping policy remembers when epoch [e] starts, for monitored
    values [m] and weights [w]. *)
Definition state_before (m : nat -> Q) (w : nat -> Weights) (e : nat) : EarlyState :=
  match e with
  | O => {| best := None; best_weights := None; wait := 0 |}
  | S e' => {| best := Some (m (best_epoch m e'));
               best_weights := Some (w (S (best_epoch m e')));
               wait := Z.of_nat (epochs_without_improvement m e') |}
  end.

(** The number of epochs the loop runs from epoch [e] on. *)
Fixpoint epochs_run (m : nat -> Q) (p : Z) (budget e : nat) : nat :=
  match budget with
  | O => O
  | S budget' =>
      if decide (p <= Z.of_nat (epochs_without_improvement m e))%Z then 1
      else S (epochs_run m p budget' (S e))
  end.

(** ** The notebook's configurations and a small instance of the libraries *)

Definition mlp_params : gmap string Value :=
  {[ "layer1_size" := VInt 512; "layer2_size" := VInt 128; "layer3_size" := VInt 64;
     "dropout_rate" := VFloat (3 # 10); "activation" := VStr "relu" ]}.


Definition train_params : gmap string Value :=
  {[ "learning_rate" := VFloat (8 # 1000); "weight_decay" := VFloat (1 # 100000);
     "early_stop_patience" := VInt 10; "num_epochs" := VInt 1000 ]}.

Definition linear_embeddings_params : gmap string Value :=
  {[ "numerical_features" := VList (map VStr NUMERIC_FEATURES);
     "categorical_features" := VList [];
     "numerical_embedding_type" := VStr "linear";
     "embedding_dim" := VInt 64; "depth" := VInt 3; "heads" := VInt 6;
     "attn_dropout" := VFloat (3 # 10); "ff_dropout" := VFloat (3 # 10);
     "explainable" := VBool true ]}.

Definition params_to_skip (numerical_data : list (list Q)) (y : list Q)
    : gmap string Value :=
  {[ "numerical_data" := VArray numerical_data; "categorical_data" := VNone;
     "y" := VArray [y] ]}.

(** A stand-in for the libraries: the weights count the epochs trained, and
    the validation metric falls until epoch 3 and rises afterwards; a dense
    layer with a negative number of units is refused, as Keras does. *)
Definition toy_lib : Libraries :=
  {| FTTransformerEncoder := fun kw =>
       Ok {| encoder_kwargs := kw;
             explainable := match kw !! "explainable" with
                            | Some (VBool b) => b
                            | _ => false
                            end |};
     ft_output_layer := fun _ _ _ _ x => [(Qsum x - 1)%Q];
     ft_importances := fun _ _ _ x => map (fun _ => 0%Q) x;
     Dense_init := fun units _ =>
       match units with
       | VInt z => if decide (z < 0)%Z
                   then Raise (ValueError "Received an invalid value for units")
                   else Ok tt
       | _ => Ok tt
       end;
     Dropout_init := fun _ => Ok tt;
     keras_activation := fun _ x => x;
     init_weights := fun _ => [];
     train_epoch := fun _ e _ _ => Ok [([], [inject_Z (Z.of_nat e)])];
     evaluate := fun _ w _ _ =>
       match w with
       | (_, [e]) :: _ => ((e - 3) * (e - 3))%Q
       | _ => 100%Q
       end;
     tree_fit := fun _ _ _ _ => Ok [];
     tree_predict := fun _ _ x => Qsum x;
     scaler_fit := fun X => map (fun _ => (0%Q, 1%Q)) X;
     scaler_transform := fun _ X => X;
     np_sqrt := fun x => inject_Z (Z.sqrt (Qfloor x));
     tf_shuffle := fun seed _ n => if Nat.even seed then seq 0 n else rev (seq 0 n) |}.

(** A five-row table with the eight features and a label. *)
Definition toy_bunch : Bunch :=
  {| data := map (fun i => map (fun j => inject_Z (Z.of_nat (i + j))) (seq 0 8)) (seq 0 5);
     target := map (fun i => inject_Z (Z.of_nat i)) (seq 0 5);
     feature_names := ["MedInc"; "HouseAge"; "AveRooms"; "AveBedrms"; "Population";
                       "AveOccup"; "Latitude"; "Longitude"];
     target_names := ["MedHouseVal"] |}.

Definition toy_frame : DataFrame :=
  match load_data toy_bunch with
  | Ok (df, _) => df
  | Raise _ => {| df_index := []; df_columns := [] |}
  end.

Definition toy_dataset (shuffle : bool) : Dataset :=
  match labelled_dataset_of toy_frame "MedHouseVal" shuffle with
  | Ok d => d
  | Raise _ => {| ds_keys := None; ds_elems := []; ds_shuffle := None; ds_batch := 1;
                  ds_shuffle_batches := None |}
  end.

Definition toy_test_ds : Dataset :=
  match df_to_dataset toy_frame None false 32 with
  | Ok d => d
  | Raise _ => {| ds_keys := None; ds_elems := []; ds_shuffle := None; ds_batch := 1;
                  ds_shuffle_batches := None |}
  end.

(** The MLP's labelled and unlabelled data sets on the five-row table, and
    the labels of the table. *)
Definition toy_mlp_dataset : Dataset :=
  match mlp_labelled_ds toy_frame "MedHouseVal" with
  | Ok d => d
  | Raise _ => {| ds_keys := None; ds_elems := []; ds_shuffle := None; ds_batch := 1;
                  ds_shuffle_batches := None |}
  end.

Definition toy_mlp_test_ds : Dataset :=
  match mlp_unlabelled_ds toy_frame with
  | Ok d => d
  | Raise _ => {| ds_keys := None; ds_elems := []; ds_shuffle := None; ds_batch := 1;
                  ds_shuffle_batches := None |}
  end.

Definition toy_labels : list Q := target toy_bunch.

Definition toy_pool : Pool :=
  match cb_Pool toy_frame "MedHouseVal" with
  | Ok pl => pl
  | Raise _ => {| pool_X := []; pool_y := [] |}
  end.



(** The weights of the small instance before each epoch. *)
Definition toy_w (e : nat) : Weights :=
  match e with
  | O => []
  | S e' => [([], [inject_Z (Z.of_nat e')])]
  end.

(** The small instance with a training step that fails. *)
Definition failing_lib : Libraries :=
  {| FTTransformerEncoder := FTTransformerEncoder toy_lib;
     ft_output_layer := ft_output_layer toy_lib;
     ft_importances := ft_importances toy_lib;
     Dense_init := Dense_init toy_lib;
     Dropout_init := Dropout_init toy_lib;
     keras_activation := keras_activation toy_lib;
     init_weights := init_weights toy_lib;
     train_epoch := fun _ _ _ _ => Raise (LibraryError "loss is not finite");
     evaluate := evaluate toy_lib;
     tree_fit := tree_fit toy_lib;
     tree_predict := tree_predict toy_lib;
     scaler_fit := scaler_fit toy_lib;
     scaler_transform := scaler_transform toy_lib;
     np_sqrt := np_sqrt toy_lib;
     tf_shuffle := tf_shuffle toy_lib |}.

(** The small instance with a training step that returns one unit of
    weights per layer, so that the MLP predicts one value per row. *)
Definition unit_lib : Libraries :=
  {| FTTransformerEncoder := FTTransformerEncoder toy_lib;
     ft_output_layer := ft_output_layer toy_lib;
     ft_importances := ft_importances toy_lib;
     Dense_init := Dense_init toy_lib;
     Dropout_init := Dropout_init toy_lib;
     keras_activation := keras_activation toy_lib;
     init_weights := init_weights toy_lib;
     train_epoch := fun _ _ _ _ => Ok [([], [1%Q]); ([], [1%Q]); ([], [1%Q])];
     evaluate := evaluate toy_lib;
     tree_fit := tree_fit toy_lib;
     tree_predict := tree_predict toy_lib;
     scaler_fit := scaler_fit toy_lib;
     scaler_transform := scaler_transform toy_lib;
     np_sqrt := np_sqrt toy_lib;
     tf_shuffle := tf_shuffle toy_lib |}.

(** ** Reading a table *)

(** Every column holds one value per row, as in a pandas frame. *)
Definition wf_frame (df : DataFrame) : Prop :=
  Forall (fun cv => length cv.2 = n_rows df) (df_columns df).

Definition column_names (df : DataFrame) : list string := map fst (df_columns df).

(** The two frames have the same rows and the same columns, and agree on
    every column that is not one of [cs]. *)
Definition same_outside (cs : list string) (df df' : DataFrame) : Prop :=
  df_index df' = df_index df
  /\ column_names df' = column_names df
  /\ forall c, c ∉ cs -> getcol df' c = getcol df c.

(** The position of the first row labelled [id]. *)
Fixpoint index_of (id : nat) (idx : list nat) : option nat :=
  match idx with
  | [] => None
  | i :: idx' => if decide (i = id) then Some 0 else S <$> index_of id idx'
  end.

(** [df.at[id, c]]: the value of column [c] in the row labelled [id]. *)
Definition cell (df : DataFrame) (id : nat) (c : string) : option Q :=
  p ← index_of id (df_index df);
  col ← assoc c (df_columns df);
  col !! p.

(** ** Reading the trainers *)

(** The keys both trainers read from [train_params], in the order they
    read them. *)
Definition train_params_keys : list string :=
  ["learning_rate"; "weight_decay"; "early_stop_patience"; "num_epochs"].

(** ** The store between two runs *)

(** The run a call was made on. *)
Definition call_run (c : Call) : nat :=
  match c with
  | COpen i _ | CSetTag i _ _ | CLogParam i _ _ | CLogMetric i _ _ | CLogModel i _ _
  | CSeal i _ => i
  end.

Definition is_model_call (c : Call) : bool :=
  match c with CLogModel _ _ _ => true | _ => false end.

(** A store between two runs: no run is current, every record is sealed
    and every call on record belongs to a record of the store. *)
Definition store_at_rest (s : Store) : Prop :=
  active s = None
  /\ Forall (fun st => st = Sealed) (runs s)
  /\ Forall (fun c => call_run c < length (runs s)) (calls s).

(** What the artifact store holds for the record of a run that ended in
    [r]: after a run that returned, the fitted model that was evaluated,
    under the run's artifact path and under no other; after a run that
    raised, nothing. *)
Definition stored_model (s' : Store) (id : nat) (path : string) (r : Result unit)
    (evaluation : Result (Fitted * list Q * list Q)) : Prop :=
  match r with
  | Ok _ =>
      exists fitted labels predictions,
        evaluation = Ok (fitted, labels, predictions)
        /\ load_model s' id path = Ok fitted
        /\ forall path', path' <> path ->
             exists msg, load_model s' id path' = Raise (MlflowException msg)
  | Raise _ =>
      forall path', exists msg, load_model s' id path' = Raise (MlflowException msg)
  end.

(** The cells of the notebook that make a run. *)
Inductive RunCell :=
| RfCell (X_train test_data : DataFrame) (LABEL : string)
| CatboostCell (catb_train_dataset catb_val_dataset catb_test_dataset : Pool)
    (test_data : DataFrame) (LABEL : string)
| MlpCell (name : string) (mlp_params train_params : gmap string Value)
    (train_dataset val_dataset test_dataset : Dataset) (y_test : list Q) (seed : nat)
| FtCell (name : string) (encoder_params train_params params_to_skip : gmap string Value)
    (train_dataset val_dataset test_dataset : Dataset) (y_test : list Q) (seed : nat).

Definition run_cell (lib : Libraries) (c : RunCell) : M Store unit :=
  match c with
  | RfCell X_train test_data LABEL => rf_baseline_run lib X_train test_data LABEL
  | CatboostCell ptrain pval ptest test_data LABEL =>
      catboost_run lib ptrain pval ptest test_data LABEL
  | MlpCell name mp tp tr va te y seed => mlp_mlflow_run lib name mp tp tr va te y seed
  | FtCell name ep tp skip tr va te y seed =>
      fttransformer_mlflow_run lib name ep tp skip tr va te y seed
  end.

(** Cells run one after the other on the same store; a cell that raises
    does not keep the next one from being run. *)
Definition run_cells (lib : Libraries) (cs : list RunCell) (s : Store) : Store :=
  foldl (fun s c => (run_cell lib c s).1) s cs.

(** ** Dict objects *)

(** The dicts of the notebook's cells are objects: a variable holds a
    reference, and two variables may hold the same one.  The heap lists
    the objects; a reference is a position in it, and an operation on a
    reference that is no object of the heap has no result. *)

(** [d.copy()]: a new object with the entries of [d]. *)
Definition dict_copy (r : nat) (h : list (gmap string Value))
    : option (list (gmap string Value) * nat) :=
  d ← h !! r; Some (h ++ [d], length h).

(** [d[k] = v], in place. *)
Definition dict_setitem (r : nat) (k : string) (v : Value) (h : list (gmap string Value))
    : option (list (gmap string Value)) :=
  d ← h !! r; Some (<[r := <[k := v]> d]> h).

(** The two statements of the PLE quantile cell that prepare its
    [params_to_skip]:
    [pleq_params_to_skip = params_to_skip.copy(); pleq_params_to_skip['y'] = None]. *)
Definition pleq_params_to_skip_cell (params_to_skip : nat) (h : list (gmap string Value))
    : option (list (gmap string Value) * nat) :=
  '(h, pleq_params_to_skip) ← dict_copy params_to_skip h;
  h ← dict_setitem pleq_params_to_skip "y" VNone h;
  Some (h, pleq_params_to_skip).

(** * Properties *)

(** ** Dictionaries and the builders *)

Lemma getitem_Some d k v : d !! k = Some v -> getitem d k = Ok v.
Proof. intros H. unfold getitem. by rewrite H. Qed.

Lemma getitem_None d k : d !! k = None -> getitem d k = Raise (KeyError k).
Proof. intros H. unfold getitem. by rewrite H. Qed.


(** A model comes out of [build_mlp] only when the four keys it reads are
    there and the constructors accept what they hold, and it is the
    five-layer stack. *)
Lemma build_mlp_Ok_checked lib params m :
  build_mlp lib params = Ok m ->
  exists u1 a r u2,
    params !! "layer1_size" = Some u1 /\ params !! "activation" = Some a /\
    params !! "dropout_rate" = Some r /\ params !! "layer2_size" = Some u2 /\
    Dense_init lib u1 a = Ok tt /\ Dropout_init lib r = Ok tt /\
    Dense_init lib u2 a = Ok tt /\ Dense_init lib (VInt 1) (VStr "relu") = Ok tt /\
    m = Sequential [Dense u1 a; Dropout r; Dense u2 a; Dropout r;
                    Dense (VInt 1) (VStr "relu")].
Proof.
  unfold build_mlp, new_Dense, new_Dropout, getitem. intros H.
  destruct (params !! "layer1_size") as [u1|] eqn:E1; [|discriminate].
  destruct (params !! "activation") as [a|] eqn:E2; [|discriminate].
  cbn in H. destruct (Dense_init lib u1 a) as [[]|] eqn:C1; [|discriminate].
  cbn in H. destruct (params !! "dropout_rate") as [r|] eqn:E3; [|discriminate].
  cbn in H. destruct (Dropout_init lib r) as [[]|] eqn:C2; [|discriminate].
  cbn in H. destruct (params !! "layer2_size") as [u2|] eqn:E4; [|discriminate].
  cbn in H. destruct (Dense_init lib u2 a) as [[]|] eqn:C3; [|discriminate].
  cbn in H. destruct (Dense_init lib (VInt 1) (VStr "relu")) as [[]|] eqn:C4;
    [|discriminate].
  cbn in H. injection H as <-. exists u1, a, r, u2. repeat split; done.
Qed.

Lemma build_mlp_Ok lib params m :
  build_mlp lib params = Ok m ->
  exists u1 a r u2,
    params !! "layer1_size" = Some u1 /\ params !! "activation" = Some a /\
    params !! "dropout_rate" = Some r /\ params !! "layer2_size" = Some u2 /\
    m = Sequential [Dense u1 a; Dropout r; Dense u2 a; Dropout r;
                    Dense (VInt 1) (VStr "relu")].
Proof.
  intros H. apply build_mlp_Ok_checked in H
    as (u1 & a & r & u2 & H1 & H2 & H3 & H4 & _ & _ & _ & _ & ->).
  by exists u1, a, r, u2.
Qed.


Lemma call_kwargs_disjoint (a b : gmap string Value) :
  a ##ₘ b -> call_kwargs a b = Ok (a ∪ b).
Proof.
  intros H. unfold call_kwargs. rewrite decide_True; [done|].
  apply map_disjoint_dom in H. apply disjoint_intersection_L in H. exact H.
Qed.





(** ** The tracking store inside a run *)

Lemma add_calls_nil s : add_calls s [] = s.
Proof. destruct s. unfold add_calls. cbn. by rewrite app_nil_r. Qed.

Lemma add_calls_app s cs1 cs2 :
  add_calls (add_calls s cs1) cs2 = add_calls s (cs1 ++ cs2).
Proof. unfold add_calls. cbn. by rewrite app_assoc. Qed.

Lemma in_run_add_calls id s cs : in_run id s -> in_run id (add_calls s cs).
Proof. intros [Ha Hs]. split; [exact Ha | exact Hs]. Qed.

Lemma current_run_in_run id s : in_run id s -> current_run s = (s, Ok id).
Proof. intros [Ha _]. unfold current_run. by rewrite Ha. Qed.

Lemma store_log_in_run id s cs :
  in_run id s -> store_log id cs s = (add_calls s cs, Ok tt).
Proof. intros [_ Hs]. unfold store_log. by rewrite Hs. Qed.

Lemma effect_ret {A} (a : A) : effect (mret a) (fun _ => []) (Ok a).
Proof. intros id s _. by rewrite add_calls_nil. Qed.

Lemma effect_lift {A} (r : Result A) : effect (lift r) (fun _ => []) r.
Proof. intros id s _. unfold lift. by rewrite add_calls_nil. Qed.

Lemma effect_bind_Ok {A B} (m : M Store A) (f : A -> M Store B) n1 a n2 r :
  effect m n1 (Ok a) -> effect (f a) n2 r ->
  effect (m ≫= f) (fun id => n1 id ++ n2 id) r.
Proof.
  intros Hm Hf id s Hin. unfold mbind, M_bind.
  rewrite (Hm id s Hin).
  rewrite (Hf id _ (in_run_add_calls id s (n1 id) Hin)).
  by rewrite add_calls_app.
Qed.

Lemma effect_bind_Raise {A B} (m : M Store A) (f : A -> M Store B) n1 e :
  effect m n1 (Raise e) -> effect (m ≫= f) n1 (Raise e).
Proof.
  intros Hm id s Hin. unfold mbind, M_bind. by rewrite (Hm id s Hin).
Qed.

(** Binding a computation that leaves the store alone. *)
Lemma effect_bind_lift {A B} (x : Result A) (f : A -> M Store B) new r :
  match x with
  | Ok a => effect (f a) new r
  | Raise e => new = (fun _ => []) /\ r = Raise e
  end ->
  effect (lift x ≫= f) new r.
Proof.
  destruct x as [a|e].
  - intros Hf id s Hin. unfold mbind, M_bind, lift. by apply Hf.
  - intros [-> ->] id s Hin. unfold mbind, M_bind, lift. by rewrite add_calls_nil.
Qed.

Lemma effect_fluent (f : nat -> list Call) :
  effect (id ← current_run; store_log id (f id)) f (Ok tt).
Proof.
  intros id s Hin. unfold mbind, M_bind.
  rewrite (current_run_in_run id s Hin). by apply store_log_in_run.
Qed.

Lemma effect_set_tag k v : effect (set_tag k v) (fun id => [CSetTag id k v]) (Ok tt).
Proof. apply (effect_fluent (fun id => [CSetTag id k v])). Qed.

Lemma effect_log_params d : effect (log_params d) (fun id => param_calls id d) (Ok tt).
Proof. apply (effect_fluent (fun id => param_calls id d)). Qed.

Lemma effect_log_metric k v :
  effect (log_metric k v) (fun id => [CLogMetric id k v]) (Ok tt).
Proof. apply (effect_fluent (fun id => [CLogMetric id k v])). Qed.

Lemma effect_log_model m path :
  effect (log_model m path) (fun id => [CLogModel id path m]) (Ok tt).
Proof. apply (effect_fluent (fun id => [CLogModel id path m])). Qed.

(** The tail every run body shares: the metric, then the model. *)
Lemma effect_results path (p : Result (Fitted * Q)) :
  effect (mv ← lift p; log_metric "test_rmse" mv.2;; log_model mv.1 path)
         (fun id => result_calls id path p) (result_of p).
Proof.
  apply effect_bind_lift. destruct p as [[m v]|e]; [|done].
  cbn [result_calls result_of fst snd].
  apply (effect_bind_Ok _ _ (fun id => [CLogMetric id "test_rmse" v]) tt
           (fun id => [CLogModel id path m])).
  - apply effect_log_metric.
  - apply effect_log_model.
Qed.

(** Binding in [M] is associative. *)
Lemma M_bind_assoc {S A B C} (m : M S A) (f : A -> M S B) (g : B -> M S C) s :
  ((m ≫= f) ≫= g) s = (m ≫= (fun a => f a ≫= g)) s.
Proof.
  unfold mbind, M_bind. destruct (m s) as [s' [a|e]]; reflexivity.
Qed.

(** ** What each run body does to the store *)

Ltac unfold_store_ops :=
  unfold log_params, set_tag, log_metric, log_model, current_run, store_log,
    run_status, lift, add_calls;
  unfold mbind, M_bind, Result_bind, mret, M_ret, Result_ret.

Ltac run_open Hs := repeat (cbn [runs active calls fst snd]; rewrite ?Hs).

Ltac same_store :=
  cbn [result_calls result_of];
  f_equal; f_equal; rewrite <- ?app_assoc, ?app_nil_r; reflexivity.

Lemma mlp_run_body_effect lib mp tp tr va te y seed :
  effect (mlp_run_body lib mp tp tr va te y seed)
    (fun id => param_calls id mp ++ param_calls id tp ++ [CSetTag id "model_name" "MLP"]
               ++ result_calls id "tf_models" (mlp_pipeline lib mp tp tr va te y seed))
    (result_of (mlp_pipeline lib mp tp tr va te y seed)).
Proof.
  intros id [rs ac cs] [Ha Hs]. cbn in Ha, Hs. subst ac.
  unfold run_status in Hs. cbn in Hs.
  unfold mlp_run_body, mlp_pipeline. unfold_store_ops. run_open Hs.
  destruct (build_mlp lib mp) as [m|e]; [|same_store].
  destruct (train_mlp lib m tp tr va) as [f|e]; [|same_store].
  destruct (ravel_of (keras_predict lib f te seed)) as [flat|e]; [|same_store].
  destruct (mean_squared_error lib y flat false) as [v|e]; [|same_store].
  run_open Hs. same_store.
Qed.

Lemma fttransformer_run_body_effect lib ep tp skip tr va te y seed :
  effect (fttransformer_run_body lib ep tp skip tr va te y seed)
    (fun id => [CSetTag id "model_name" "FTTransformer"] ++ param_calls id ep
               ++ param_calls id tp
               ++ result_calls id "tf_models" (ft_pipeline lib ep tp skip tr va te y seed))
    (result_of (ft_pipeline lib ep tp skip tr va te y seed)).
Proof.
  intros id [rs ac cs] [Ha Hs]. cbn in Ha, Hs. subst ac.
  unfold run_status in Hs. cbn in Hs.
  unfold fttransformer_run_body, ft_pipeline. unfold_store_ops. run_open Hs.
  destruct (build_fttransformer lib ep skip 1 "relu") as [m|e]; [|same_store].
  destruct (train_model lib m tp tr va) as [f|e]; [|same_store].
  destruct (ravel_of (keras_predict lib f te seed)) as [flat|e]; [|same_store].
  destruct (mean_squared_error lib y flat false) as [v|e]; [|same_store].
  run_open Hs. same_store.
Qed.

Lemma rf_run_body_effect lib X_train test_data LABEL :
  effect (rf_run_body lib X_train test_data LABEL)
    (fun id => [CSetTag id "model_name" "RF"] ++ param_calls id rf_params
               ++ result_calls id "sk_models" (rf_pipeline lib X_train test_data LABEL))
    (result_of (rf_pipeline lib X_train test_data LABEL)).
Proof.
  intros id [rs ac cs] [Ha Hs]. cbn in Ha, Hs. subst ac.
  unfold run_status in Hs. cbn in Hs.
  unfold rf_run_body, rf_pipeline. unfold_store_ops. run_open Hs.
  destruct (getcols X_train FEATURES) as [X|e]; [|same_store].
  destruct (getcol X_train LABEL) as [y|e]; [|same_store].
  destruct (tree_fit lib _ _ y None) as [w|e]; [|same_store].
  destruct (getcols test_data FEATURES) as [Xt|e]; [|same_store].
  destruct (getcol test_data LABEL) as [yt|e]; [|same_store].
  destruct (mean_squared_error lib yt _ false) as [v|e]; [|same_store].
  run_open Hs. same_store.
Qed.

Lemma catboost_run_body_effect lib ptrain pval ptest test_data LABEL :
  effect (catboost_run_body lib ptrain pval ptest test_data LABEL)
    (fun id => [CSetTag id "model_name" "CatBoost"]
               ++ result_calls id "cb_models"
                    (catboost_pipeline lib ptrain pval ptest test_data LABEL))
    (result_of (catboost_pipeline lib ptrain pval ptest test_data LABEL)).
Proof.
  intros id [rs ac cs] [Ha Hs]. cbn in Ha, Hs. subst ac.
  unfold run_status in Hs. cbn in Hs.
  unfold catboost_run_body, catboost_pipeline. unfold_store_ops. run_open Hs.
  destruct (tree_fit lib _ _ _ _) as [w|e]; [|same_store].
  destruct (getcol test_data LABEL) as [yt|e]; [|same_store].
  destruct (mean_squared_error lib yt _ false) as [v|e]; [|same_store].
  run_open Hs. same_store.
Qed.

(** ** The scoped session *)

Lemma with_start_run_effect {A} name (body : M Store A) new r s :
  effect body new r -> active s = None ->
  with_start_run name body s
  = (sealed s name (new (length (runs s))) (outcome_of r), r).
Proof.
  intros Hbody Hact. unfold with_start_run, start_run. rewrite Hact.
  unfold store_open, set_active. unfold mbind, M_bind, mret, M_ret. cbn [runs active calls].
  set (id := length (runs s)).
  set (s1 := {| runs := runs s ++ [Open]; active := Some id;
                calls := calls s ++ [COpen id name] |}).
  assert (in_run id s1) as Hin.
  { split; [done|]. unfold run_status, s1. cbn.
    by rewrite lookup_app_r, Nat.sub_diag. }
  rewrite (Hbody id s1 Hin).
  assert (forall o, (end_run o (add_calls s1 (new id))).1 = sealed s name (new id) o)
    as Hend.
  { intros o. unfold end_run, store_seal. cbn [add_calls active s1].
    destruct Hin as [_ Hst]. unfold run_status in *. cbn [add_calls runs s1] in *.
    unfold mbind, M_bind, set_active, add_calls, s1. cbn [runs active calls].
    rewrite Hst. cbn [runs active calls fst].
    unfold sealed. fold id. f_equal. rewrite <- !app_assoc. reflexivity. }
  destruct r as [a|e]; cbn [outcome_of]; by rewrite Hend.
Qed.

Lemma filter_is_open_logging id cs :
  Forall (is_logging id) cs -> filter is_open cs = [] /\ filter is_seal cs = [].
Proof.
  induction 1 as [|c cs Hc _ [IH1 IH2]]; [done|].
  destruct c; cbn in Hc; try contradiction; rewrite !filter_cons; cbn;
    rewrite ?IH1, ?IH2; done.
Qed.

(** Outside a run, a fluent logging call opens a record of its own. *)
Lemma fluent_log_no_run (f : nat -> list Call) s :
  active s = None ->
  (id ← current_run; store_log id (f id)) s
  = ({| runs := runs s ++ [Open]; active := Some (length (runs s));
        calls := calls s ++ COpen (length (runs s)) "" :: f (length (runs s)) |},
     Ok tt).
Proof.
  intros Hact. unfold mbind at 1, M_bind at 1, current_run, start_run. rewrite Hact.
  unfold store_open, set_active, store_log, run_status, add_calls.
  unfold mbind, M_bind, mret, M_ret. cbn [runs active calls].
  rewrite lookup_app_r, Nat.sub_diag by done. cbn.
  by rewrite <- app_assoc.
Qed.

Lemma log_metric_no_run k v s :
  active s = None ->
  log_metric k v s
  = ({| runs := runs s ++ [Open]; active := Some (length (runs s));
        calls := calls s ++ [COpen (length (runs s)) "";
                             CLogMetric (length (runs s)) k v] |}, Ok tt).
Proof. apply (fluent_log_no_run (fun i => [CLogMetric i k v])). Qed.

Lemma log_params_no_run d s :
  active s = None ->
  log_params d s
  = ({| runs := runs s ++ [Open]; active := Some (length (runs s));
        calls := calls s ++ COpen (length (runs s)) ""
                            :: param_calls (length (runs s)) d |}, Ok tt).
Proof. apply (fluent_log_no_run (fun i => param_calls i d)). Qed.

Lemma new_calls_opened s rs a name cs :
  new_calls s {| runs := rs; active := a; calls := calls s ++ name :: cs |} = name :: cs.
Proof. unfold new_calls. cbn. by rewrite drop_app_length. Qed.

Lemma length_sealed s name new o : length (runs (sealed s name new o)) = S (length (runs s)).
Proof. unfold sealed. cbn. rewrite length_insert, length_app. cbn. lia. Qed.

Lemma params_of_other id id' (d : gmap string Value) :
  id' <> id -> params_of id (param_calls id' d) = [].
Proof.
  intros Hne. unfold params_of, param_calls.
  induction (map_to_list d) as [|[k v] l IH]; [done|].
  cbn. rewrite decide_False by done. exact IH.
Qed.

Lemma sealed_scoped_session {A} s name new (r : Result A) :
  Forall (is_logging (length (runs s))) new ->
  scoped_session s (sealed s name new (outcome_of r)) r.
Proof.
  intros Hlog. unfold scoped_session. exists name, new.
  set (id := length (runs s)) in *.
  assert (new_calls s (sealed s name new (outcome_of r))
          = COpen id name :: new ++ [CSeal id (outcome_of r)]) as Hnew.
  { unfold new_calls, sealed. cbn. by rewrite drop_app_length. }
  destruct (filter_is_open_logging id new Hlog) as [Ho Hs].
  assert (run_status (sealed s name new (outcome_of r)) id = Sealed) as Hst.
  { unfold run_status, sealed. cbn. fold id.
    rewrite list_lookup_insert_eq; [done|]. rewrite length_app. cbn. lia. }
  repeat split.
  - done.
  - rewrite Hnew, filter_cons, filter_app, Ho. cbn. done.
  - rewrite Hnew, filter_cons, filter_app, Hs. cbn. done.
  - exact Hst.
  - intros j Hj. unfold run_status, sealed. cbn. fold id.
    rewrite list_lookup_insert_ne by done.
    destruct (decide (j < id)) as [Hlt|Hge].
    + by rewrite lookup_app_l.
    + rewrite !lookup_ge_None_2; [done| |]; rewrite ?length_app; cbn; unfold id in *; lia.
  - intros cs. eexists. unfold store_log. rewrite Hst. reflexivity.
  - intros k v. rewrite log_metric_no_run by done.
    cbn [fst]. rewrite new_calls_opened. cbn [metrics_of omap list_omap].
    rewrite length_sealed. fold id. by rewrite decide_False by lia.
  - intros d. rewrite log_params_no_run by done.
    cbn [fst]. rewrite new_calls_opened. cbn [params_of omap list_omap].
    rewrite length_sealed. fold id. apply params_of_other. lia.
Qed.

Lemma Forall_logging_params id d : Forall (is_logging id) (param_calls id d).
Proof. unfold param_calls. apply Forall_map. apply Forall_forall. intros; done. Qed.

Lemma Forall_logging_results id path p : Forall (is_logging id) (result_calls id path p).
Proof. destruct p as [[m v]|e]; cbn; repeat constructor. Qed.

Lemma new_calls_sealed s name new o :
  new_calls s (sealed s name new o)
  = COpen (length (runs s)) name :: new ++ [CSeal (length (runs s)) o].
Proof. unfold new_calls, sealed. cbn. by rewrite drop_app_length. Qed.

Lemma mlp_mlflow_run_eq lib name mp tp tr va te y seed s :
  active s = None ->
  mlp_mlflow_run lib name mp tp tr va te y seed s
  = (sealed s name
       (param_calls (length (runs s)) mp ++ param_calls (length (runs s)) tp
        ++ [CSetTag (length (runs s)) "model_name" "MLP"]
        ++ result_calls (length (runs s)) "tf_models"
             (mlp_pipeline lib mp tp tr va te y seed))
       (outcome_of (result_of (mlp_pipeline lib mp tp tr va te y seed))),
     result_of (mlp_pipeline lib mp tp tr va te y seed)).
Proof.
  intros Hact. unfold mlp_mlflow_run.
  by rewrite (with_start_run_effect _ _ _ _ s (mlp_run_body_effect _ _ _ _ _ _ _ _) Hact).
Qed.

Lemma fttransformer_mlflow_run_eq lib name ep tp skip tr va te y seed s :
  active s = None ->
  fttransformer_mlflow_run lib name ep tp skip tr va te y seed s
  = (sealed s name
       ([CSetTag (length (runs s)) "model_name" "FTTransformer"]
        ++ param_calls (length (runs s)) ep ++ param_calls (length (runs s)) tp
        ++ result_calls (length (runs s)) "tf_models"
             (ft_pipeline lib ep tp skip tr va te y seed))
       (outcome_of (result_of (ft_pipeline lib ep tp skip tr va te y seed))),
     result_of (ft_pipeline lib ep tp skip tr va te y seed)).
Proof.
  intros Hact. unfold fttransformer_mlflow_run.
  by rewrite (with_start_run_effect _ _ _ _ s
                (fttransformer_run_body_effect _ _ _ _ _ _ _ _ _) Hact).
Qed.

Lemma rf_baseline_run_eq lib X_train test_data LABEL s :
  active s = None ->
  rf_baseline_run lib X_train test_data LABEL s
  = (sealed s "rf_baseline"
       ([CSetTag (length (runs s)) "model_name" "RF"]
        ++ param_calls (length (runs s)) rf_params
        ++ result_calls (length (runs s)) "sk_models"
             (rf_pipeline lib X_train test_data LABEL))
       (outcome_of (result_of (rf_pipeline lib X_train test_data LABEL))),
     result_of (rf_pipeline lib X_train test_data LABEL)).
Proof.
  intros Hact. unfold rf_baseline_run.
  by rewrite (with_start_run_effect _ _ _ _ s (rf_run_body_effect _ _ _ _) Hact).
Qed.

Lemma catboost_run_eq lib ptrain pval ptest test_data LABEL s :
  active s = None ->
  catboost_run lib ptrain pval ptest test_data LABEL s
  = (sealed s "catboost"
       ([CSetTag (length (runs s)) "model_name" "CatBoost"]
        ++ result_calls (length (runs s)) "cb_models"
             (catboost_pipeline lib ptrain pval ptest test_data LABEL))
       (outcome_of (result_of (catboost_pipeline lib ptrain pval ptest test_data LABEL))),
     result_of (catboost_pipeline lib ptrain pval ptest test_data LABEL)).
Proof.
  intros Hact. unfold catboost_run.
  by rewrite (with_start_run_effect _ _ _ _ s (catboost_run_body_effect _ _ _ _ _ _) Hact).
Qed.

Create HintDb logging.

#[local] Hint Resolve Forall_logging_params Forall_logging_results : logging.

Lemma Forall_logging_tag id k v : Forall (is_logging id) [CSetTag id k v].
Proof. by repeat constructor. Qed.

#[local] Hint Resolve Forall_logging_tag : logging.

(** C1.  Every scoped run session opens its record once and seals it once,
    on both exits.  Started from a store with no run in progress, each of
    the four runs of the notebook, whatever its body does (complete or
    raise, for any behaviour of the libraries), adds to the store exactly:
    one [open] of a new record, then logging calls on that record, then
    one [seal] ([FINISHED] after a normal completion, [FAILED] after an
    exception).  Afterwards the record is [Sealed], every attempt to log to
    it is refused and leaves the store as it is, a later [log_metric] or
    [log_params] adds nothing to it (it goes to a record of its own), no
    run is current, and no other record has changed state. *)
Theorem run_session_opened_once_sealed_once lib name mp tp ep skip tr va te y seed
    X_train test_data LABEL ptrain pval ptest s :
  active s = None ->
  scoped_session s (mlp_mlflow_run lib name mp tp tr va te y seed s).1
                   (mlp_mlflow_run lib name mp tp tr va te y seed s).2
  /\ scoped_session s (fttransformer_mlflow_run lib name ep tp skip tr va te y seed s).1
                      (fttransformer_mlflow_run lib name ep tp skip tr va te y seed s).2
  /\ scoped_session s (rf_baseline_run lib X_train test_data LABEL s).1
                      (rf_baseline_run lib X_train test_data LABEL s).2
  /\ scoped_session s (catboost_run lib ptrain pval ptest test_data LABEL s).1
                      (catboost_run lib ptrain pval ptest test_data LABEL s).2.
Proof.
  intros Hact.
  rewrite mlp_mlflow_run_eq, fttransformer_mlflow_run_eq, rf_baseline_run_eq,
    catboost_run_eq by exact Hact.
  cbn [fst snd].
  split; [|split; [|split]];
    match goal with
    | |- scoped_session ?s (sealed ?s ?n ?new _) ?r =>
        apply (sealed_scoped_session s n new r)
    end;
    repeat (apply Forall_app_2; [solve [auto with logging]|]);
    auto with logging.
Qed.

(** ** Parameters and metrics a run records *)

Lemma params_of_app id cs1 cs2 :
  params_of id (cs1 ++ cs2) = params_of id cs1 ++ params_of id cs2.
Proof. unfold params_of. apply omap_app. Qed.

Lemma metrics_of_app id cs1 cs2 :
  metrics_of id (cs1 ++ cs2) = metrics_of id cs1 ++ metrics_of id cs2.
Proof. unfold metrics_of. apply omap_app. Qed.

Lemma params_of_param_calls id (d : gmap string Value) :
  params_of id (param_calls id d) = map_to_list d.
Proof.
  unfold params_of, param_calls.
  induction (map_to_list d) as [|[k v] l IH]; [done|].
  cbn. rewrite decide_True by done. cbn in IH. by rewrite IH.
Qed.

Lemma metrics_of_param_calls id (d : gmap string Value) :
  metrics_of id (param_calls id d) = [].
Proof.
  unfold metrics_of, param_calls.
  induction (map_to_list d) as [|[k v] l IH]; [done|]. exact IH.
Qed.

Lemma params_of_result_calls id path p : params_of id (result_calls id path p) = [].
Proof. by destruct p as [[m v]|e]. Qed.

Lemma metrics_of_result_calls id path p :
  metrics_of id (result_calls id path p)
  = match p with Ok (_, v) => [("test_rmse", v)] | Raise _ => [] end.
Proof.
  destruct p as [[m v]|e]; [|done]. cbn. by rewrite decide_True.
Qed.

Lemma squared_errors_zip y p :
  squared_errors y p
  = map (fun yp => ((yp.1 - yp.2) * (yp.1 - yp.2))%Q) (zip y p).
Proof.
  unfold squared_errors. revert p.
  induction y as [|a y IH]; intros [|b p]; cbn; [done..|]. by rewrite IH.
Qed.

(** With [squared=False], scikit-learn's mean squared error is the
    root-mean-squared error. *)
Lemma mean_squared_error_rmse lib y p v :
  mean_squared_error lib y p false = Ok v -> v = rmse lib y p.
Proof.
  unfold mean_squared_error, rmse. case_decide; [|discriminate].
  intros [= <-]. by rewrite squared_errors_zip.
Qed.

Lemma mean_squared_error_squared lib y p v :
  mean_squared_error lib y p true = Ok v ->
  v = (Qsum (squared_errors y p) / inject_Z (Z.of_nat (length y)))%Q.
Proof.
  unfold mean_squared_error. case_decide; [|discriminate]. by intros [= <-].
Qed.

Lemma recorded_metrics_sealed id name new o :
  metrics_of id (COpen id name :: new ++ [CSeal id o]) = metrics_of id new.
Proof.
  change (COpen id name :: new ++ [CSeal id o])
    with ([COpen id name] ++ new ++ [CSeal id o]).
  rewrite !metrics_of_app. cbn. by rewrite app_nil_r.
Qed.

Lemma recorded_params_sealed id name new o :
  params_of id (COpen id name :: new ++ [CSeal id o]) = params_of id new.
Proof.
  change (COpen id name :: new ++ [CSeal id o])
    with ([COpen id name] ++ new ++ [CSeal id o]).
  rewrite !params_of_app. cbn. by rewrite app_nil_r.
Qed.

Lemma recorded_metrics_mlp lib name mp tp tr va te y seed s :
  active s = None ->
  recorded_metrics s (mlp_mlflow_run lib name mp tp tr va te y seed)
  = match mlp_pipeline lib mp tp tr va te y seed with
    | Ok (_, v) => [("test_rmse", v)]
    | Raise _ => []
    end.
Proof.
  intros Hact. unfold recorded_metrics. rewrite mlp_mlflow_run_eq by done.
  cbn [fst]. rewrite new_calls_sealed, recorded_metrics_sealed.
  rewrite !metrics_of_app, !metrics_of_param_calls, metrics_of_result_calls.
  reflexivity.
Qed.

Lemma recorded_metrics_ft lib name ep tp skip tr va te y seed s :
  active s = None ->
  recorded_metrics s (fttransformer_mlflow_run lib name ep tp skip tr va te y seed)
  = match ft_pipeline lib ep tp skip tr va te y seed with
    | Ok (_, v) => [("test_rmse", v)]
    | Raise _ => []
    end.
Proof.
  intros Hact. unfold recorded_metrics. rewrite fttransformer_mlflow_run_eq by done.
  cbn [fst]. rewrite new_calls_sealed, recorded_metrics_sealed.
  rewrite !metrics_of_app, !metrics_of_param_calls, metrics_of_result_calls.
  reflexivity.
Qed.

Lemma recorded_metrics_rf lib X_train test_data LABEL s :
  active s = None ->
  recorded_metrics s (rf_baseline_run lib X_train test_data LABEL)
  = match rf_pipeline lib X_train test_data LABEL with
    | Ok (_, v) => [("test_rmse", v)]
    | Raise _ => []
    end.
Proof.
  intros Hact. unfold recorded_metrics. rewrite rf_baseline_run_eq by done.
  cbn [fst]. rewrite new_calls_sealed, recorded_metrics_sealed.
  rewrite !metrics_of_app, !metrics_of_param_calls, metrics_of_result_calls.
  reflexivity.
Qed.

Lemma recorded_metrics_catboost lib ptrain pval ptest test_data LABEL s :
  active s = None ->
  recorded_metrics s (catboost_run lib ptrain pval ptest test_data LABEL)
  = match catboost_pipeline lib ptrain pval ptest test_data LABEL with
    | Ok (_, v) => [("test_rmse", v)]
    | Raise _ => []
    end.
Proof.
  intros Hact. unfold recorded_metrics. rewrite catboost_run_eq by done.
  cbn [fst]. rewrite new_calls_sealed, recorded_metrics_sealed.
  rewrite !metrics_of_app, metrics_of_result_calls.
  reflexivity.
Qed.

Lemma fit_model lib cm train epochs val es f h :
  fit lib cm train epochs val es = Ok (f, h) -> f.1 = c_model cm.
Proof.
  unfold fit. destruct (as_int epochs) as [n|e]; [|discriminate]. cbn.
  destruct (as_int (patience es)) as [p|e]; [|discriminate]. cbn.
  destruct (fit_loop _ _ _ _ _ _ _ _ _ _) as [[w hist]|e]; [|discriminate].
  cbn. by intros [= <- _].
Qed.

Lemma train_mlp_model lib m tp tr va f : train_mlp lib m tp tr va = Ok f -> f.1 = m.
Proof.
  unfold train_mlp.
  destruct (getitem tp "learning_rate") as [lr|e]; [|discriminate]. cbn.
  destruct (getitem tp "weight_decay") as [wd|e]; [|discriminate]. cbn.
  destruct (getitem tp "early_stop_patience") as [p|e]; [|discriminate]. cbn.
  destruct (getitem tp "num_epochs") as [n|e]; [|discriminate]. cbn.
  destruct (fit _ _ _ _ _ _) as [[f' h]|e] eqn:E; [|discriminate].
  cbn. intros [= <-]. by apply fit_model in E.
Qed.

Lemma train_model_model lib m tp tr va f : train_model lib m tp tr va = Ok f -> f.1 = m.
Proof.
  unfold train_model.
  destruct (getitem tp "learning_rate") as [lr|e]; [|discriminate]. cbn.
  destruct (getitem tp "weight_decay") as [wd|e]; [|discriminate]. cbn.
  destruct (getitem tp "early_stop_patience") as [p|e]; [|discriminate]. cbn.
  destruct (getitem tp "num_epochs") as [n|e]; [|discriminate]. cbn.
  destruct (fit _ _ _ _ _ _) as [[f' h]|e] eqn:E; [|discriminate].
  cbn. intros [= <-]. by apply fit_model in E.
Qed.

(** The predictions of a [Sequential] model are an array. *)
Lemma keras_predict_Sequential lib (f : Fitted) layers d seed :
  f.1 = Sequential layers -> keras_predict lib f d seed = PArray (predict lib f d seed).
Proof. intros H. unfold keras_predict. by rewrite H. Qed.

Lemma keras_predict_mlp lib mp m tp tr va f d seed :
  build_mlp lib mp = Ok m -> train_mlp lib m tp tr va = Ok f ->
  ravel_of (keras_predict lib f d seed) = Ok (ravel (predict lib f d seed)).
Proof.
  intros Hb Ht. apply build_mlp_Ok in Hb as (u1 & a & r & u2 & _ & _ & _ & _ & ->).
  apply train_mlp_model in Ht. by rewrite (keras_predict_Sequential _ _ _ _ _ Ht).
Qed.

(** The predictions of a transformer with an explainable encoder are a
    dict, which has no [ravel]. *)
Lemma ravel_of_explainable lib (f : Fitted) enc out_dim act d seed :
  f.1 = FTTransformer enc out_dim act -> explainable enc = true ->
  ravel_of (keras_predict lib f d seed)
  = Raise (AttributeError "'dict' object has no attribute 'ravel'").
Proof. intros H He. unfold keras_predict. by rewrite H, He. Qed.

Lemma mean_squared_error_is_rmse lib y p :
  length y = length p -> 0 < length y ->
  mean_squared_error lib y p false = Ok (rmse lib y p).
Proof.
  intros H1 H2. destruct (mean_squared_error lib y p false) as [v|e] eqn:E.
  - by rewrite (mean_squared_error_rmse _ _ _ _ E).
  - unfold mean_squared_error in E. rewrite decide_True in E; [discriminate|]. lia.
Qed.

(** Each run's pipeline is its evaluation followed by the metric. *)
Lemma mlp_pipeline_evaluation lib mp tp tr va te y seed :
  mlp_pipeline lib mp tp tr va te y seed
  = (e ← mlp_evaluation lib mp tp tr va te y seed;
     v ← mean_squared_error lib e.1.2 e.2 false;
     mret (e.1.1, v)).
Proof.
  unfold mlp_pipeline, mlp_evaluation.
  destruct (build_mlp lib mp) as [m|e]; [|done]. cbn.
  destruct (train_mlp lib m tp tr va) as [f|e]; [|done]. cbn.
  destruct (ravel_of (keras_predict lib f te seed)) as [flat|e]; done.
Qed.

Lemma ft_pipeline_evaluation lib ep tp skip tr va te y seed :
  ft_pipeline lib ep tp skip tr va te y seed
  = (e ← ft_evaluation lib ep tp skip tr va te y seed;
     v ← mean_squared_error lib e.1.2 e.2 false;
     mret (e.1.1, v)).
Proof.
  unfold ft_pipeline, ft_evaluation.
  destruct (build_fttransformer lib ep skip 1 "relu") as [m|e]; [|done]. cbn.
  destruct (train_model lib m tp tr va) as [f|e]; [|done]. cbn.
  destruct (ravel_of (keras_predict lib f te seed)) as [flat|e]; done.
Qed.

Lemma rf_pipeline_evaluation lib X_train test_data LABEL :
  rf_pipeline lib X_train test_data LABEL
  = (e ← rf_evaluation lib X_train test_data LABEL;
     v ← mean_squared_error lib e.1.2 e.2 false;
     mret (e.1.1, v)).
Proof.
  unfold rf_pipeline, rf_evaluation.
  destruct (getcols X_train FEATURES) as [X|e]; [|done]. cbn -[getcols getcol].
  destruct (getcol X_train LABEL) as [y0|e]; [|done]. cbn -[getcols getcol].
  destruct (tree_fit lib _ _ y0 None) as [w|e]; [|done]. cbn -[getcols getcol].
  destruct (getcols test_data FEATURES) as [Xt|e]; [|done]. cbn -[getcols getcol].
  destruct (getcol test_data LABEL) as [yt|e]; done.
Qed.

Lemma catboost_pipeline_evaluation lib ptrain pval ptest test_data LABEL :
  catboost_pipeline lib ptrain pval ptest test_data LABEL
  = (e ← catboost_evaluation lib ptrain pval ptest test_data LABEL;
     v ← mean_squared_error lib e.1.2 e.2 false;
     mret (e.1.1, v)).
Proof.
  unfold catboost_pipeline, catboost_evaluation.
  destruct (tree_fit lib _ _ _ _) as [w|e]; [|done]. cbn -[getcols getcol].
  destruct (getcol test_data LABEL) as [yt|e]; done.
Qed.

(** The transformer's pipeline cannot get past [test_preds.ravel()] when the
    encoder is explainable. *)
Lemma ft_pipeline_explainable lib ep tp skip tr va te y seed enc fitted :
  build_fttransformer lib ep skip 1 "relu" = Ok (FTTransformer enc 1 "relu") ->
  explainable enc = true ->
  train_model lib (FTTransformer enc 1 "relu") tp tr va = Ok fitted ->
  ft_pipeline lib ep tp skip tr va te y seed
  = Raise (AttributeError "'dict' object has no attribute 'ravel'").
Proof.
  intros Hb He Ht. unfold ft_pipeline. rewrite Hb. cbn. rewrite Ht. cbn.
  by rewrite (ravel_of_explainable _ _ _ _ _ _ _ (train_model_model _ _ _ _ _ _ Ht) He).
Qed.

Lemma single_rmse_metric_intro lib (p : Result (Fitted * Q))
    (evaluation : Result (Fitted * list Q * list Q)) :
  p = (e ← evaluation;
       v ← mean_squared_error lib e.1.2 e.2 false;
       mret (e.1.1, v)) ->
  single_rmse_metric lib
    (match p with Ok (_, v) => [("test_rmse", v)] | Raise _ => [] end)
    (result_of p) evaluation.
Proof.
  intros ->. destruct evaluation as [[[f y] q]|e]; [|done]. cbn.
  destruct (mean_squared_error lib y q false) as [v|e] eqn:E; [|done]. cbn.
  exists f, y, q. split; [done|]. by rewrite (mean_squared_error_rmse _ _ _ _ E).
Qed.

(** A pipeline whose evaluation returned labels and as many predictions,
    one at least, returns the fitted model and their RMSE. *)
Lemma pipeline_of_evaluation lib (p : Result (Fitted * Q)) evaluation fitted
    labels predictions :
  p = (e ← evaluation;
       v ← mean_squared_error lib e.1.2 e.2 false;
       mret (e.1.1, v)) ->
  evaluation = Ok (fitted, labels, predictions) ->
  length labels = length predictions -> 0 < length labels ->
  p = Ok (fitted, rmse lib labels predictions).
Proof.
  intros -> -> H1 H2. cbn. by rewrite mean_squared_error_is_rmse.
Qed.

(** C6.  The recorded metric is the test RMSE in the runs that get as far as
    recording one, which the transformer runs of the notebook do not.  For
    each of the four runs, started from a store with no run in progress:
    when the run returns, its record holds exactly one metric, [test_rmse],
    and its value is the root-mean-squared error between the test labels
    and the predictions of the model that the run fitted, made on the test
    partition; when the run raises, its record holds no metric.  The MLP,
    random-forest and CatBoost runs do return and record that metric as
    soon as the model is fitted and there are as many predictions as test
    labels, one at least.  A transformer run whose encoder is explainable,
    as all four configurations of the notebook ask, raises the
    [AttributeError] of [test_preds.ravel()] once the model is trained,
    because the predictions are a dict, and its record holds no metric. *)
Theorem recorded_metric_is_test_rmse lib name mp tp ep skip tr va te y seed
    X_train test_data LABEL ptrain pval ptest s :
  active s = None ->
  (single_rmse_metric lib
     (recorded_metrics s (mlp_mlflow_run lib name mp tp tr va te y seed))
     (mlp_mlflow_run lib name mp tp tr va te y seed s).2
     (mlp_evaluation lib mp tp tr va te y seed)
   /\ single_rmse_metric lib
        (recorded_metrics s (fttransformer_mlflow_run lib name ep tp skip tr va te y seed))
        (fttransformer_mlflow_run lib name ep tp skip tr va te y seed s).2
        (ft_evaluation lib ep tp skip tr va te y seed)
   /\ single_rmse_metric lib
        (recorded_metrics s (rf_baseline_run lib X_train test_data LABEL))
        (rf_baseline_run lib X_train test_data LABEL s).2
        (rf_evaluation lib X_train test_data LABEL)
   /\ single_rmse_metric lib
        (recorded_metrics s (catboost_run lib ptrain pval ptest test_data LABEL))
        (catboost_run lib ptrain pval ptest test_data LABEL s).2
        (catboost_evaluation lib ptrain pval ptest test_data LABEL))
  /\ (forall fitted labels predictions,
        length labels = length predictions -> 0 < length labels ->
        (mlp_evaluation lib mp tp tr va te y seed = Ok (fitted, labels, predictions) ->
         records_test_rmse lib s (mlp_mlflow_run lib name mp tp tr va te y seed)
           labels predictions)
        /\ (rf_evaluation lib X_train test_data LABEL = Ok (fitted, labels, predictions) ->
            records_test_rmse lib s (rf_baseline_run lib X_train test_data LABEL)
              labels predictions)
        /\ (catboost_evaluation lib ptrain pval ptest test_data LABEL
              = Ok (fitted, labels, predictions) ->
            records_test_rmse lib s (catboost_run lib ptrain pval ptest test_data LABEL)
              labels predictions))
  /\ (forall enc fitted,
        build_fttransformer lib ep skip 1 "relu" = Ok (FTTransformer enc 1 "relu") ->
        explainable enc = true ->
        train_model lib (FTTransformer enc 1 "relu") tp tr va = Ok fitted ->
        records_no_metric s (fttransformer_mlflow_run lib name ep tp skip tr va te y seed)
          (AttributeError "'dict' object has no attribute 'ravel'")).
Proof.
  intros Hact. unfold records_test_rmse, records_no_metric.
  rewrite recorded_metrics_mlp, recorded_metrics_ft, recorded_metrics_rf,
    recorded_metrics_catboost by exact Hact.
  rewrite mlp_mlflow_run_eq, fttransformer_mlflow_run_eq, rf_baseline_run_eq,
    catboost_run_eq by exact Hact.
  cbn [snd].
  split; [|split].
  - split; [|split; [|split]]; apply single_rmse_metric_intro.
    + apply mlp_pipeline_evaluation.
    + apply ft_pipeline_evaluation.
    + apply rf_pipeline_evaluation.
    + apply catboost_pipeline_evaluation.
  - intros fitted labels predictions Hlen Hpos.
    split; [|split]; intros Hev.
    + by rewrite (pipeline_of_evaluation _ _ _ _ _ _
                    (mlp_pipeline_evaluation _ _ _ _ _ _ _ _) Hev Hlen Hpos).
    + by rewrite (pipeline_of_evaluation _ _ _ _ _ _
                    (rf_pipeline_evaluation _ _ _ _) Hev Hlen Hpos).
    + by rewrite (pipeline_of_evaluation _ _ _ _ _ _
                    (catboost_pipeline_evaluation _ _ _ _ _ _) Hev Hlen Hpos).
  - intros enc fitted Hb He Ht.
    by rewrite (ft_pipeline_explainable _ _ _ _ _ _ _ y seed _ _ Hb He Ht).
Qed.

Lemma recorded_params_mlp lib name mp tp tr va te y seed s :
  active s = None ->
  recorded_params s (mlp_mlflow_run lib name mp tp tr va te y seed)
  = map_to_list mp ++ map_to_list tp.
Proof.
  intros Hact. unfold recorded_params. rewrite mlp_mlflow_run_eq by done.
  cbn [fst]. rewrite new_calls_sealed, recorded_params_sealed.
  rewrite !params_of_app, !params_of_param_calls, params_of_result_calls.
  cbn. by rewrite app_nil_r.
Qed.

Lemma recorded_params_ft lib name ep tp skip tr va te y seed s :
  active s = None ->
  recorded_params s (fttransformer_mlflow_run lib name ep tp skip tr va te y seed)
  = map_to_list ep ++ map_to_list tp.
Proof.
  intros Hact. unfold recorded_params. rewrite fttransformer_mlflow_run_eq by done.
  cbn [fst]. rewrite new_calls_sealed, recorded_params_sealed.
  rewrite !params_of_app, !params_of_param_calls, params_of_result_calls.
  cbn. by rewrite app_nil_r.
Qed.

Lemma recorded_params_rf lib X_train test_data LABEL s :
  active s = None ->
  recorded_params s (rf_baseline_run lib X_train test_data LABEL)
  = map_to_list rf_params.
Proof.
  intros Hact. unfold recorded_params. rewrite rf_baseline_run_eq by done.
  cbn [fst]. rewrite new_calls_sealed, recorded_params_sealed.
  rewrite !params_of_app, !params_of_param_calls, params_of_result_calls.
  cbn. by rewrite app_nil_r.
Qed.

Lemma recorded_params_catboost lib ptrain pval ptest test_data LABEL s :
  active s = None ->
  recorded_params s (catboost_run lib ptrain pval ptest test_data LABEL) = [].
Proof.
  intros Hact. unfold recorded_params. rewrite catboost_run_eq by done.
  cbn [fst]. rewrite new_calls_sealed, recorded_params_sealed.
  by rewrite !params_of_app, params_of_result_calls.
Qed.

(** The runs made through the two harness functions record each entry of
    the dicts handed to [log_params], always, and nothing else: an entry
    that only [params_to_skip] holds is never recorded. *)
Lemma harness_runs_record_loggable_params lib name mp tp ep skip tr va te y seed s :
  active s = None ->
  (forall k v,
      (k, v) ∈ recorded_params s (mlp_mlflow_run lib name mp tp tr va te y seed)
      <-> mp !! k = Some v \/ tp !! k = Some v)
  /\ (forall k v,
        (k, v) ∈ recorded_params s
                   (fttransformer_mlflow_run lib name ep tp skip tr va te y seed)
        <-> ep !! k = Some v \/ tp !! k = Some v).
Proof.
  intros Hact. rewrite recorded_params_mlp, recorded_params_ft by done.
  split; intros k v; rewrite elem_of_app, !elem_of_map_to_list; done.
Qed.

(** C10.  [build_mlp] does not read ["layer3_size"], which is logged all
    the same.  Two configurations that agree on every other key build the
    same model (or raise the same error), while a run started from a store
    with no run in progress records the value the configuration gives to
    ["layer3_size"] among the run's parameters. *)
Theorem layer3_size_logged_but_not_built lib name (mp mp' : gmap string Value) tp
    tr va te y seed s v :
  (forall k, k <> "layer3_size" -> mp !! k = mp' !! k) ->
  mp !! "layer3_size" = Some v ->
  active s = None ->
  build_mlp lib mp = build_mlp lib mp'
  /\ ("layer3_size", v)
       ∈ recorded_params s (mlp_mlflow_run lib name mp tp tr va te y seed).
Proof.
  intros Hsame Hv Hact. split.
  - unfold build_mlp, getitem. by rewrite !Hsame.
  - rewrite recorded_params_mlp by done.
    apply elem_of_app. left. by apply elem_of_map_to_list.
Qed.

(** ** Predictions *)

Lemma relu_nonneg x : (0 <= relu x)%Q.
Proof.
  unfold relu. destruct (Qle_bool 0 x) eqn:E.
  - by apply Qle_bool_iff.
  - apply Qle_refl.
Qed.

Lemma activation_fn_relu lib : activation_fn lib (VStr "relu") = relu.
Proof. reflexivity. Qed.

Lemma Forall_map_relu (l : list Q) : Forall (fun p => (0 <= p)%Q) (map relu l).
Proof. apply Forall_map. apply Forall_forall. intros x _. apply relu_nonneg. Qed.

(** A stack of layers that ends in a relu-activated dense layer has no
    negative output, whatever the weights and the input. *)
Lemma forward_layers_relu_last lib layers u ws x :
  Forall (fun p => (0 <= p)%Q)
    (forward_layers lib (layers ++ [Dense u (VStr "relu")]) ws x).
Proof.
  revert ws x. induction layers as [|l layers IH]; intros ws x.
  - cbn [app forward_layers]. rewrite activation_fn_relu.
    destruct ws as [|[kernel bias] ws]; apply Forall_map_relu.
  - cbn [app forward_layers]. destruct l as [u' act|rate].
    + destruct ws as [|[kernel bias] ws]; apply IH.
    + apply IH.
Qed.

Lemma forward_mlp_nonneg lib mp m w keys x :
  build_mlp lib mp = Ok m -> Forall (fun p => (0 <= p)%Q) (forward lib (m, w) keys x).
Proof.
  intros Hb. apply build_mlp_Ok in Hb as (u1 & a & r & u2 & _ & _ & _ & _ & ->).
  unfold forward. cbn [fst snd].
  apply (forward_layers_relu_last lib
           [Dense u1 a; Dropout r; Dense u2 a; Dropout r] (VInt 1)).
Qed.

Lemma build_fttransformer_Ok lib ep skip out_dim act m :
  build_fttransformer lib ep skip out_dim act = Ok m ->
  exists enc, m = FTTransformer enc out_dim act.
Proof.
  unfold build_fttransformer. destruct (call_kwargs ep skip) as [kw|e]; [|discriminate].
  cbn. destruct (FTTransformerEncoder lib kw) as [enc|e]; [|discriminate].
  cbn. intros [= <-]. by exists enc.
Qed.

Lemma forward_ft_nonneg lib ep skip m w keys x :
  build_fttransformer lib ep skip 1 "relu" = Ok m ->
  Forall (fun p => (0 <= p)%Q) (forward lib (m, w) keys x).
Proof.
  intros Hb. apply build_fttransformer_Ok in Hb as [enc ->].
  unfold forward. cbn [fst snd]. rewrite activation_fn_relu. apply Forall_map_relu.
Qed.

Lemma predict_Forall lib (P : Q -> Prop) f d seed :
  (forall x, Forall P (forward lib f (ds_keys d) x)) ->
  Forall P (ravel (predict lib f d seed)).
Proof.
  intros H. unfold ravel, predict. apply Forall_concat. apply Forall_map.
  apply Forall_forall. intros e _. apply H.
Qed.

(** Training returns the model it was given, with trained weights. *)
(** C9.  No prediction of the MLP or of an FTTransformer variant is
    negative.  A model that [build_mlp] built, or that
    [build_fttransformer] built with the output activation the harness
    passes ("relu"), and that the trainer then fitted, predicts on any data
    set only values that are at least zero: its last layer applies relu. *)
Theorem predictions_nonnegative lib :
  (forall mp tp tr va m f d seed,
      build_mlp lib mp = Ok m -> train_mlp lib m tp tr va = Ok f ->
      Forall (fun p => (0 <= p)%Q) (ravel (predict lib f d seed)))
  /\ (forall ep skip tp tr va m f d seed,
        build_fttransformer lib ep skip 1 "relu" = Ok m ->
        train_model lib m tp tr va = Ok f ->
        Forall (fun p => (0 <= p)%Q) (ravel (predict lib f d seed))).
Proof.
  split.
  - intros mp tp tr va m [m' w] d seed Hb Ht.
    apply train_mlp_model in Ht. cbn in Ht. subst m'.
    apply predict_Forall. intros x. by eapply forward_mlp_nonneg.
  - intros ep skip tp tr va m [m' w] d seed Hb Ht.
    apply train_model_model in Ht. cbn in Ht. subst m'.
    apply predict_Forall. intros x. by eapply forward_ft_nonneg.
Qed.

(** ** Reloading a model *)


Lemma iterate_not_shuffled lib d seed1 seed2 :
  ds_shuffle d = None -> ds_shuffle_batches d = None ->
  iterate lib seed1 d = iterate lib seed2 d.
Proof. intros H1 H2. unfold iterate. by rewrite H1, H2. Qed.

(** The notebook's test set is such a data set. *)
Lemma test_dataset_not_shuffled test_data ds :
  test_dataset_of test_data = Ok ds ->
  exists df, df_to_dataset df None false 32 = Ok ds.
Proof.
  unfold test_dataset_of.
  destruct (getcols test_data FEATURES) as [f|e]; [|discriminate].
  intros H. by eexists.
Qed.

(** ** Dataset Preparer: the splits *)

Lemma select_app {A} (p1 p2 : list nat) (l : list A) :
  select (p1 ++ p2) l = select p1 l ++ select p2 l.
Proof. unfold select. apply omap_app. Qed.

Lemma length_select_le {A} (pos : list nat) (l : list A) :
  length (select pos l) <= length pos.
Proof.
  unfold select. induction pos as [|i pos IH]; [done|].
  cbn. destruct (l !! i); cbn; lia.
Qed.

Lemma select_seq_suffix {A} (l1 l2 : list A) :
  select (seq (length l1) (length l2)) (l1 ++ l2) = l2.
Proof.
  revert l1. induction l2 as [|x l2 IH]; intros l1; [done|].
  cbn [length seq]. unfold select in *. cbn [omap list_omap].
  rewrite list_lookup_middle by done.
  specialize (IH (l1 ++ [x])). rewrite length_app, <- app_assoc in IH. cbn in IH.
  rewrite Nat.add_1_r in IH. by rewrite IH.
Qed.

Lemma select_seq {A} (l : list A) : select (seq 0 (length l)) l = l.
Proof. apply (select_seq_suffix [] l). Qed.

(** Selecting the rows in a drawn order permutes them. *)
Lemma select_Permutation {A} (perm : list nat) (l : list A) :
  Permutation perm (seq 0 (length l)) -> Permutation (select perm l) l.
Proof.
  intros H. unfold select. rewrite H. fold (select (seq 0 (length l)) l).
  by rewrite select_seq.
Qed.

Lemma length_select_perm {A} (perm : list nat) (l : list A) :
  Permutation perm (seq 0 (length l)) -> length (select perm l) = length l.
Proof. intros H. by rewrite (select_Permutation perm l H). Qed.

Lemma n_test_fifth (n : nat) :
  Z.to_nat (Qceiling ((2 # 10) * inject_Z (Z.of_nat n))) = (n + 4) / 5.
Proof.
  unfold Qceiling, Qfloor, Qopp, Qmult, inject_Z. cbn [Qnum Qden].
  rewrite Pos.mul_1_r.
  change (Z.pos 10) with 10%Z.
  apply Nat2Z.inj. rewrite Nat2Z.inj_div, Nat2Z.inj_add.
  rewrite Z2Nat.id.
  - change (Z.of_nat 4) with 4%Z. change (Z.of_nat 5) with 5%Z.
    assert (- (2 * Z.of_nat n) = - (2 * Z.of_nat n))%Z by done.
    generalize (Z.of_nat n) (Nat2Z.is_nonneg n). intros z Hz.
    pose proof (Z.div_mod (- (2 * z)) 10 ltac:(lia)).
    pose proof (Z.mod_pos_bound (- (2 * z)) 10 ltac:(lia)).
    pose proof (Z.div_mod (z + 4) 5 ltac:(lia)).
    pose proof (Z.mod_pos_bound (z + 4) 5 ltac:(lia)).
    lia.
  - generalize (Z.of_nat n) (Nat2Z.is_nonneg n). intros z Hz.
    pose proof (Z.div_mod (- (2 * z)) 10 ltac:(lia)).
    pose proof (Z.mod_pos_bound (- (2 * z)) 10 ltac:(lia)).
    lia.
Qed.

(** One split: the two parts together hold each row of the frame once. *)
Lemma train_test_split_partition perm df test_size tr te :
  Permutation perm (seq 0 (n_rows df)) ->
  train_test_split perm df test_size = Ok (tr, te) ->
  Permutation (df_index te ++ df_index tr) (df_index df)
  /\ n_rows te = Z.to_nat (Qceiling (test_size * inject_Z (Z.of_nat (n_rows df)))).
Proof.
  intros Hperm. unfold train_test_split.
  set (n := n_rows df). set (n_test := Z.to_nat _).
  case_decide as Hn; [discriminate|]. intros [= <- <-].
  assert (length perm = n) as Hlen by (by rewrite Hperm, length_seq).
  assert (take (n - n_test) (drop n_test perm) = drop n_test perm) as ->.
  { apply take_ge. rewrite length_drop. lia. }
  unfold take_rows. cbn [df_index]. rewrite <- select_app, take_drop.
  split; [by apply select_Permutation|].
  unfold n_rows. cbn [df_index].
  assert (Permutation (select perm (df_index df)) (df_index df)) as HP
    by (by apply select_Permutation).
  rewrite <- (take_drop n_test perm), select_app in HP.
  apply Permutation_length in HP. rewrite length_app in HP.
  assert (length (select (drop n_test perm) (df_index df)) <= n - n_test).
  { etrans; [apply length_select_le|]. rewrite length_drop. lia. }
  assert (length (select (take n_test perm) (df_index df)) <= n_test).
  { etrans; [apply length_select_le|]. rewrite length_take. lia. }
  fold n_rows in *. unfold n_rows in n. fold n in HP. lia.
Qed.

Lemma assoc_map {A B} (f : A -> B) c (l : list (string * A)) :
  assoc c (map (fun cv => (cv.1, f cv.2)) l) = f <$> assoc c l.
Proof.
  induction l as [|[k v] l IH]; [done|]. cbn. case_decide; [done|exact IH].
Qed.

Lemma getcols_take_rows pos df cs :
  is_Ok (getcols df cs) -> is_Ok (getcols (take_rows pos df) cs).
Proof.
  induction cs as [|c cs IH]; [by eexists|].
  cbn [getcols]. unfold getcol, take_rows. cbn [df_columns].
  rewrite assoc_map. destruct (assoc c (df_columns df)) as [v|]; [|by intros [? ?]].
  cbn. fold (take_rows pos df).
  destruct (getcols df cs) as [rest|e]; [|by intros [? ?]].
  intros _. destruct IH as [rest' ->]; [by eexists|]. by eexists.
Qed.

Lemma train_test_split_getcols perm df test_size tr te cs :
  train_test_split perm df test_size = Ok (tr, te) ->
  is_Ok (getcols df cs) -> is_Ok (getcols tr cs) /\ is_Ok (getcols te cs).
Proof.
  unfold train_test_split. case_decide; [discriminate|]. intros [= <- <-] Hok.
  split; by apply getcols_take_rows.
Qed.

(** Scaling succeeds on frames that have the numeric columns, and keeps
    the rows of each partition. *)
Lemma scale_partitions_Ok lib X_train X_val test_data sc :
  is_Ok (getcols X_train NUMERIC_FEATURES) ->
  is_Ok (getcols X_val NUMERIC_FEATURES) ->
  is_Ok (getcols test_data NUMERIC_FEATURES) ->
  exists a b c,
    (scale_partitions lib X_train X_val test_data sc).2 = Ok (a, b, c)
    /\ df_index a = df_index X_train /\ df_index b = df_index X_val
    /\ df_index c = df_index test_data.
Proof.
  intros [a Ha] [b Hb] [c Hc]. unfold scale_partitions.
  unfold mbind, M_bind, lift, sc_fit_transform, sc_fit, sc_transform, mret, M_ret.
  rewrite Ha, Hb, Hc. cbn -[NUMERIC_FEATURES]. by eexists _, _, _.
Qed.

(** C4.  The three partitions are pairwise disjoint and cover the table.
    For a table whose rows carry distinct index labels and that has the
    numeric columns, with the two orders drawn by the random generator
    being permutations of the row positions, and at least three rows, the
    Dataset Preparer returns three partitions; no row label is in two of
    them, every row of the table is in one of them, their sizes sum to the
    number of rows of the table, and the test and validation partitions
    hold a fifth (rounded up) of the rows they were split from. *)
Theorem partitions_disjoint_sizes_sum lib perm1 perm2 df :
  NoDup (df_index df) ->
  Permutation perm1 (seq 0 (n_rows df)) ->
  Permutation perm2 (seq 0 (n_rows df - (n_rows df + 4) / 5)) ->
  3 <= n_rows df ->
  is_Ok (getcols df NUMERIC_FEATURES) ->
  exists X_train X_val test_data,
    prepare lib perm1 perm2 df = Ok (X_train, X_val, test_data)
    /\ (forall i, i ∈ df_index X_train -> i ∉ df_index X_val)
    /\ (forall i, i ∈ df_index X_train -> i ∉ df_index test_data)
    /\ (forall i, i ∈ df_index X_val -> i ∉ df_index test_data)
    /\ (forall i, i ∈ df_index df <->
                  i ∈ df_index X_train \/ i ∈ df_index X_val \/ i ∈ df_index test_data)
    /\ n_rows X_train + n_rows X_val + n_rows test_data = n_rows df
    /\ n_rows test_data = (n_rows df + 4) / 5
    /\ n_rows X_val = (n_rows df - n_rows test_data + 4) / 5.
Proof.
  intros Hnd Hp1 Hp2 Hn Hcols.
  set (n := n_rows df) in *.
  assert ((n + 4) / 5 < n /\ 2 <= n - (n + 4) / 5) as [Hlt Hge].
  { pose proof (Nat.div_mod_eq (n + 4) 5).
    pose proof (Nat.mod_upper_bound (n + 4) 5 ltac:(lia)). lia. }
  (* the outer split *)
  destruct (split_cell perm1 df) as [[train_data test0]|e] eqn:E1.
  2:{ unfold split_cell, train_test_split in E1. fold n in E1.
      rewrite n_test_fifth in E1. case_decide; [lia|discriminate]. }
  pose proof E1 as E1'. unfold split_cell in E1'.
  apply train_test_split_partition in E1' as [HP1 Hte]; [|done].
  fold n in Hte. rewrite n_test_fifth in Hte.
  assert (n_rows train_data = n - (n + 4) / 5) as Htr.
  { apply Permutation_length in HP1. rewrite length_app in HP1.
    unfold n_rows in *. fold n in HP1. lia. }
  (* the inner split *)
  set (n1 := n_rows train_data) in *.
  assert ((n1 + 4) / 5 < n1) as Hlt1.
  { pose proof (Nat.div_mod_eq (n1 + 4) 5).
    pose proof (Nat.mod_upper_bound (n1 + 4) 5 ltac:(lia)). lia. }
  destruct (train_test_split perm2 train_data (2 # 10)) as [[X_train0 X_val0]|e] eqn:E2.
  2:{ unfold train_test_split in E2. fold n1 in E2.
      rewrite n_test_fifth in E2. case_decide; [lia|discriminate]. }
  pose proof E2 as E2'.
  apply train_test_split_partition in E2' as [HP2 Hva]; [|by fold n1; rewrite Htr].
  fold n1 in Hva. rewrite n_test_fifth in Hva.
  (* scaling keeps the rows *)
  destruct (train_test_split_getcols _ _ _ _ _ NUMERIC_FEATURES E1 Hcols) as [Hc1 Hc2].
  destruct (train_test_split_getcols _ _ _ _ _ NUMERIC_FEATURES E2 Hc1) as [Hc3 Hc4].
  destruct (scale_partitions_Ok lib X_train0 X_val0 test0 None Hc3 Hc4 Hc2)
    as (a & b & c & Hsc & Ha & Hb & Hc).
  exists a, b, c.
  assert (prepare lib perm1 perm2 df = Ok (a, b, c)) as ->.
  { unfold prepare. rewrite E1. cbn. unfold scaling_cell. by rewrite E2. }
  unfold n_rows. rewrite Ha, Hb, Hc. fold (n_rows X_train0) (n_rows X_val0) (n_rows test0).
  (* the index of the table is the three indexes put together *)
  assert (Permutation (df_index test0 ++ df_index X_val0 ++ df_index X_train0)
            (df_index df)) as HP.
  { rewrite <- HP1. apply Permutation_app_head. exact HP2. }
  assert (NoDup (df_index test0 ++ df_index X_val0 ++ df_index X_train0)) as Hnd'
    by (by rewrite HP).
  apply NoDup_app in Hnd' as (_ & Hd1 & Hnd').
  apply NoDup_app in Hnd' as (_ & Hd2 & _).
  split; [done|]. split; [|split; [|split; [|split; [|split; [|split]]]]].
  - intros i Hi Hi'. by eapply Hd2.
  - intros i Hi Hi'. eapply Hd1; [exact Hi'|]. apply elem_of_app. by right.
  - intros i Hi Hi'. eapply Hd1; [exact Hi'|]. apply elem_of_app. by left.
  - intros i. rewrite <- HP, !elem_of_app. tauto.
  - apply Permutation_length in HP. rewrite !length_app in HP.
    unfold n_rows in *. fold n. lia.
  - exact Hte.
  - rewrite Hva, Htr, Hte. reflexivity.
Qed.

(** ** Dataset Preparer: the scaler *)

(** The scaler after the scaling statements: fitted on the numeric columns
    of [X_train] when the frame has them, and left as it was otherwise. *)
Lemma scale_partitions_scaler lib X_train X_val test_data sc :
  (scale_partitions lib X_train X_val test_data sc).1
  = match getcols X_train NUMERIC_FEATURES with
    | Ok a => Some (scaler_fit lib (values a))
    | Raise _ => sc
    end.
Proof.
  unfold scale_partitions.
  unfold mbind, M_bind, lift, sc_fit_transform, sc_fit, sc_transform, mret, M_ret.
  destruct (getcols X_train NUMERIC_FEATURES) as [a|e]; [|done].
  destruct (getcols X_val NUMERIC_FEATURES) as [b|e]; [|done].
  destruct (getcols test_data NUMERIC_FEATURES) as [c|e]; done.
Qed.

(** The partitions after the scaling statements: each has its numeric
    columns replaced by the transform, under the statistics of [X_train]. *)
Lemma scale_partitions_result lib X_train X_val test_data sc tr va te :
  (scale_partitions lib X_train X_val test_data sc).2 = Ok (tr, va, te) ->
  exists a b c,
    getcols X_train NUMERIC_FEATURES = Ok a
    /\ getcols X_val NUMERIC_FEATURES = Ok b
    /\ getcols test_data NUMERIC_FEATURES = Ok c
    /\ tr = loc_set X_train NUMERIC_FEATURES
              (scaler_transform lib (scaler_fit lib (values a)) (values a))
    /\ va = loc_set X_val NUMERIC_FEATURES
              (scaler_transform lib (scaler_fit lib (values a)) (values b))
    /\ te = loc_set test_data NUMERIC_FEATURES
              (scaler_transform lib (scaler_fit lib (values a)) (values c)).
Proof.
  unfold scale_partitions.
  unfold mbind, M_bind, lift, sc_fit_transform, sc_fit, sc_transform, mret, M_ret.
  destruct (getcols X_train NUMERIC_FEATURES) as [a|e]; [|discriminate].
  destruct (getcols X_val NUMERIC_FEATURES) as [b|e]; [|discriminate].
  destruct (getcols test_data NUMERIC_FEATURES) as [c|e]; [|discriminate].
  cbn -[NUMERIC_FEATURES]. intros [= <- <- <-]. by exists a, b, c.
Qed.

(** ** Trainer *)

Lemma Qltb_true x y : (x < y)%Q -> Qltb x y = true.
Proof.
  intros H. unfold Qltb. destruct (Qle_bool y x) eqn:E; [|done].
  apply Qle_bool_iff in E. by apply Qle_not_lt in E.
Qed.

Lemma Qltb_false x y : (y <= x)%Q -> Qltb x y = false.
Proof.
  intros H. unfold Qltb. apply Qle_bool_iff in H. by rewrite H.
Qed.

Lemma Qltb_lt x y : Qltb x y = true -> (x < y)%Q.
Proof.
  unfold Qltb. destruct (Qle_bool y x) eqn:E; [done|]. intros _.
  apply Qnot_le_lt. intros H. apply Qle_bool_iff in H. congruence.
Qed.

Lemma Qltb_ge x y : Qltb x y = false -> (y <= x)%Q.
Proof.
  unfold Qltb. destruct (Qle_bool y x) eqn:E; [|done]. intros _.
  by apply Qle_bool_iff.
Qed.

Lemma is_improvement_min mon pv current b :
  is_improvement (early_stopping_on mon pv) current (Some b) = Qltb current b.
Proof. reflexivity. Qed.

Lemma monitor_early_stopping_on mon pv : monitor (early_stopping_on mon pv) = mon.
Proof. reflexivity. Qed.

Lemma best_epoch_le m e : best_epoch m e <= e.
Proof.
  induction e as [|e IH]; [done|]. cbn. destruct (Qltb _ _); lia.
Qed.

(** The best epoch holds the least value seen, and is the first to. *)
Lemma best_epoch_min m e j : j <= e -> (m (best_epoch m e) <= m j)%Q.
Proof.
  induction e as [|e IH]; intros Hj.
  - replace j with 0 by lia. apply Qle_refl.
  - cbn. destruct (Qltb (m (S e)) (m (best_epoch m e))) eqn:E.
    + destruct (decide (j = S e)) as [->|Hne]; [apply Qle_refl|].
      apply Qlt_le_weak. eapply Qlt_le_trans; [by apply Qltb_lt|]. apply IH. lia.
    + destruct (decide (j = S e)) as [->|Hne]; [by apply Qltb_ge|].
      apply IH. lia.
Qed.

Lemma best_epoch_stops_improving m k n e :
  stops_improving_at m k n -> e < n -> best_epoch m e = min e k.
Proof.
  intros [Hdec Hflat]. induction e as [|e IH]; intros He; [done|].
  cbn [best_epoch]. rewrite IH by lia.
  destruct (decide (S e <= k)) as [Hle|Hgt].
  - rewrite Qltb_true; [lia|]. replace (min e k) with e by lia. apply Hdec; lia.
  - rewrite Qltb_false; [lia|]. replace (min e k) with k by lia. apply Hflat; lia.
Qed.

Lemma epochs_run_le m p budget e : epochs_run m p budget e <= budget.
Proof.
  revert e. induction budget as [|budget IH]; intros e; [done|].
  cbn. case_decide; [lia|]. specialize (IH (S e)). lia.
Qed.

Lemma epochs_run_pos m p budget e : 0 < budget -> 0 < epochs_run m p budget e.
Proof. destruct budget; [lia|]. intros _. cbn. case_decide; lia. Qed.

(** The loop halts on the budget or on the patience rule, and not before. *)
Lemma epochs_run_halts m p budget e :
  0 < budget ->
  (epochs_run m p budget e = budget
   \/ (p <= Z.of_nat (epochs_without_improvement m (e + epochs_run m p budget e - 1)))%Z)
  /\ (forall j, e <= j -> j + 1 < e + epochs_run m p budget e ->
                (Z.of_nat (epochs_without_improvement m j) < p)%Z).
Proof.
  revert e. induction budget as [|budget IH]; intros e Hb; [lia|].
  cbn [epochs_run]. case_decide as Hp.
  - split; [right; by replace (e + 1 - 1) with e by lia|]. intros j H1 H2. lia.
  - destruct budget as [|budget].
    + cbn. split; [by left|]. intros j H1 H2. lia.
    + destruct (IH (S e) ltac:(lia)) as [IH1 IH2]. split.
      * destruct IH1 as [IH1|IH1]; [left; lia|right].
        pose proof (epochs_run_pos m p (S budget) (S e) ltac:(lia)).
        replace (e + S (epochs_run m p (S budget) (S e)) - 1)
          with (S e + epochs_run m p (S budget) (S e) - 1) by lia.
        exact IH1.
      * intros j H1 H2. destruct (decide (j = e)) as [->|Hne]; [lia|].
        apply IH2; lia.
Qed.

Section EarlyStopping.
Variables (lib : Libraries) (cm : Compiled) (mon : string) (p : Z).
Variables (train val : Dataset) (w : nat -> Weights).

Local Abbreviation es := (early_stopping_on mon (VInt p)).
Local Abbreviation m := (fun e : nat => evaluate lib cm (w (S e)) val mon).

Lemma on_epoch_end_state e :
  on_epoch_end es (state_before m w e) (w (S e)) (m e) = state_before m w (S e).
Proof.
  destruct e as [|e]; [reflexivity|].
  unfold on_epoch_end. cbn [state_before best best_weights wait].
  rewrite is_improvement_min. unfold epochs_without_improvement.
  cbn [best_epoch]. pose proof (best_epoch_le m e).
  destruct (Qltb (m (S e)) (m (best_epoch m e))); f_equal; lia.
Qed.

(** The loop, from any epoch: it runs [epochs_run] epochs and returns the
    weights of the best epoch so far. *)
Lemma fit_loop_spec budget e :
  (forall e', e <= e' -> e' < e + budget ->
              train_epoch lib cm e' train (w e') = Ok (w (S e'))) ->
  fit_loop lib cm es p train val budget e (w e) (state_before m w e)
  = Ok (restore es (state_before m w (e + epochs_run m p budget e))
          (w (e + epochs_run m p budget e)),
        map m (seq e (epochs_run m p budget e))).
Proof.
  revert e. induction budget as [|budget IH]; intros e Hstep.
  - cbn [fit_loop epochs_run seq map]. by rewrite Nat.add_0_r.
  - cbn [fit_loop epochs_run]. rewrite Hstep by lia. cbn [mbind Result_bind].
    rewrite monitor_early_stopping_on, on_epoch_end_state.
    cbn [state_before wait].
    case_decide as Hp.
    + by replace (e + 1) with (S e) by lia.
    + rewrite IH by (intros e' H1 H2; apply Hstep; lia).
      cbn [mbind Result_bind mret Result_ret seq map].
      by replace (e + S (epochs_run m p budget (S e)))
        with (S e + epochs_run m p budget (S e)) by lia.
Qed.

Lemma fit_early_stopped n :
  trajectory lib cm train n w -> 0 < n ->
  early_stopped (fit lib cm train (VInt (Z.of_nat n)) val es) (c_model cm) w m n p.
Proof.
  intros [Hw0 Hstep] Hn. unfold fit.
  cbn [as_int mbind Result_bind early_stopping_on patience].
  rewrite Nat2Z.id, <- Hw0.
  change {| best := None; best_weights := None; wait := 0 |} with (state_before m w 0).
  rewrite fit_loop_spec by (intros e' _ H2; apply Hstep; lia).
  cbn [mbind Result_bind mret Result_ret plus].
  set (r := epochs_run m p n 0).
  pose proof (epochs_run_pos m p n 0 Hn) as Hpos. fold r in Hpos.
  pose proof (epochs_run_le m p n 0) as Hle. fold r in Hle.
  destruct (epochs_run_halts m p n 0 Hn) as [Hhalt Hnot]. fold r in Hhalt, Hnot.
  cbn [plus] in Hhalt, Hnot.
  exists r. split; [|split; [|split; [|split; [|split; [|split]]]]].
  - destruct r as [|r]; [lia|].
    replace (S r - 1) with r by lia. reflexivity.
  - exact Hpos.
  - exact Hle.
  - intros e He. apply (best_epoch_min m (r - 1) e). lia.
  - exact Hhalt.
  - intros e He. apply Hnot; lia.
  - intros k Hk Hstop.
    assert (forall e, e < n -> epochs_without_improvement m e = e - min e k) as Hwait.
    { intros e He. unfold epochs_without_improvement.
      by rewrite (best_epoch_stops_improving _ _ _ _ Hstop He). }
    assert (r <= k + Z.to_nat p + 1) as Hupper.
    { destruct (decide (r <= k + Z.to_nat p + 1)) as [|Hgt]; [done|].
      specialize (Hnot (k + Z.to_nat p) ltac:(lia) ltac:(lia)).
      rewrite Hwait in Hnot by lia. lia. }
    split; [exact Hupper|]. intros Hp.
    assert (k <= r - 1) as Hkr.
    { destruct (decide (k <= r - 1)) as [|Hlt]; [done|].
      destruct Hhalt as [Hhalt|Hhalt]; [lia|].
      rewrite Hwait in Hhalt by lia. lia. }
    split.
    + rewrite (best_epoch_stops_improving _ _ _ _ Hstop) by lia. lia.
    + destruct Hhalt as [Hhalt|Hhalt]; [lia|].
      rewrite Hwait in Hhalt by lia. lia.
Qed.
End EarlyStopping.

Lemma train_mlp_fit lib model tp tr va lr wd pv nv :
  tp !! "learning_rate" = Some lr -> tp !! "weight_decay" = Some wd ->
  tp !! "early_stop_patience" = Some pv -> tp !! "num_epochs" = Some nv ->
  train_mlp lib model tp tr va
  = fitted_of (fit lib (compiled_with model lr wd) tr nv va
                 (early_stopping_on "val_rmse" pv)).
Proof.
  intros H1 H2 H3 H4. unfold train_mlp.
  rewrite (getitem_Some _ _ _ H1), (getitem_Some _ _ _ H2),
    (getitem_Some _ _ _ H3), (getitem_Some _ _ _ H4).
  reflexivity.
Qed.

Lemma train_model_fit lib model tp tr va lr wd pv nv :
  tp !! "learning_rate" = Some lr -> tp !! "weight_decay" = Some wd ->
  tp !! "early_stop_patience" = Some pv -> tp !! "num_epochs" = Some nv ->
  train_model lib model tp tr va
  = fitted_of (fit lib (compiled_with model lr wd) tr nv va
                 (early_stopping_on "val_output_loss" pv)).
Proof.
  intros H1 H2 H3 H4. unfold train_model.
  rewrite (getitem_Some _ _ _ H1), (getitem_Some _ _ _ H2),
    (getitem_Some _ _ _ H3), (getitem_Some _ _ _ H4).
  reflexivity.
Qed.

(** C3.  Training halts on the patience rule and returns the best weights.
    Take training parameters that give a patience [p] and a budget of
    [n > 0] epochs, and a course of training in which no epoch fails.  Then
    [train_mlp], monitoring [val_rmse], and [train_model], monitoring
    [val_output_loss], each return what their [fit] returns, and that [fit]
    runs some [n_run <= n] epochs and returns the model with the weights of
    the last epoch that improved the monitored value, which is the least of
    all the epochs run; it halts because the budget is spent or because
    [p] epochs in a row have not improved, and at no earlier epoch had [p]
    epochs in a row failed to improve.  When the monitored values improve at
    each epoch up to [k] and at none after it, at most [k + p + 1] epochs
    are run, and with a patience of at least one the weights returned are
    those of epoch [k] and [min n (k + p + 1)] epochs are run. *)
Theorem early_stopping_halts_and_restores_best lib model tp tr va lr wd p n w :
  tp !! "learning_rate" = Some lr -> tp !! "weight_decay" = Some wd ->
  tp !! "early_stop_patience" = Some (VInt p) ->
  tp !! "num_epochs" = Some (VInt (Z.of_nat n)) ->
  trajectory lib (compiled_with model lr wd) tr n w ->
  0 < n ->
  (train_mlp lib model tp tr va
   = fitted_of (fit lib (compiled_with model lr wd) tr (VInt (Z.of_nat n)) va
                  (early_stopping_on "val_rmse" (VInt p)))
   /\ early_stopped
        (fit lib (compiled_with model lr wd) tr (VInt (Z.of_nat n)) va
           (early_stopping_on "val_rmse" (VInt p)))
        model w
        (fun e => evaluate lib (compiled_with model lr wd) (w (S e)) va "val_rmse")
        n p)
  /\ (train_model lib model tp tr va
      = fitted_of (fit lib (compiled_with model lr wd) tr (VInt (Z.of_nat n)) va
                     (early_stopping_on "val_output_loss" (VInt p)))
      /\ early_stopped
           (fit lib (compiled_with model lr wd) tr (VInt (Z.of_nat n)) va
              (early_stopping_on "val_output_loss" (VInt p)))
           model w
           (fun e => evaluate lib (compiled_with model lr wd) (w (S e)) va
                       "val_output_loss")
           n p).
Proof.
  intros H1 H2 H3 H4 Htraj Hn. split.
  - split; [by apply train_mlp_fit|].
    by apply (fit_early_stopped lib (compiled_with model lr wd) "val_rmse" p tr va w n).
  - split; [by apply train_model_fit|].
    by apply (fit_early_stopped lib (compiled_with model lr wd) "val_output_loss" p
                tr va w n).
Qed.

(** ** The notebook's runs on the small instance *)

Example build_mlp_notebook :
  build_mlp toy_lib mlp_params
  = Ok (Sequential [Dense (VInt 512) (VStr "relu"); Dropout (VFloat (3 # 10));
                    Dense (VInt 128) (VStr "relu"); Dropout (VFloat (3 # 10));
                    Dense (VInt 1) (VStr "relu")]).
Proof. vm_compute. reflexivity. Qed.

Example build_mlp_without_dropout_rate :
  build_mlp toy_lib (delete "dropout_rate" mlp_params) = Raise (KeyError "dropout_rate").
Proof. vm_compute. reflexivity. Qed.

Example call_kwargs_same_key :
  call_kwargs {[ "y" := VNone ]} (params_to_skip [] [])
  = Raise (TypeError "got multiple values for keyword argument").
Proof. vm_compute. reflexivity. Qed.

Example split_five_rows :
  (fun r => match r with
            | Ok (tr, te) => Some (df_index tr, df_index te)
            | Raise _ => None
            end) (split_cell [3; 0; 4; 1; 2] toy_frame)
  = Some ([0; 4; 1; 2], [3]).
Proof. vm_compute. reflexivity. Qed.

Example early_stopping_toy :
  (fun r => match r with
            | Ok ((_, w), history) => Some (w, length history)
            | Raise _ => None
            end)
    (fit toy_lib (compiled_with (Sequential []) VNone VNone) (toy_dataset true)
       (VInt 1000) (toy_dataset false) (early_stopping_on "val_rmse" (VInt 10)))
  = Some (toy_w 4, 14).
Proof. vm_compute. reflexivity. Qed.

Example failing_run_is_sealed :
  let run := mlp_mlflow_run failing_lib "mlp_base" mlp_params train_params
               (toy_dataset true) (toy_dataset false) toy_test_ds [] 0 empty_store in
  run.2 = Raise (LibraryError "loss is not finite")
  /\ runs run.1 = [Sealed] /\ active run.1 = None
  /\ last (calls run.1) = Some (CSeal 0 FAILED)
  /\ length (calls run.1) = 12.
Proof. vm_compute. repeat split; reflexivity. Qed.

Example shuffled_order_depends_on_generator :
  predict toy_lib (CatBoostRegressor, []) (toy_dataset true) 0
  <> predict toy_lib (CatBoostRegressor, []) (toy_dataset true) 1.
Proof. vm_compute. discriminate. Qed.

(** C7.  The catboost run records no parameter.  On the five-row table the
    run returns normally, having fitted with [early_stopping_rounds=50]
    and recorded its metric and its model, and its record holds no
    parameter at all, while the [rf_baseline] run on the same table records
    both entries of its [params]. *)
Theorem catboost_run_records_no_parameter :
  (catboost_run toy_lib toy_pool toy_pool toy_pool toy_frame "MedHouseVal"
     empty_store).2 = Ok tt
  /\ recorded_params empty_store
       (catboost_run toy_lib toy_pool toy_pool toy_pool toy_frame "MedHouseVal") = []
  /\ length (recorded_metrics empty_store
               (catboost_run toy_lib toy_pool toy_pool toy_pool toy_frame "MedHouseVal"))
     = 1
  /\ length (recorded_params empty_store
               (rf_baseline_run toy_lib toy_frame toy_frame "MedHouseVal")) = 2.
Proof.
  split; [|split; [|split]].
  - vm_compute. reflexivity.
  - by apply recorded_params_catboost.
  - vm_compute. reflexivity.
  - vm_compute. reflexivity.
Qed.

(** ** Instances of the theorems *)

Lemma run_session_opened_once_sealed_once_witness :
  active empty_store = None
  /\ scoped_session empty_store
       (mlp_mlflow_run failing_lib "mlp_base" mlp_params train_params
          (toy_dataset true) (toy_dataset false) toy_test_ds [] 0 empty_store).1
       (mlp_mlflow_run failing_lib "mlp_base" mlp_params train_params
          (toy_dataset true) (toy_dataset false) toy_test_ds [] 0 empty_store).2.
Proof.
  split; [reflexivity|].
  exact (proj1
           (run_session_opened_once_sealed_once failing_lib "mlp_base" mlp_params
              train_params linear_embeddings_params (params_to_skip [] [])
              (toy_dataset true) (toy_dataset false) toy_test_ds [] 0
              toy_frame toy_frame "MedHouseVal" toy_pool toy_pool toy_pool empty_store
              eq_refl)).
Defined.

Lemma recorded_metric_is_test_rmse_witness :
  active empty_store = None
  /\ (exists fitted labels predictions,
        rf_evaluation toy_lib toy_frame toy_frame "MedHouseVal"
        = Ok (fitted, labels, predictions)
        /\ records_test_rmse toy_lib empty_store
             (rf_baseline_run toy_lib toy_frame toy_frame "MedHouseVal")
             labels predictions)
  /\ records_no_metric empty_store
       (fttransformer_mlflow_run toy_lib "linear_embeddings" linear_embeddings_params
          train_params (params_to_skip [] []) (toy_dataset true) (toy_dataset false)
          toy_test_ds [] 0)
       (AttributeError "'dict' object has no attribute 'ravel'").
Proof.
  pose proof (recorded_metric_is_test_rmse toy_lib "linear_embeddings" mlp_params
                train_params linear_embeddings_params (params_to_skip [] [])
                (toy_dataset true) (toy_dataset false) toy_test_ds [] 0
                toy_frame toy_frame "MedHouseVal" toy_pool toy_pool toy_pool empty_store
                eq_refl) as (_ & Hrecords & Hft).
  split; [reflexivity|]. split.
  - eexists _, _, _. split; [vm_compute; reflexivity|].
    refine (proj1 (proj2 (Hrecords _ _ _ _ _)) _);
      [vm_compute; reflexivity | vm_compute; lia | vm_compute; reflexivity].
  - eapply Hft; [vm_compute; reflexivity | vm_compute; reflexivity
                | vm_compute; reflexivity].
Defined.

Lemma layer3_size_logged_but_not_built_witness :
  build_mlp toy_lib mlp_params = build_mlp toy_lib (<["layer3_size" := VInt 32]> mlp_params)
  /\ ("layer3_size", VInt 64)
       ∈ recorded_params empty_store
           (mlp_mlflow_run toy_lib "mlp_base" mlp_params train_params
              (toy_dataset true) (toy_dataset false) toy_test_ds [] 0).
Proof.
  apply (layer3_size_logged_but_not_built toy_lib "mlp_base" mlp_params
           (<["layer3_size" := VInt 32]> mlp_params) train_params
           (toy_dataset true) (toy_dataset false) toy_test_ds [] 0 empty_store (VInt 64)).
  - intros k Hk. symmetry. apply lookup_insert_ne. congruence.
  - vm_compute. reflexivity.
  - reflexivity.
Defined.

Lemma partitions_disjoint_sizes_sum_witness :
  exists X_train X_val test_data,
    prepare toy_lib (rev (seq 0 5)) (rev (seq 0 4)) toy_frame
    = Ok (X_train, X_val, test_data)
    /\ (forall i, i ∈ df_index X_train -> i ∉ df_index X_val)
    /\ (forall i, i ∈ df_index X_train -> i ∉ df_index test_data)
    /\ (forall i, i ∈ df_index X_val -> i ∉ df_index test_data)
    /\ (forall i, i ∈ df_index toy_frame <->
                  i ∈ df_index X_train \/ i ∈ df_index X_val \/ i ∈ df_index test_data)
    /\ n_rows X_train + n_rows X_val + n_rows test_data = n_rows toy_frame
    /\ n_rows test_data = (n_rows toy_frame + 4) / 5
    /\ n_rows X_val = (n_rows toy_frame - n_rows test_data + 4) / 5.
Proof.
  apply (partitions_disjoint_sizes_sum toy_lib (rev (seq 0 5)) (rev (seq 0 4)) toy_frame).
  - apply (NoDup_seq 0 5).
  - symmetry. apply (Permutation_rev (seq 0 5)).
  - symmetry. apply (Permutation_rev (seq 0 4)).
  - vm_compute. lia.
  - eexists. vm_compute. reflexivity.
Defined.

Lemma toy_trajectory model lr wd tr n :
  trajectory toy_lib (compiled_with model lr wd) tr n toy_w.
Proof. split; [reflexivity|]. intros e _. reflexivity. Qed.

Lemma toy_stops_improving mon model lr wd va n :
  stops_improving_at
    (fun e => evaluate toy_lib (compiled_with model lr wd) (toy_w (S e)) va mon) 3 n.
Proof.
  split.
  - intros i j Hij Hj.
    assert (j = 1 /\ i = 0 \/ j = 2 /\ (i = 0 \/ i = 1)
            \/ j = 3 /\ (i = 0 \/ i = 1 \/ i = 2)) as Hcases by lia.
    destruct Hcases as [[-> ->]|[[-> [->| ->]]|[-> [->|[->| ->]]]]]; reflexivity.
  - intros j Hj _. cbn [evaluate toy_lib toy_w].
    unfold Qle, Qmult, Qminus, Qplus, Qopp, inject_Z. cbn [Qnum Qden]. nia.
Qed.

(** On the small instance the metric stops improving at epoch 3: with a
    patience of 10 and a budget of 1000, fourteen epochs are run and the
    weights of epoch 3 come back. *)
Example toy_training_halts_ten_epochs_after_best :
  exists n_run history,
    fit toy_lib (compiled_with (Sequential []) VNone VNone) (toy_dataset true)
      (VInt (Z.of_nat 1000)) (toy_dataset false) (early_stopping_on "val_rmse" (VInt 10))
    = Ok ((Sequential [], toy_w 4), history)
    /\ length history = n_run /\ n_run = 14.
Proof.
  destruct (fit_early_stopped toy_lib (compiled_with (Sequential []) VNone VNone)
              "val_rmse" 10 (toy_dataset true) (toy_dataset false) toy_w 1000
              (toy_trajectory _ _ _ _ _) ltac:(lia))
    as (n_run & Hfit & _ & _ & _ & _ & _ & Hk).
  destruct (Hk 3 ltac:(lia) (toy_stops_improving _ _ _ _ _ _)) as [_ Hp].
  destruct (Hp ltac:(lia)) as [Hbest Hrun].
  exists n_run, (map (fun e => evaluate toy_lib (compiled_with (Sequential []) VNone VNone)
                                (toy_w (S e)) (toy_dataset false) "val_rmse")
                     (seq 0 n_run)).
  rewrite Hfit, Hbest. split; [reflexivity|]. split; [|exact Hrun].
  by rewrite length_map, length_seq.
Qed.

Lemma early_stopping_halts_and_restores_best_witness :
  early_stopped
    (fit toy_lib (compiled_with (Sequential []) (VFloat (8 # 1000)) (VFloat (1 # 100000)))
       (toy_dataset true) (VInt (Z.of_nat 1000)) (toy_dataset false)
       (early_stopping_on "val_rmse" (VInt 10)))
    (Sequential []) toy_w
    (fun e => evaluate toy_lib
                (compiled_with (Sequential []) (VFloat (8 # 1000)) (VFloat (1 # 100000)))
                (toy_w (S e)) (toy_dataset false) "val_rmse")
    1000 10.
Proof.
  apply (early_stopping_halts_and_restores_best toy_lib (Sequential []) train_params
           (toy_dataset true) (toy_dataset false) (VFloat (8 # 1000))
           (VFloat (1 # 100000)) 10 1000 toy_w).
  - vm_compute. reflexivity.
  - vm_compute. reflexivity.
  - vm_compute. reflexivity.
  - vm_compute. reflexivity.
  - apply toy_trajectory.
  - lia.
Defined.

(** * Further properties of the notebook *)

(** ** Tables *)

Lemma assoc_Some_elem {A} c (l : list (string * A)) v :
  assoc c l = Some v -> (c, v) ∈ l.
Proof.
  induction l as [|[k w] l IH]; [done|]. cbn. case_decide as Hk.
  - intros [= <-]. subst. apply list_elem_of_here.
  - intros H. apply list_elem_of_further. by apply IH.
Qed.

Lemma assoc_None_names {A} c (l : list (string * A)) :
  assoc c l = None <-> c ∉ map fst l.
Proof.
  induction l as [|[k w] l IH]; cbn.
  - split; [intros _; apply not_elem_of_nil|done].
  - case_decide as Hk.
    + subst. split; [done|]. intros H. exfalso. apply H. apply list_elem_of_here.
    + rewrite IH, not_elem_of_cons.
      split; [intros H; split; [congruence|done] | by intros [_ H]].
Qed.

Lemma assoc_set_assoc_eq {A} c (v : A) l : assoc c (set_assoc c v l) = Some v.
Proof.
  induction l as [|[k w] l IH]; cbn.
  - by rewrite decide_True.
  - case_decide as Hk; cbn.
    + by rewrite decide_True.
    + by rewrite decide_False.
Qed.

Lemma assoc_set_assoc_ne {A} c c' (v : A) l :
  c' <> c -> assoc c' (set_assoc c v l) = assoc c' l.
Proof.
  intros Hne. induction l as [|[k w] l IH]; cbn.
  - by rewrite decide_False.
  - case_decide as Hk; cbn.
    + subst k. by rewrite !decide_False by done.
    + case_decide; [done|exact IH].
Qed.

Lemma names_set_assoc_in {A} c (v : A) l :
  c ∈ map fst l -> map fst (set_assoc c v l) = map fst l.
Proof.
  induction l as [|[k w] l IH]; cbn.
  - intros H. by apply elem_of_nil in H.
  - intros H. case_decide as Hk; cbn; [by subst|].
    f_equal. apply IH. apply elem_of_cons in H as [H|H]; [congruence|done].
Qed.

Lemma names_set_assoc_new {A} c (v : A) l :
  c ∉ map fst l -> map fst (set_assoc c v l) = map fst l ++ [c].
Proof.
  induction l as [|[k w] l IH]; cbn; [done|].
  intros H. apply not_elem_of_cons in H as [H1 H2].
  rewrite decide_False by done. cbn. f_equal. by apply IH.
Qed.

Lemma Forall_set_assoc {A} (P : string * A -> Prop) c v l :
  P (c, v) -> Forall P l -> Forall P (set_assoc c v l).
Proof.
  intros Hv. induction 1 as [|[k w] l Hk Hl IH]; cbn.
  - by repeat constructor.
  - case_decide; constructor; done.
Qed.

(** [getcols] returns the columns asked, in the order asked. *)
Lemma getcols_names df cs f : getcols df cs = Ok f -> map fst f = cs.
Proof.
  revert f. induction cs as [|c cs IH]; intros f; cbn [getcols].
  - by intros [= <-].
  - destruct (getcol df c) as [v|e]; [|discriminate]. cbn.
    destruct (getcols df cs) as [rest|e]; [|discriminate]. cbn.
    intros [= <-]. cbn. f_equal. by apply IH.
Qed.

Lemma getcols_lookup df cs f j c :
  getcols df cs = Ok f -> cs !! j = Some c ->
  exists v, f !! j = Some (c, v) /\ getcol df c = Ok v.
Proof.
  revert f j. induction cs as [|c0 cs IH]; intros f j; cbn [getcols]; [done|].
  destruct (getcol df c0) as [v|e] eqn:E; [|discriminate]. cbn.
  destruct (getcols df cs) as [rest|e]; [|discriminate]. cbn.
  intros [= <-]. destruct j as [|j]; cbn.
  - intros [= <-]. by exists v.
  - intros Hj. by apply IH.
Qed.

Lemma getcols_Ok_iff df cs :
  is_Ok (getcols df cs) <-> Forall (fun c => is_Ok (getcol df c)) cs.
Proof.
  induction cs as [|c cs IH]; cbn [getcols].
  - split; [constructor|by eexists].
  - rewrite Forall_cons, <- IH. destruct (getcol df c) as [v|e]; cbn.
    + destruct (getcols df cs) as [rest|e]; cbn.
      * split; [intros _; split; by eexists|by eexists].
      * split; [by intros [? ?]|by intros [_ [? ?]]].
    + split; [by intros [? ?]|by intros [[? ?] _]].
Qed.

Lemma getcol_Ok_iff df c : is_Ok (getcol df c) <-> c ∈ column_names df.
Proof.
  unfold getcol, column_names.
  destruct (assoc c (df_columns df)) as [v|] eqn:E.
  - split; [intros _|by eexists].
    apply assoc_Some_elem in E. apply list_elem_of_fmap. by exists (c, v).
  - apply assoc_None_names in E. split; [by intros [? ?]|done].
Qed.

Lemma getcol_wf df c v : wf_frame df -> getcol df c = Ok v -> length v = n_rows df.
Proof.
  unfold wf_frame, getcol. intros Hwf.
  destruct (assoc c (df_columns df)) as [w|] eqn:E; [|discriminate].
  intros [= <-]. apply assoc_Some_elem in E.
  by apply (proj1 (Forall_forall _ _) Hwf (c, w)).
Qed.

Lemma getcols_wf df cs f :
  wf_frame df -> getcols df cs = Ok f -> Forall (fun cv => length cv.2 = n_rows df) f.
Proof.
  intros Hwf. revert f. induction cs as [|c cs IH]; intros f; cbn [getcols].
  - intros [= <-]. constructor.
  - destruct (getcol df c) as [v|e] eqn:E; [|discriminate]. cbn.
    destruct (getcols df cs) as [rest|e]; [|discriminate]. cbn.
    intros [= <-]. constructor; [by eapply getcol_wf|by apply IH].
Qed.

(** Rows of a list of columns. *)
Lemma length_rows n cols : length (rows n cols) = n.
Proof. unfold rows. by rewrite length_map, length_seq. Qed.

Lemma rows_lookup n cols i :
  i < n -> rows n cols !! i = Some (map (fun cv => nth i cv.2 0%Q) cols).
Proof.
  intros Hi. unfold rows. rewrite list_lookup_fmap, lookup_seq_lt by done. done.
Qed.

Lemma Forall_rows_length n cols : Forall (fun r => length r = length cols) (rows n cols).
Proof.
  unfold rows. apply Forall_map. apply Forall_forall. intros i _. cbn.
  by rewrite length_map.
Qed.

(** The cell at row [i] of the [j]-th column asked for. *)
Lemma rows_cell df cs f i j c col x :
  getcols df cs = Ok f -> cs !! j = Some c -> getcol df c = Ok col -> col !! i = Some x ->
  i < n_rows df ->
  exists row, rows (n_rows df) f !! i = Some row /\ row !! j = Some x.
Proof.
  intros Hf Hj Hc Hx Hi.
  destruct (getcols_lookup df cs f j c Hf Hj) as (v & Hv & Hc').
  rewrite Hc in Hc'. injection Hc' as <-.
  eexists. split; [by apply rows_lookup|].
  rewrite list_lookup_fmap, Hv. cbn. f_equal.
  by apply nth_lookup_Some with (d := 0%Q) in Hx.
Qed.

(** ** Writing columns *)

Lemma setcol_getcol_eq df c v df' : setcol df c v = Ok df' -> getcol df' c = Ok v.
Proof.
  unfold setcol. case_decide; [|discriminate]. intros [= <-].
  unfold getcol. cbn. by rewrite assoc_set_assoc_eq.
Qed.

Lemma setcol_getcol_ne df c v df' c' :
  setcol df c v = Ok df' -> c' <> c -> getcol df' c' = getcol df c'.
Proof.
  unfold setcol. case_decide; [|discriminate]. intros [= <-] Hne.
  unfold getcol. cbn. by rewrite assoc_set_assoc_ne.
Qed.

Lemma setcol_wf df c v df' : wf_frame df -> setcol df c v = Ok df' -> wf_frame df'.
Proof.
  unfold setcol. intros Hwf. case_decide as Hlen; [|discriminate]. intros [= <-].
  unfold wf_frame, n_rows in *. cbn. by apply Forall_set_assoc.
Qed.

Lemma loc_set_same_outside df cs arr :
  Forall (fun c => c ∈ column_names df) cs -> same_outside cs df (loc_set df cs arr).
Proof.
  unfold same_outside, loc_set, column_names, getcol. cbn [df_index df_columns].
  generalize (df_columns df) as cols. intros cols Hcs.
  split; [done|].
  revert arr cols Hcs. induction cs as [|c cs IH]; intros arr cols Hcs; [done|].
  apply Forall_cons in Hcs as [Hc Hcs].
  destruct arr as [|a arr]; [done|]. cbn [zip zip_with foldl fst snd].
  destruct (IH arr (set_assoc c a cols)) as [IH1 IH2].
  { by rewrite names_set_assoc_in. }
  split.
  - by rewrite IH1, names_set_assoc_in.
  - intros c' Hc'. apply not_elem_of_cons in Hc' as [Hne Hc'].
    rewrite (IH2 c' Hc'). by rewrite assoc_set_assoc_ne.
Qed.

Lemma loc_set_wf df cs arr :
  wf_frame df -> Forall (fun a => length a = n_rows df) arr -> wf_frame (loc_set df cs arr).
Proof.
  unfold wf_frame, loc_set, n_rows. cbn [df_index df_columns].
  generalize (df_columns df) as cols. intros cols Hwf Harr.
  revert cs cols Hwf. induction Harr as [|a arr Ha Harr IH]; intros cs cols Hwf.
  - by destruct cs.
  - destruct cs as [|c cs]; [done|]. cbn [zip zip_with foldl fst snd].
    apply IH. by apply Forall_set_assoc.
Qed.

(** ** Taking rows *)

Lemma length_select_same {A B} (pos : list nat) (l1 : list A) (l2 : list B) :
  length l1 = length l2 -> length (select pos l1) = length (select pos l2).
Proof.
  intros Hlen. unfold select. induction pos as [|i pos IH]; [done|]. cbn.
  destruct (l1 !! i) as [x|] eqn:E1; destruct (l2 !! i) as [y|] eqn:E2; cbn; try lia.
  - apply lookup_lt_Some in E1. apply lookup_ge_None in E2. lia.
  - apply lookup_lt_Some in E2. apply lookup_ge_None in E1. lia.
Qed.

Lemma take_rows_wf pos df : wf_frame df -> wf_frame (take_rows pos df).
Proof.
  unfold wf_frame, take_rows, n_rows. cbn. intros Hwf.
  apply Forall_map. eapply Forall_impl; [exact Hwf|].
  intros [c v] Hv. cbn in *. by apply length_select_same.
Qed.

Lemma take_rows_names pos df : column_names (take_rows pos df) = column_names df.
Proof.
  unfold column_names, take_rows. cbn. rewrite map_map. by apply map_ext.
Qed.

Lemma train_test_split_wf perm df test_size tr te :
  wf_frame df -> train_test_split perm df test_size = Ok (tr, te) ->
  wf_frame tr /\ wf_frame te.
Proof.
  intros Hwf. unfold train_test_split. case_decide; [discriminate|].
  intros [= <- <-]. split; by apply take_rows_wf.
Qed.

(** ** The Load Data cell *)

Lemma assoc_NoDup_elem {A} c (v : A) (l : list (string * A)) :
  NoDup (map fst l) -> (c, v) ∈ l -> assoc c l = Some v.
Proof.
  induction l as [|[k w] l IH]; cbn.
  - intros _ H. by apply elem_of_nil in H.
  - intros Hnd H. apply NoDup_cons in Hnd as [Hk Hnd].
    apply elem_of_cons in H as [[= -> ->]|H].
    + by rewrite decide_True.
    + rewrite decide_False; [by apply IH|].
      intros ->. apply Hk. apply list_elem_of_fmap. by exists (c, v).
Qed.

Lemma pd_DataFrame_names array names : column_names (frame_of_array array names) = names.
Proof.
  unfold column_names, frame_of_array. cbn [df_columns].
  apply list_eq. intros j. rewrite list_lookup_fmap, list_lookup_imap.
  by destruct (names !! j).
Qed.

Lemma pd_DataFrame_wf array names : wf_frame (frame_of_array array names).
Proof.
  unfold wf_frame, frame_of_array, n_rows. cbn [df_columns df_index].
  apply Forall_forall. intros [c v] Hin.
  apply elem_of_lookup_imap_1 in Hin as (j & c' & [= -> ->] & _). cbn.
  by rewrite length_map, length_seq.
Qed.

Lemma pd_DataFrame_getcol array names j c :
  NoDup names -> names !! j = Some c ->
  getcol (frame_of_array array names) c = Ok (map (fun r => nth j r 0%Q) array).
Proof.
  intros Hnd Hj. unfold getcol.
  rewrite (assoc_NoDup_elem c (map (fun r => nth j r 0%Q) array)); [done| |].
  - fold (column_names (frame_of_array array names)). by rewrite pd_DataFrame_names.
  - unfold frame_of_array. cbn [df_columns].
    by apply (elem_of_lookup_imap_2 (fun j c => (c, map (fun r => nth j r 0%Q) array)) names c j).
Qed.

Lemma setcol_names df c v df' :
  setcol df c v = Ok df' ->
  column_names df' = if decide (c ∈ column_names df) then column_names df
                     else column_names df ++ [c].
Proof.
  unfold setcol. case_decide; [|discriminate]. intros [= <-].
  unfold column_names. cbn [df_columns]. case_decide.
  - by apply names_set_assoc_in.
  - by apply names_set_assoc_new.
Qed.

Lemma setcol_index df c v df' : setcol df c v = Ok df' -> n_rows df' = n_rows df.
Proof. unfold setcol. case_decide; [|discriminate]. by intros [= <-]. Qed.

(** X1.  The Load Data cell.  It needs a target name, one feature name per
    column of the data and one target value per row: with no target name
    it raises [IndexError], with a row of the data that has not one entry
    per feature name a [ValueError], and with a target of another length
    than the data, which has a row at least, a [ValueError].  Otherwise,
    the data having a row at least and the feature names being distinct, it
    returns the table and the first target name; the table has one row per row of the data, every column
    has one value per row, the label column holds the target, and the
    columns are the features followed by the label (or the features alone
    when one of them already has the label's name: that column is
    overwritten). *)
Theorem load_data_outcome dset :
  (target_names dset = [] -> load_data dset = Raise IndexError)
  /\ (forall l ls, target_names dset = l :: ls ->
        ~ Forall (fun r => length r = length (feature_names dset)) (data dset) ->
        exists msg, load_data dset = Raise (ValueError msg))
  /\ (forall l ls, target_names dset = l :: ls ->
        data dset <> [] ->
        length (target dset) <> length (data dset) ->
        exists msg, load_data dset = Raise (ValueError msg))
  /\ (forall l ls, target_names dset = l :: ls ->
        data dset <> [] ->
        Forall (fun r => length r = length (feature_names dset)) (data dset) ->
        length (target dset) = length (data dset) ->
        NoDup (feature_names dset) ->
        exists df, load_data dset = Ok (df, l)
          /\ n_rows df = length (data dset) /\ wf_frame df
          /\ getcol df l = Ok (target dset)
          /\ column_names df
             = if decide (l ∈ feature_names dset) then feature_names dset
               else feature_names dset ++ [l]).
Proof.
  split; [|split; [|split]].
  - intros H. unfold load_data. by rewrite H.
  - intros l ls H Hw. unfold load_data, pd_DataFrame. rewrite H. cbn.
    rewrite decide_False by done. by eexists.
  - intros l ls H _ Hlen. unfold load_data, pd_DataFrame. rewrite H. cbn.
    case_decide; [|by eexists]. cbn.
    unfold setcol. rewrite decide_False; [by eexists|].
    unfold n_rows, frame_of_array. cbn. by rewrite length_seq.
  - intros l ls H _ Hw Hlen _. unfold load_data, pd_DataFrame. rewrite H. cbn.
    rewrite decide_True by done. cbn.
    destruct (setcol (frame_of_array (data dset) (feature_names dset)) l (target dset))
      as [df|e] eqn:E.
    2:{ unfold setcol in E. rewrite decide_True in E; [discriminate|].
        unfold n_rows, frame_of_array. cbn. by rewrite length_seq. }
    exists df. cbn. split; [done|]. split; [|split; [|split]].
    + rewrite (setcol_index _ _ _ _ E). unfold n_rows, frame_of_array. cbn.
      by rewrite length_seq.
    + eapply setcol_wf; [|exact E]. apply pd_DataFrame_wf.
    + by eapply setcol_getcol_eq.
    + rewrite (setcol_names _ _ _ _ E). by rewrite pd_DataFrame_names.
Qed.

Example load_data_toy : load_data toy_bunch = Ok (toy_frame, "MedHouseVal").
Proof. vm_compute. reflexivity. Qed.

Example load_data_without_target_name :
  load_data {| data := []; target := []; feature_names := []; target_names := [] |}
  = Raise IndexError.
Proof. reflexivity. Qed.

(** Seven names for the eight columns of the data. *)
Example load_data_with_a_name_missing :
  load_data {| data := data toy_bunch; target := target toy_bunch;
               feature_names := take 7 (feature_names toy_bunch);
               target_names := target_names toy_bunch |}
  = Raise (ValueError "Shape of passed values does not match the columns").
Proof. vm_compute. reflexivity. Qed.

(** X2.  The feature columns of the loaded table.  With distinct feature
    names, the column of the [j]-th feature, when it is not the label,
    holds at row [i] the [j]-th entry of the [i]-th row of the data. *)
Theorem load_data_feature_columns dset df LABEL j c :
  NoDup (feature_names dset) ->
  load_data dset = Ok (df, LABEL) ->
  feature_names dset !! j = Some c -> c <> LABEL ->
  exists col, getcol df c = Ok col
    /\ length col = length (data dset)
    /\ forall i row x, data dset !! i = Some row -> row !! j = Some x -> col !! i = Some x.
Proof.
  intros Hnd Hload Hj Hne. unfold load_data in Hload.
  destruct (target_names dset) as [|l ls]; [discriminate|]. cbn in Hload.
  unfold pd_DataFrame in Hload. case_decide; [|discriminate]. cbn in Hload.
  destruct (setcol _ l (target dset)) as [df'|e] eqn:E; [|discriminate].
  cbn in Hload. injection Hload as <- <-.
  exists (map (fun r => nth j r 0%Q) (data dset)).
  split; [|split].
  - rewrite (setcol_getcol_ne _ _ _ _ c E Hne). by apply pd_DataFrame_getcol.
  - by rewrite length_map.
  - intros i row x Hi Hx. rewrite list_lookup_fmap, Hi. cbn. f_equal.
    by apply nth_lookup_Some.
Qed.

Lemma load_data_feature_columns_witness :
  exists col, getcol toy_frame "AveRooms" = Ok col
    /\ length col = length (data toy_bunch)
    /\ forall i row x, data toy_bunch !! i = Some row -> row !! 2 = Some x ->
                       col !! i = Some x.
Proof.
  apply (load_data_feature_columns toy_bunch toy_frame "MedHouseVal" 2 "AveRooms").
  - apply (bool_decide_unpack _). vm_compute. reflexivity.
  - vm_compute. reflexivity.
  - reflexivity.
  - discriminate.
Defined.

(** ** The Feature Scaling cell: what it leaves alone *)

Lemma getcols_in_names df cs :
  is_Ok (getcols df cs) -> Forall (fun c => c ∈ column_names df) cs.
Proof.
  intros H. apply getcols_Ok_iff in H. eapply Forall_impl; [exact H|].
  intros c Hc. by apply getcol_Ok_iff.
Qed.

(** X3.  Scaling touches the numeric feature columns only.  Each of the
    three partitions comes back with the rows and the columns it had, and
    every column that is not a numeric feature (the label among them) holds
    the values it held. *)
Theorem scaling_changes_numeric_columns_only lib X_train X_val test_data sc tr va te :
  (scale_partitions lib X_train X_val test_data sc).2 = Ok (tr, va, te) ->
  same_outside NUMERIC_FEATURES X_train tr
  /\ same_outside NUMERIC_FEATURES X_val va
  /\ same_outside NUMERIC_FEATURES test_data te.
Proof.
  intros H.
  apply scale_partitions_result in H as (a & b & c & Ha & Hb & Hc & -> & -> & ->).
  split; [|split]; apply loc_set_same_outside; apply getcols_in_names; by eexists.
Qed.

Lemma scaling_changes_numeric_columns_only_witness :
  exists tr va te,
    (scale_partitions toy_lib toy_frame toy_frame toy_frame None).2 = Ok (tr, va, te)
    /\ same_outside NUMERIC_FEATURES toy_frame tr
    /\ same_outside NUMERIC_FEATURES toy_frame va
    /\ same_outside NUMERIC_FEATURES toy_frame te.
Proof.
  eexists _, _, _. split; [vm_compute; reflexivity|].
  apply (scaling_changes_numeric_columns_only toy_lib toy_frame toy_frame toy_frame None).
  vm_compute. reflexivity.
Defined.

(** ** The two splits on a small table *)

Lemma train_test_split_small perm df :
  n_rows df <= 1 ->
  train_test_split perm df (2 # 10)
  = Raise (ValueError "the resulting train set will be empty").
Proof.
  intros Hn. unfold train_test_split. rewrite n_test_fifth.
  rewrite decide_True; [done|].
  assert (n_rows df = 0 \/ n_rows df = 1) as [-> | ->] by lia; reflexivity.
Qed.

(** X4.  The Dataset Preparer needs three rows.  On a table of fewer rows
    one of the two splits would leave its train part empty, and the
    preparation raises the [ValueError] of the split, whatever order the
    generator draws. *)
Theorem prepare_needs_three_rows lib perm1 perm2 df :
  n_rows df < 3 ->
  exists msg, prepare lib perm1 perm2 df = Raise (ValueError msg).
Proof.
  intros Hn. eexists. unfold prepare, split_cell.
  destruct (decide (n_rows df <= 1)) as [Hle|Hgt].
  { by rewrite train_test_split_small. }
  assert (n_rows df = 2) as H2 by lia.
  unfold train_test_split at 1. rewrite n_test_fifth, H2.
  change ((2 + 4) / 5) with 1. change (2 - 1) with 1.
  rewrite decide_False by done. cbn [mbind Result_bind].
  unfold scaling_cell. rewrite train_test_split_small; [done|].
  unfold n_rows, take_rows. cbn [df_index].
  etrans; [apply length_select_le|]. rewrite length_take. lia.
Qed.

Lemma prepare_needs_three_rows_witness :
  exists msg,
    prepare toy_lib [1; 0] [0] (take_rows [0; 1] toy_frame) = Raise (ValueError msg).
Proof.
  apply (prepare_needs_three_rows toy_lib [1; 0] [0] (take_rows [0; 1] toy_frame)).
  vm_compute. lia.
Defined.

(** ** The Dataset Preparer keeps tables well formed *)

Lemma Forall_values_length n (cols : list (string * list Q)) :
  Forall (fun cv => length cv.2 = n) cols -> Forall (fun a => length a = n) (values cols).
Proof. intros H. unfold values. by apply Forall_map. Qed.

Lemma Forall_map_length {A} n (l l' : list (list A)) :
  map length l' = map length l ->
  Forall (fun a => length a = n) l -> Forall (fun a => length a = n) l'.
Proof.
  intros Hmap H.
  assert (Forall (fun k => k = n) (length <$> l)) as H1 by (apply Forall_fmap; exact H).
  change (length <$> l) with (map length l) in H1. rewrite <- Hmap in H1.
  change (map length l') with (length <$> l') in H1.
  apply Forall_fmap in H1. exact H1.
Qed.

(** X5.  The partitions are well-formed tables.  When the scaler's
    transform returns an array of the shape it was given, the three
    partitions prepared from a well-formed table are well formed: in each,
    every column has one value per row. *)
Theorem prepare_keeps_tables_well_formed lib perm1 perm2 df X_train X_val test_data :
  (forall st X, map length (scaler_transform lib st X) = map length X) ->
  wf_frame df ->
  prepare lib perm1 perm2 df = Ok (X_train, X_val, test_data) ->
  wf_frame X_train /\ wf_frame X_val /\ wf_frame test_data.
Proof.
  intros Hshape Hwf. unfold prepare.
  destruct (split_cell perm1 df) as [[train_data test0]|e] eqn:E1; [|discriminate].
  cbn [mbind Result_bind]. unfold scaling_cell.
  destruct (train_test_split perm2 train_data (2 # 10)) as [[Xt Xv]|e] eqn:E2;
    [|discriminate].
  intros H.
  apply scale_partitions_result in H as (a & b & c & Ha & Hb & Hc & -> & -> & ->).
  destruct (train_test_split_wf _ _ _ _ _ Hwf E1) as [Hw1 Hw2].
  destruct (train_test_split_wf _ _ _ _ _ Hw1 E2) as [Hw3 Hw4].
  split; [|split]; (apply loc_set_wf; [done|]);
    (eapply Forall_map_length; [apply Hshape|]);
    apply Forall_values_length; by eapply getcols_wf.
Qed.

Lemma prepare_keeps_tables_well_formed_witness :
  exists X_train X_val test_data,
    prepare toy_lib (rev (seq 0 5)) (rev (seq 0 4)) toy_frame
    = Ok (X_train, X_val, test_data)
    /\ wf_frame X_train /\ wf_frame X_val /\ wf_frame test_data.
Proof.
  eexists _, _, _. split; [vm_compute; reflexivity|].
  apply (prepare_keeps_tables_well_formed toy_lib (rev (seq 0 5)) (rev (seq 0 4))
           toy_frame).
  - intros st X. reflexivity.
  - apply (bool_decide_unpack _). vm_compute. reflexivity.
  - vm_compute. reflexivity.
Defined.

(** ** The Feature Scaling cell, run on its own output *)

Lemma assoc_foldl_set_assoc_notin (c : string) cs (arr : list (list Q)) cols :
  c ∉ cs ->
  assoc c (foldl (fun cols cv => set_assoc cv.1 cv.2 cols) cols (zip cs arr))
  = assoc c cols.
Proof.
  revert arr cols. induction cs as [|c0 cs IH]; intros arr cols Hc; [done|].
  apply not_elem_of_cons in Hc as [Hne Hc].
  destruct arr as [|a arr]; [done|]. cbn [zip zip_with foldl fst snd].
  rewrite IH by done. by apply assoc_set_assoc_ne.
Qed.

(** Reading back the columns just written. *)
Lemma getcols_loc_set df cs arr :
  NoDup cs -> length arr = length cs ->
  getcols (loc_set df cs arr) cs = Ok (zip cs arr).
Proof.
  unfold loc_set. generalize (df_index df) as idx. generalize (df_columns df) as cols.
  intros cols idx Hnd. revert arr cols.
  induction Hnd as [|c cs Hc Hnd IH]; intros arr cols Hlen.
  - by destruct arr.
  - destruct arr as [|a arr]; [done|]. cbn [zip zip_with foldl fst snd getcols].
    unfold getcol at 1. cbn [df_columns].
    rewrite assoc_foldl_set_assoc_notin by done. rewrite assoc_set_assoc_eq.
    cbn [mbind Result_bind].
    rewrite (IH arr (set_assoc c a cols)) by (cbn in Hlen; lia). done.
Qed.

Lemma values_zip cs (arr : list (list Q)) :
  length arr = length cs -> values (zip cs arr) = arr.
Proof.
  intros Hlen. unfold values. change (map snd (zip cs arr)) with ((zip cs arr).*2).
  apply snd_zip. lia.
Qed.

Lemma length_values_getcols df cs f : getcols df cs = Ok f -> length (values f) = length cs.
Proof.
  intros H. apply getcols_names in H. unfold values. rewrite length_map.
  by rewrite <- H, length_map.
Qed.

(** C2.  The scaler is fitted on the train partition only, and one
    transform serves the three partitions.  After the scaling statements
    the scaler's statistics are those of the numeric columns of [X_train];
    they are the same whatever the validation and test partitions hold; and
    each partition returned has its numeric columns replaced by the
    transform of its own values under those same statistics: read back
    from the partition returned, the numeric columns hold that transform
    (the scaler's transform is taken to return as many columns as it is
    given).  In the whole cell, which first splits the outer train set, the
    statistics do not depend on the test partition either. *)
Theorem scaler_fitted_on_train_only lib X_train X_val X_val' test_data test_data' perm
    train_data :
  (forall a, getcols X_train NUMERIC_FEATURES = Ok a ->
             (scale_partitions lib X_train X_val test_data None).1
             = Some (scaler_fit lib (values a)))
  /\ (scale_partitions lib X_train X_val test_data None).1
     = (scale_partitions lib X_train X_val' test_data' None).1
  /\ (forall tr va te,
        (scale_partitions lib X_train X_val test_data None).2 = Ok (tr, va, te) ->
        exists st a b c,
          (scale_partitions lib X_train X_val test_data None).1 = Some st
          /\ getcols X_train NUMERIC_FEATURES = Ok a
          /\ getcols X_val NUMERIC_FEATURES = Ok b
          /\ getcols test_data NUMERIC_FEATURES = Ok c
          /\ tr = loc_set X_train NUMERIC_FEATURES (scaler_transform lib st (values a))
          /\ va = loc_set X_val NUMERIC_FEATURES (scaler_transform lib st (values b))
          /\ te = loc_set test_data NUMERIC_FEATURES (scaler_transform lib st (values c)))
  /\ (scaling_cell lib perm train_data test_data).1
     = (scaling_cell lib perm train_data test_data').1
  /\ ((forall st X, length (scaler_transform lib st X) = length X) ->
      forall tr va te,
        (scale_partitions lib X_train X_val test_data None).2 = Ok (tr, va, te) ->
        exists st a b c a' b' c',
          (scale_partitions lib X_train X_val test_data None).1 = Some st
          /\ getcols X_train NUMERIC_FEATURES = Ok a
          /\ getcols X_val NUMERIC_FEATURES = Ok b
          /\ getcols test_data NUMERIC_FEATURES = Ok c
          /\ getcols tr NUMERIC_FEATURES = Ok a'
          /\ values a' = scaler_transform lib st (values a)
          /\ getcols va NUMERIC_FEATURES = Ok b'
          /\ values b' = scaler_transform lib st (values b)
          /\ getcols te NUMERIC_FEATURES = Ok c'
          /\ values c' = scaler_transform lib st (values c)
          /\ same_outside NUMERIC_FEATURES X_train tr
          /\ same_outside NUMERIC_FEATURES X_val va
          /\ same_outside NUMERIC_FEATURES test_data te).
Proof.
  split; [|split; [|split; [|split]]].
  - intros a Ha. by rewrite scale_partitions_scaler, Ha.
  - by rewrite !scale_partitions_scaler.
  - intros tr va te Hres.
    apply scale_partitions_result in Hres as (a & b & c & Ha & Hb & Hc & -> & -> & ->).
    exists (scaler_fit lib (values a)), a, b, c.
    rewrite scale_partitions_scaler, Ha. done.
  - unfold scaling_cell.
    destruct (train_test_split perm train_data (2 # 10)) as [[Xt Xv]|e]; [|done].
    by rewrite !scale_partitions_scaler.
  - intros Hshape tr va te Hres.
    assert (NoDup NUMERIC_FEATURES) as Hnd
      by (apply (bool_decide_unpack _); vm_compute; done).
    apply scale_partitions_result in Hres as (a & b & c & Ha & Hb & Hc & -> & -> & ->).
    set (st := scaler_fit lib (values a)).
    assert (forall df f, getcols df NUMERIC_FEATURES = Ok f ->
              length (scaler_transform lib st (values f)) = length NUMERIC_FEATURES)
      as Hlen.
    { intros df f Hf. rewrite Hshape. by eapply length_values_getcols. }
    exists st, a, b, c. eexists _, _, _.
    split; [by rewrite scale_partitions_scaler, Ha|].
    split; [done|]. split; [done|]. split; [done|].
    split; [apply getcols_loc_set; [done|by eapply Hlen]|].
    split; [apply values_zip; by eapply Hlen|].
    split; [apply getcols_loc_set; [done|by eapply Hlen]|].
    split; [apply values_zip; by eapply Hlen|].
    split; [apply getcols_loc_set; [done|by eapply Hlen]|].
    split; [apply values_zip; by eapply Hlen|].
    split; [|split]; apply loc_set_same_outside; apply getcols_in_names; by eexists.
Qed.

(** X6.  The Feature Scaling cell writes the test partition in place.  Run
    a second time, on the test partition the first run left, the cell
    transforms the test columns it had already transformed, now with the
    statistics of the new train split, while [X_train], [X_val] and the
    scaler come out as in a first run on the same split: they are rebuilt
    from [train_data].  (The scaler's transform is taken to return as many
    columns as it is given.) *)
Theorem scaling_cell_transforms_test_data_again lib perm1 perm2 train_data test_data
    st1 tr1 va1 te1 st2 tr2 va2 te2 c0 :
  (forall st X, length (scaler_transform lib st X) = length X) ->
  getcols test_data NUMERIC_FEATURES = Ok c0 ->
  scaling_cell lib perm1 train_data test_data = (Some st1, Ok (tr1, va1, te1)) ->
  scaling_cell lib perm2 train_data te1 = (Some st2, Ok (tr2, va2, te2)) ->
  (exists c2,
      getcols te2 NUMERIC_FEATURES = Ok c2
      /\ values c2 = scaler_transform lib st2 (scaler_transform lib st1 (values c0)))
  /\ (exists te, scaling_cell lib perm2 train_data test_data = (Some st2, Ok (tr2, va2, te))).
Proof.
  intros Hshape Hc0 H1 H2.
  assert (NoDup NUMERIC_FEATURES) as Hnd by (apply (bool_decide_unpack _); vm_compute; done).
  unfold scaling_cell in *.
  destruct (train_test_split perm1 train_data (2 # 10)) as [[Xt1 Xv1]|e]; [|discriminate].
  destruct (train_test_split perm2 train_data (2 # 10)) as [[Xt2 Xv2]|e]; [|discriminate].
  (* the first run *)
  pose proof (f_equal fst H1) as Hs1. pose proof (f_equal snd H1) as Hr1.
  cbn [fst snd] in Hs1, Hr1. rewrite scale_partitions_scaler in Hs1.
  apply scale_partitions_result in Hr1 as (a1 & b1 & c1 & Ha1 & Hb1 & Hc1 & -> & -> & ->).
  rewrite Ha1 in Hs1. injection Hs1 as <-.
  rewrite Hc0 in Hc1. injection Hc1 as <-.
  (* the second run *)
  pose proof (f_equal fst H2) as Hs2. pose proof (f_equal snd H2) as Hr2.
  cbn [fst snd] in Hs2, Hr2. rewrite scale_partitions_scaler in Hs2.
  apply scale_partitions_result in Hr2 as (a2 & b2 & c2 & Ha2 & Hb2 & Hc2 & -> & -> & ->).
  rewrite Ha2 in Hs2. injection Hs2 as <-.
  assert (forall st, length (scaler_transform lib st (values c0)) = length NUMERIC_FEATURES)
    as Hlen0.
  { intros st. rewrite Hshape. by eapply length_values_getcols. }
  rewrite getcols_loc_set in Hc2 by (done || apply Hlen0).
  assert (c2 = zip NUMERIC_FEATURES
                 (scaler_transform lib (scaler_fit lib (values a1)) (values c0))) as ->
    by congruence.
  rewrite values_zip by apply Hlen0.
  split.
  - eexists. split.
    + apply getcols_loc_set; [done|]. rewrite Hshape. apply Hlen0.
    + apply values_zip. rewrite Hshape. apply Hlen0.
  - destruct (scale_partitions lib Xt2 Xv2 test_data None) as [sc r] eqn:E.
    pose proof (f_equal fst E) as Es. pose proof (f_equal snd E) as Er.
    cbn [fst snd] in Es, Er. rewrite scale_partitions_scaler, Ha2 in Es. subst sc.
    unfold scale_partitions in Er.
    unfold mbind, M_bind, lift, sc_fit_transform, sc_fit, sc_transform, mret, M_ret in Er.
    rewrite Ha2, Hb2, Hc0 in Er. cbn -[NUMERIC_FEATURES] in Er. subst r.
    by eexists.
Qed.

Lemma scaling_cell_transforms_test_data_again_witness :
  exists st1 tr1 va1 te1 st2 tr2 va2 te2 c0,
    getcols toy_frame NUMERIC_FEATURES = Ok c0
    /\ scaling_cell toy_lib (rev (seq 0 5)) toy_frame toy_frame
       = (Some st1, Ok (tr1, va1, te1))
    /\ scaling_cell toy_lib (seq 0 5) toy_frame te1 = (Some st2, Ok (tr2, va2, te2))
    /\ (exists c2,
          getcols te2 NUMERIC_FEATURES = Ok c2
          /\ values c2
             = scaler_transform toy_lib st2 (scaler_transform toy_lib st1 (values c0)))
    /\ (exists te, scaling_cell toy_lib (seq 0 5) toy_frame toy_frame
                   = (Some st2, Ok (tr2, va2, te))).
Proof.
  eexists _, _, _, _, _, _, _, _, _.
  split; [vm_compute; reflexivity|].
  split; [vm_compute; reflexivity|].
  split; [vm_compute; reflexivity|].
  eapply (scaling_cell_transforms_test_data_again toy_lib (rev (seq 0 5)) (seq 0 5)
            toy_frame toy_frame).
  - intros st X. reflexivity.
  - vm_compute. reflexivity.
  - vm_compute. reflexivity.
  - vm_compute. reflexivity.
Defined.

(** ** Batches *)

Lemma concat_chunks {A} fuel n (l : list A) :
  0 < n -> length l <= fuel -> concat (chunks fuel n l) = l.
Proof.
  intros Hn. revert l. induction fuel as [|fuel IH]; intros l Hl.
  - destruct l; [done|cbn in Hl; lia].
  - destruct l as [|x l]; [done|].
    cbn [chunks concat]. rewrite IH.
    + apply take_drop.
    + rewrite length_drop. cbn in *. lia.
Qed.

Lemma elem_of_chunks {A} fuel n (l b : list A) :
  b ∈ chunks fuel n l ->
  exists k, b = take n (drop (k * n) l) /\ k * n < length l.
Proof.
  revert l. induction fuel as [|fuel IH]; intros l.
  - destruct l; cbn; intros H; by apply elem_of_nil in H.
  - destruct l as [|x l]; [cbn; intros H; by apply elem_of_nil in H|].
    cbn [chunks]. intros H. apply elem_of_cons in H as [-> | H].
    + exists 0. cbn. split; [done|lia].
    + apply IH in H as (k & -> & Hk). exists (S k).
      rewrite drop_drop. rewrite length_drop in Hk.
      split; [done|]. change (S k * n) with (n + k * n). lia.
Qed.

Lemma elem_of_select {A} (pos : list nat) (l : list A) x : x ∈ select pos l -> x ∈ l.
Proof.
  unfold select. intros H. apply list_elem_of_omap in H as (i & _ & Hi).
  by eapply list_elem_of_lookup_2.
Qed.

(** ** Pools *)

Lemma cb_Pool_Ok X LABEL pl :
  cb_Pool X LABEL = Ok pl ->
  exists f, getcols X FEATURES = Ok f /\ getcol X LABEL = Ok (pool_y pl)
            /\ pool_X pl = rows (n_rows X) f.
Proof.
  unfold cb_Pool.
  destruct (getcols X FEATURES) as [f|e] eqn:Ef; [|discriminate]. cbn -[getcol].
  destruct (getcol X LABEL) as [y|e] eqn:Ey; [|discriminate]. cbn.
  intros [= <-]. by exists f.
Qed.

(** X7.  The CatBoost pools.  Building a pool reads the feature columns
    and the label column of the table and succeeds exactly when the table
    has them; the pool then has one row per row of the table, each with
    one entry per feature, in the order of [FEATURES], and its labels are
    the label column. *)
Theorem cb_Pool_rows_and_labels X LABEL :
  (is_Ok (cb_Pool X LABEL) <-> Forall (fun c => c ∈ column_names X) (FEATURES ++ [LABEL]))
  /\ (forall pl, cb_Pool X LABEL = Ok pl ->
        length (pool_X pl) = n_rows X
        /\ Forall (fun r => length r = length FEATURES) (pool_X pl)
        /\ getcol X LABEL = Ok (pool_y pl)
        /\ forall i j c col x,
             FEATURES !! j = Some c -> getcol X c = Ok col -> col !! i = Some x ->
             i < n_rows X ->
             exists row, pool_X pl !! i = Some row /\ row !! j = Some x).
Proof.
  split.
  - rewrite Forall_app, Forall_singleton, <- getcol_Ok_iff.
    assert (Forall (fun c => c ∈ column_names X) FEATURES <-> is_Ok (getcols X FEATURES))
      as ->.
    { rewrite getcols_Ok_iff. apply Forall_iff. intros c. symmetry. apply getcol_Ok_iff. }
    unfold cb_Pool. destruct (getcols X FEATURES) as [f|e]; cbn -[getcol].
    + destruct (getcol X LABEL) as [y|e]; cbn.
      * split; [intros _; split; by eexists|by eexists].
      * split; [by intros [? ?]|by intros [_ [? ?]]].
    + split; [by intros [? ?]|by intros [[? ?] _]].
  - intros pl Hpl. apply cb_Pool_Ok in Hpl as (f & Ef & Ey & ->).
    split; [apply length_rows|]. split; [|split; [done|]].
    + rewrite <- (getcols_names _ _ _ Ef), length_map. apply Forall_rows_length.
    + intros i j c col x Hj Hc Hx Hi. by eapply rows_cell.
Qed.

Example cb_Pool_toy :
  cb_Pool toy_frame "MedHouseVal" = Ok toy_pool
  /\ length (pool_X toy_pool) = 5 /\ pool_y toy_pool = target toy_bunch.
Proof. vm_compute. repeat split; reflexivity. Qed.

Example cb_Pool_without_label : cb_Pool toy_frame "MedInc2" = Raise (KeyError "MedInc2").
Proof. vm_compute. reflexivity. Qed.

(** ** Runs of the tree models *)

Lemma mean_squared_error_Ok lib y p squared :
  length y = length p -> 0 < length y -> is_Ok (mean_squared_error lib y p squared).
Proof.
  intros H1 H2. unfold mean_squared_error. rewrite decide_True; [by eexists|]. lia.
Qed.

Lemma getcols_names_Ok df cs :
  Forall (fun c => c ∈ column_names df) cs -> is_Ok (getcols df cs).
Proof.
  intros H. apply getcols_Ok_iff. eapply Forall_impl; [exact H|].
  intros c Hc. by apply getcol_Ok_iff.
Qed.

Lemma rf_pipeline_result lib X_train test_data LABEL X y :
  wf_frame test_data -> 0 < n_rows test_data ->
  getcols X_train FEATURES = Ok X -> getcol X_train LABEL = Ok y ->
  Forall (fun c => c ∈ column_names test_data) (FEATURES ++ [LABEL]) ->
  result_of (rf_pipeline lib X_train test_data LABEL)
  = match tree_fit lib (RandomForestRegressor 100 20) (rows (n_rows X_train) X) y None
    with
    | Ok _ => Ok tt
    | Raise e => Raise e
    end.
Proof.
  intros Hwf Hn HX Hy Hte. apply Forall_app in Hte as [Hte1 Hte2].
  apply Forall_singleton, getcol_Ok_iff in Hte2 as [yt Hyt].
  apply getcols_names_Ok in Hte1 as [Xt HXt].
  unfold rf_pipeline. rewrite HX. cbn -[getcols getcol]. rewrite Hy. cbn -[getcols getcol].
  destruct (tree_fit lib _ _ y None) as [w|e]; [|done]. cbn -[getcols getcol].
  rewrite HXt. cbn -[getcols getcol]. rewrite Hyt. cbn -[getcols getcol].
  destruct (mean_squared_error_Ok lib yt
              (map (tree_predict lib (RandomForestRegressor 100 20) w)
                 (rows (n_rows test_data) Xt)) false) as [v ->]; [| |done].
  - rewrite length_map, length_rows. by eapply getcol_wf.
  - by rewrite (getcol_wf _ _ _ Hwf Hyt).
Qed.

Lemma catboost_pipeline_result lib test_data LABEL ptrain pval ptest :
  wf_frame test_data -> 0 < n_rows test_data ->
  cb_Pool test_data LABEL = Ok ptest ->
  result_of (catboost_pipeline lib ptrain pval ptest test_data LABEL)
  = match tree_fit lib CatBoostRegressor (pool_X ptrain) (pool_y ptrain)
            (Some (pool_X pval, pool_y pval, 50%Z))
    with
    | Ok _ => Ok tt
    | Raise e => Raise e
    end.
Proof.
  intros Hwf Hn Hte. apply cb_Pool_Ok in Hte as (f & _ & Hy & Hrows).
  unfold catboost_pipeline.
  destruct (tree_fit lib _ _ _ _) as [w|e]; [|done]. cbn -[getcol].
  rewrite Hy. cbn -[getcol].
  destruct (mean_squared_error_Ok lib (pool_y ptest)
              (map (tree_predict lib CatBoostRegressor w) (pool_X ptest)) false)
    as [v ->]; [| |done].
  - rewrite length_map, Hrows, length_rows. by eapply getcol_wf.
  - by rewrite (getcol_wf _ _ _ Hwf Hy).
Qed.

(** X8.  The [rf_baseline] run fails only with the fit.  On a train table
    and a well-formed, non-empty test table that have the feature and label
    columns, started with no run in progress, the run returns when the fit
    returns and raises the error of the fit when the fit raises: reading
    the columns and computing the metric do not fail (the forest's
    prediction is a function of the fitted forest and the row). *)
Theorem rf_baseline_run_fails_only_with_the_fit lib X_train test_data LABEL s :
  active s = None ->
  wf_frame test_data -> 0 < n_rows test_data ->
  Forall (fun c => c ∈ column_names X_train) (FEATURES ++ [LABEL]) ->
  Forall (fun c => c ∈ column_names test_data) (FEATURES ++ [LABEL]) ->
  exists X y,
    getcols X_train FEATURES = Ok X /\ getcol X_train LABEL = Ok y
    /\ (rf_baseline_run lib X_train test_data LABEL s).2
       = match tree_fit lib (RandomForestRegressor 100 20) (rows (n_rows X_train) X) y None
         with
         | Ok _ => Ok tt
         | Raise e => Raise e
         end.
Proof.
  intros Hact Hwf Hn Htr Hte.
  apply Forall_app in Htr as [Htr1 Htr2].
  apply Forall_singleton, getcol_Ok_iff in Htr2 as [y Hy].
  apply getcols_names_Ok in Htr1 as [X HX].
  exists X, y. split; [done|]. split; [done|].
  rewrite rf_baseline_run_eq by done. cbn [snd]. by apply rf_pipeline_result.
Qed.

Lemma rf_baseline_run_fails_only_with_the_fit_witness :
  exists X y,
    getcols toy_frame FEATURES = Ok X /\ getcol toy_frame "MedHouseVal" = Ok y
    /\ (rf_baseline_run failing_lib toy_frame toy_frame "MedHouseVal" empty_store).2
       = match tree_fit failing_lib (RandomForestRegressor 100 20)
                 (rows (n_rows toy_frame) X) y None
         with
         | Ok _ => Ok tt
         | Raise e => Raise e
         end.
Proof.
  apply (rf_baseline_run_fails_only_with_the_fit failing_lib toy_frame toy_frame
           "MedHouseVal" empty_store).
  - reflexivity.
  - apply (bool_decide_unpack _). vm_compute. reflexivity.
  - vm_compute. lia.
  - apply (bool_decide_unpack _). vm_compute. reflexivity.
  - apply (bool_decide_unpack _). vm_compute. reflexivity.
Defined.

(** X9.  The [catboost] run fails only with the fit.  With the test pool
    built from the test table as the notebook builds it, the test table
    well formed and not empty, and no run in progress, the run returns when
    the fit returns and raises the error of the fit otherwise: the
    predictions on the test pool are as many as the test labels. *)
Theorem catboost_run_fails_only_with_the_fit lib test_data LABEL s ptrain pval ptest :
  active s = None ->
  wf_frame test_data -> 0 < n_rows test_data ->
  cb_Pool test_data LABEL = Ok ptest ->
  (catboost_run lib ptrain pval ptest test_data LABEL s).2
  = match tree_fit lib CatBoostRegressor (pool_X ptrain) (pool_y ptrain)
            (Some (pool_X pval, pool_y pval, 50%Z))
    with
    | Ok _ => Ok tt
    | Raise e => Raise e
    end.
Proof.
  intros Hact Hwf Hn Hte.
  rewrite catboost_run_eq by done. cbn [snd]. by eapply catboost_pipeline_result.
Qed.

Lemma catboost_run_fails_only_with_the_fit_witness :
  (catboost_run toy_lib toy_pool toy_pool toy_pool toy_frame "MedHouseVal" empty_store).2
  = match tree_fit toy_lib CatBoostRegressor (pool_X toy_pool) (pool_y toy_pool)
            (Some (pool_X toy_pool, pool_y toy_pool, 50%Z))
    with
    | Ok _ => Ok tt
    | Raise e => Raise e
    end.
Proof.
  apply (catboost_run_fails_only_with_the_fit toy_lib toy_frame "MedHouseVal"
           empty_store toy_pool toy_pool toy_pool).
  - reflexivity.
  - apply (bool_decide_unpack _). vm_compute. reflexivity.
  - vm_compute. lia.
  - vm_compute. reflexivity.
Defined.

(** ** From the prepared partitions to the baseline runs *)

Lemma prepare_Ok lib perm1 perm2 df tr va te :
  prepare lib perm1 perm2 df = Ok (tr, va, te) ->
  exists train_data test0 Xt Xv,
    split_cell perm1 df = Ok (train_data, test0)
    /\ train_test_split perm2 train_data (2 # 10) = Ok (Xt, Xv)
    /\ (scale_partitions lib Xt Xv test0 None).2 = Ok (tr, va, te).
Proof.
  unfold prepare.
  destruct (split_cell perm1 df) as [[train_data test0]|e] eqn:E1; [|discriminate].
  cbn [mbind Result_bind]. unfold scaling_cell.
  destruct (train_test_split perm2 train_data (2 # 10)) as [[Xt Xv]|e] eqn:E2;
    [|discriminate].
  intros H. by exists train_data, test0, Xt, Xv.
Qed.

Lemma train_test_split_names perm df test_size tr te :
  train_test_split perm df test_size = Ok (tr, te) ->
  column_names tr = column_names df /\ column_names te = column_names df.
Proof.
  unfold train_test_split. case_decide; [discriminate|].
  intros [= <- <-]. split; apply take_rows_names.
Qed.

Lemma cb_Pool_is_Ok X LABEL :
  Forall (fun c => c ∈ column_names X) (FEATURES ++ [LABEL]) -> is_Ok (cb_Pool X LABEL).
Proof.
  intros H. apply Forall_app in H as [H1 H2].
  apply Forall_singleton, getcol_Ok_iff in H2 as [y Hy].
  apply getcols_names_Ok in H1 as [f Hf].
  unfold cb_Pool. rewrite Hf. cbn -[getcol]. rewrite Hy. by eexists.
Qed.

(** X10.  The baseline cells run on the prepared partitions.  Take a
    well-formed table with the feature and label columns, an order drawn
    for the first split that is a permutation of the row positions, and a
    scaler whose transform keeps the shape of its input.  When the Dataset
    Preparer returns, the three CatBoost pools are built, and the
    [rf_baseline] and [catboost] runs on the partitions, started with no run
    in progress, fail only with their fits: each returns when its fit
    returns and raises the fit's error otherwise. *)
Theorem baseline_runs_on_prepared_partitions lib perm1 perm2 df LABEL
    X_train X_val test_data s :
  (forall st X, map length (scaler_transform lib st X) = map length X) ->
  wf_frame df ->
  Permutation perm1 (seq 0 (n_rows df)) ->
  Forall (fun c => c ∈ column_names df) (FEATURES ++ [LABEL]) ->
  prepare lib perm1 perm2 df = Ok (X_train, X_val, test_data) ->
  active s = None ->
  (exists X y,
      getcols X_train FEATURES = Ok X /\ getcol X_train LABEL = Ok y
      /\ (rf_baseline_run lib X_train test_data LABEL s).2
         = match tree_fit lib (RandomForestRegressor 100 20)
                   (rows (n_rows X_train) X) y None
           with
           | Ok _ => Ok tt
           | Raise e => Raise e
           end)
  /\ (exists ptrain pval ptest,
        cb_Pool X_train LABEL = Ok ptrain /\ cb_Pool X_val LABEL = Ok pval
        /\ cb_Pool test_data LABEL = Ok ptest
        /\ (catboost_run lib ptrain pval ptest test_data LABEL s).2
           = match tree_fit lib CatBoostRegressor (pool_X ptrain) (pool_y ptrain)
                     (Some (pool_X pval, pool_y pval, 50%Z))
             with
             | Ok _ => Ok tt
             | Raise e => Raise e
             end).
Proof.
  intros Hshape Hwf Hperm Hcols Hprep Hact.
  pose proof Hprep as (train_data & test0 & Xt & Xv & E1 & E2 & Hsc)%prepare_Ok.
  (* well-formed *)
  assert (wf_frame X_train /\ wf_frame X_val /\ wf_frame test_data) as (Hw1 & Hw2 & Hw3).
  { pose proof Hsc as (a & b & c & Ha & Hb & Hc & -> & -> & ->)%scale_partitions_result.
    destruct (train_test_split_wf _ _ _ _ _ Hwf E1) as [Hwa Hwb].
    destruct (train_test_split_wf _ _ _ _ _ Hwa E2) as [Hwc Hwd].
    split; [|split]; (apply loc_set_wf; [done|]);
      (eapply Forall_map_length; [apply Hshape|]);
      apply Forall_values_length; by eapply getcols_wf. }
  (* the columns *)
  destruct (train_test_split_names _ _ _ _ _ E1) as [Hn1 Hn2].
  destruct (train_test_split_names _ _ _ _ _ E2) as [Hn3 Hn4].
  pose proof Hsc as (a & b & c & Ha & Hb & Hc & Htr & Hva & Hte)%scale_partitions_result.
  assert (same_outside NUMERIC_FEATURES Xt X_train) as (_ & Hna & _).
  { rewrite Htr. apply loc_set_same_outside, getcols_in_names. by eexists. }
  assert (same_outside NUMERIC_FEATURES Xv X_val) as (_ & Hnb & _).
  { rewrite Hva. apply loc_set_same_outside, getcols_in_names. by eexists. }
  assert (same_outside NUMERIC_FEATURES test0 test_data) as (Hic & Hnc & _).
  { rewrite Hte. apply loc_set_same_outside, getcols_in_names. by eexists. }
  assert (Forall (fun c => c ∈ column_names X_train) (FEATURES ++ [LABEL])) as Hc1
    by (by rewrite Hna, Hn3, Hn1).
  assert (Forall (fun c => c ∈ column_names X_val) (FEATURES ++ [LABEL])) as Hc2
    by (by rewrite Hnb, Hn4, Hn1).
  assert (Forall (fun c => c ∈ column_names test_data) (FEATURES ++ [LABEL])) as Hc3
    by (by rewrite Hnc, Hn2).
  (* the test partition is not empty *)
  assert (0 < n_rows test_data) as Hpos.
  { unfold n_rows. rewrite Hic. fold (n_rows test0).
    pose proof E1 as E1'. unfold split_cell in E1'.
    apply train_test_split_partition in E1' as [_ Hte0]; [|done].
    rewrite n_test_fifth in Hte0. rewrite Hte0.
    unfold split_cell, train_test_split in E1. rewrite n_test_fifth in E1.
    case_decide as Hn; [discriminate|].
    assert (1 <= n_rows df) as H1 by lia.
    apply (Nat.div_le_lower_bound (n_rows df + 4) 5 1); lia. }
  split.
  - pose proof Hc1 as Hc1'. apply Forall_app in Hc1' as [Hc1a Hc1b].
    apply Forall_singleton, getcol_Ok_iff in Hc1b as [y Hy].
    apply getcols_names_Ok in Hc1a as [X HX].
    exists X, y. split; [done|]. split; [done|].
    rewrite rf_baseline_run_eq by done. cbn [snd]. by apply rf_pipeline_result.
  - destruct (cb_Pool_is_Ok X_train LABEL Hc1) as [ptrain Hp1].
    destruct (cb_Pool_is_Ok X_val LABEL Hc2) as [pval Hp2].
    destruct (cb_Pool_is_Ok test_data LABEL Hc3) as [ptest Hp3].
    exists ptrain, pval, ptest. split; [done|]. split; [done|]. split; [done|].
    rewrite catboost_run_eq by done. cbn [snd]. by eapply catboost_pipeline_result.
Qed.

Lemma baseline_runs_on_prepared_partitions_witness :
  exists X_train X_val test_data,
    prepare toy_lib (rev (seq 0 5)) (rev (seq 0 4)) toy_frame
    = Ok (X_train, X_val, test_data)
    /\ (exists X y,
          getcols X_train FEATURES = Ok X /\ getcol X_train "MedHouseVal" = Ok y
          /\ (rf_baseline_run toy_lib X_train test_data "MedHouseVal" empty_store).2
             = match tree_fit toy_lib (RandomForestRegressor 100 20)
                       (rows (n_rows X_train) X) y None
               with
               | Ok _ => Ok tt
               | Raise e => Raise e
               end)
    /\ (exists ptrain pval ptest,
          cb_Pool X_train "MedHouseVal" = Ok ptrain
          /\ cb_Pool X_val "MedHouseVal" = Ok pval
          /\ cb_Pool test_data "MedHouseVal" = Ok ptest
          /\ (catboost_run toy_lib ptrain pval ptest test_data "MedHouseVal"
                empty_store).2
             = match tree_fit toy_lib CatBoostRegressor (pool_X ptrain) (pool_y ptrain)
                       (Some (pool_X pval, pool_y pval, 50%Z))
               with
               | Ok _ => Ok tt
               | Raise e => Raise e
               end).
Proof.
  eexists _, _, _. split; [vm_compute; reflexivity|].
  apply (baseline_runs_on_prepared_partitions toy_lib (rev (seq 0 5)) (rev (seq 0 4))
           toy_frame "MedHouseVal" _ _ _ empty_store).
  - intros st X. reflexivity.
  - apply (bool_decide_unpack _). vm_compute. reflexivity.
  - symmetry. apply (Permutation_rev (seq 0 5)).
  - apply (bool_decide_unpack _). vm_compute. reflexivity.
  - vm_compute. reflexivity.
  - reflexivity.
Defined.

(** ** Data sets and the order of their elements *)

Lemma iterate_in_order lib seed d :
  ds_shuffle d = None -> ds_shuffle_batches d = None -> 0 < ds_batch d ->
  concat (iterate lib seed d) = ds_elems d.
Proof.
  intros H1 H2 Hb. unfold iterate. rewrite H1, H2. by apply concat_chunks.
Qed.

Lemma from_tensor_slices_labelled X y es :
  from_tensor_slices X (Some y) = Ok es ->
  length X = length y /\ map fst es = X /\ map snd es = map Some y.
Proof.
  cbn. case_decide as Hlen; [|discriminate]. intros [= <-]. split; [done|].
  revert y Hlen. induction X as [|x X IH]; intros [|l y] Hlen; try done.
  cbn in *. destruct (IH y) as [IH1 IH2]; [lia|]. by rewrite IH1, IH2.
Qed.

Lemma set_assoc_new {A} k (v : A) (l : list (string * A)) :
  k ∉ map fst l -> set_assoc k v l = l ++ [(k, v)].
Proof.
  induction l as [|[k' v'] l IH]; cbn; [done|]. intros Hk.
  rewrite decide_False.
  - f_equal. apply IH. intros H. apply Hk. by apply list_elem_of_further.
  - intros ->. apply Hk. apply list_elem_of_here.
Qed.

Lemma foldl_set_assoc_NoDup (acc cols : list (string * list Q)) :
  NoDup (map fst (acc ++ cols)) ->
  foldl (fun d cv => set_assoc cv.1 cv.2 d) acc cols = acc ++ cols.
Proof.
  revert acc. induction cols as [|[k v] cols IH]; intros acc Hnd; cbn.
  - by rewrite app_nil_r.
  - rewrite set_assoc_new.
    + rewrite IH; [by rewrite <- app_assoc|]. by rewrite <- app_assoc.
    + rewrite map_app in Hnd. apply NoDup_app in Hnd as (_ & Hnd & _).
      intros H. apply (Hnd k H). cbn. apply list_elem_of_here.
Qed.

(** A table whose columns have distinct names makes a dict with one key
    per column, in the order of the columns. *)
Lemma dict_of_columns_NoDup cols :
  NoDup (map fst cols) -> dict_of_columns cols = cols.
Proof. intros H. unfold dict_of_columns. by rewrite foldl_set_assoc_NoDup. Qed.

Lemma NoDup_FEATURES : NoDup FEATURES.
Proof. apply (bool_decide_unpack _). vm_compute. reflexivity. Qed.

Lemma dict_of_columns_getcols df cs f :
  NoDup cs -> getcols df cs = Ok f -> dict_of_columns f = f.
Proof.
  intros Hnd Hf. apply dict_of_columns_NoDup. by rewrite (getcols_names _ _ _ Hf).
Qed.

Lemma names_filter_ne (t : string) (cols : list (string * list Q)) :
  map fst (filter (fun cv => cv.1 <> t) cols) = filter (fun c => c <> t) (map fst cols).
Proof.
  induction cols as [|[c v] cols IH]; [done|].
  rewrite filter_cons. cbn [map fst]. rewrite filter_cons.
  destruct (decide (c <> t)); cbn; by rewrite IH.
Qed.

Lemma truthy_Some t : t <> "" -> truthy (Some t) = true.
Proof.
  intros H. cbn. destruct (String.eqb_spec t ""); [done|reflexivity].
Qed.

Lemma ds_shuffled_pos n : 0 < n -> ds_shuffled n = Ok (Some n).
Proof. intros H. unfold ds_shuffled. rewrite decide_False by lia. done. Qed.

Lemma shuffle_step (shuffle : bool) n :
  (shuffle = true -> 0 < n) ->
  (if shuffle then ds_shuffled n else Ok None) = Ok (if shuffle then Some n else None).
Proof. destruct shuffle; [|done]. intros H. by rewrite ds_shuffled_pos by auto. Qed.

(** [df_to_dataset] without a target, on a table with columns of distinct
    names. *)
Lemma df_to_dataset_unlabelled df target shuffle batch_size :
  truthy target = false -> NoDup (column_names df) -> df_columns df <> [] ->
  0 < batch_size -> (shuffle = true -> 0 < n_rows df) ->
  df_to_dataset df target shuffle batch_size
  = Ok {| ds_keys := Some (column_names df);
          ds_elems := map (fun x => (x, None)) (rows (n_rows df) (df_columns df));
          ds_shuffle := (if shuffle then Some (n_rows df) else None);
          ds_batch := batch_size; ds_shuffle_batches := None |}.
Proof.
  intros Ht Hnd Hne Hb Hsh. unfold df_to_dataset. rewrite Ht.
  rewrite (dict_of_columns_NoDup (df_columns df)) by done.
  unfold from_dict_slices.
  destruct (df_columns df) as [|c cols] eqn:E; [done|]. rewrite <- E.
  cbn [from_tensor_slices mbind Result_bind mret Result_ret].
  rewrite shuffle_step by done. cbn [mbind Result_bind mret Result_ret].
  rewrite decide_False by lia. reflexivity.
Qed.

(** [df_to_dataset] with a target, on a table with columns of distinct
    names. *)
Lemma df_to_dataset_labelled df t shuffle batch_size labels es :
  t <> "" -> NoDup (column_names df) -> getcol df t = Ok labels ->
  from_tensor_slices (rows (n_rows df) (filter (fun cv => cv.1 <> t) (df_columns df)))
    (Some labels) = Ok es ->
  0 < batch_size -> (shuffle = true -> 0 < n_rows df) ->
  df_to_dataset df (Some t) shuffle batch_size
  = Ok {| ds_keys := Some (filter (fun c => c <> t) (column_names df));
          ds_elems := es;
          ds_shuffle := (if shuffle then Some (n_rows df) else None);
          ds_batch := batch_size; ds_shuffle_batches := None |}.
Proof.
  intros Ht Hnd Hlab Hes Hb Hsh. unfold df_to_dataset, df_pop.
  rewrite truthy_Some by done. change (default "" (Some t)) with t. rewrite Hlab.
  cbn [mbind Result_bind mret Result_ret df_columns df_index n_rows].
  fold (n_rows df).
  rewrite dict_of_columns_NoDup.
  2:{ rewrite names_filter_ne. by apply NoDup_filter. }
  change (n_rows {| df_index := df_index df;
                    df_columns := filter (fun cv => cv.1 <> t) (df_columns df) |})
    with (n_rows df).
  rewrite Hes. cbn [mbind Result_bind mret Result_ret].
  rewrite shuffle_step by done. cbn [mbind Result_bind mret Result_ret].
  rewrite decide_False by lia. by rewrite names_filter_ne.
Qed.

Lemma df_to_dataset_labelled_empty df t batch_size labels es :
  t <> "" -> NoDup (column_names df) -> getcol df t = Ok labels ->
  from_tensor_slices (rows (n_rows df) (filter (fun cv => cv.1 <> t) (df_columns df)))
    (Some labels) = Ok es ->
  n_rows df = 0 ->
  df_to_dataset df (Some t) true batch_size
  = Raise (InvalidArgumentError "buffer_size must be greater than zero").
Proof.
  intros Ht Hnd Hlab Hes Hn. unfold df_to_dataset, df_pop.
  rewrite truthy_Some by done. change (default "" (Some t)) with t. rewrite Hlab.
  cbn [mbind Result_bind mret Result_ret df_columns df_index n_rows].
  fold (n_rows df).
  rewrite dict_of_columns_NoDup.
  2:{ rewrite names_filter_ne. by apply NoDup_filter. }
  change (n_rows {| df_index := df_index df;
                    df_columns := filter (fun cv => cv.1 <> t) (df_columns df) |})
    with (n_rows df).
  rewrite Hes. cbn [mbind Result_bind mret Result_ret].
  unfold ds_shuffled. by rewrite decide_True.
Qed.

(** X11.  The test predictions follow the rows of the test table.  On both
    test data sets of the notebook (the MLP's, batched by 512, and the
    transformer's, built by [df_to_dataset] with [shuffle=False]) a model
    predicts one output per row of the test table, in the order of the
    rows, whatever the state of the random generator: the outputs line up
    with the labels [test_data[LABEL]] they are compared with. *)
Theorem test_predictions_follow_row_order lib fm test_data seed f :
  getcols test_data FEATURES = Ok f ->
  (exists ds, mlp_unlabelled_ds test_data = Ok ds
     /\ predict lib fm ds seed = map (forward lib fm None) (rows (n_rows test_data) f))
  /\ (exists ds, test_dataset_of test_data = Ok ds
        /\ predict lib fm ds seed
           = map (forward lib fm (Some FEATURES)) (rows (n_rows test_data) f)).
Proof.
  intros Hf. split.
  - unfold mlp_unlabelled_ds. rewrite Hf. cbn -[rows]. eexists. split; [reflexivity|].
    unfold predict. rewrite iterate_in_order by (cbn; done || lia).
    cbn -[rows]. rewrite map_map. done.
  - unfold test_dataset_of. rewrite Hf. cbn [mbind Result_bind].
    assert (f <> []) as Hne.
    { intros ->. by pose proof (getcols_names _ _ _ Hf). }
    rewrite df_to_dataset_unlabelled; cbn [df_columns]; try done; try lia.
    2:{ unfold column_names. cbn [df_columns].
        rewrite (getcols_names _ _ _ Hf). apply NoDup_FEATURES. }
    eexists. split; [reflexivity|].
    unfold predict. rewrite iterate_in_order by (cbn; done || lia).
    cbn -[rows]. rewrite map_map. cbn -[rows]. unfold n_rows, column_names. cbn -[rows].
    by rewrite (getcols_names _ _ _ Hf).
Qed.

Lemma test_predictions_follow_row_order_witness :
  exists f, getcols toy_frame FEATURES = Ok f
    /\ (exists ds, mlp_unlabelled_ds toy_frame = Ok ds
          /\ predict toy_lib (CatBoostRegressor, []) ds 1
             = map (forward toy_lib (CatBoostRegressor, []) None) (rows (n_rows toy_frame) f))
    /\ (exists ds, test_dataset_of toy_frame = Ok ds
          /\ predict toy_lib (CatBoostRegressor, []) ds 1
             = map (forward toy_lib (CatBoostRegressor, []) (Some FEATURES))
                 (rows (n_rows toy_frame) f)).
Proof.
  eexists. split; [vm_compute; reflexivity|].
  apply (test_predictions_follow_row_order toy_lib (CatBoostRegressor, []) toy_frame 1).
  vm_compute. reflexivity.
Defined.

Lemma map_take_drop {A B} (f : A -> B) n k (l : list A) :
  map f (take n (drop k l)) = take n (drop k (map f l)).
Proof.
  change (f <$> take n (drop k l) = take n (drop k (f <$> l))).
  by rewrite fmap_take, fmap_drop.
Qed.

(** X12.  The MLP's training batches keep their rows.  The training data
    set is batched before it is shuffled, so the shuffle reorders whole
    batches: every batch an epoch produces is a block of at most 512
    consecutive rows of the table, each row's features paired with that
    row's label, whatever the generator draws. *)
Theorem mlp_training_batches_keep_their_rows lib X LABEL ds seed b :
  mlp_labelled_ds X LABEL = Ok ds ->
  b ∈ iterate lib seed ds ->
  exists f y k,
    getcols X FEATURES = Ok f /\ getcol X LABEL = Ok y
    /\ k * 512 < n_rows X
    /\ map fst b = take 512 (drop (k * 512) (rows (n_rows X) f))
    /\ map snd b = map Some (take 512 (drop (k * 512) y)).
Proof.
  unfold mlp_labelled_ds.
  destruct (getcols X FEATURES) as [f|e] eqn:Ef; [|discriminate].
  cbn -[getcol rows from_tensor_slices].
  destruct (getcol X LABEL) as [y|e] eqn:Ey; [|discriminate].
  cbn -[rows from_tensor_slices].
  destruct (from_tensor_slices (rows (n_rows X) f) (Some y)) as [es|e] eqn:Ees;
    [|discriminate].
  cbn -[rows]. intros [= <-]. unfold iterate. cbn [ds_shuffle ds_shuffle_batches ds_elems ds_batch].
  intros Hb. apply elem_of_select in Hb. apply elem_of_chunks in Hb as (k & -> & Hk).
  apply from_tensor_slices_labelled in Ees as (Hlen & Hfst & Hsnd).
  exists f, y, k. split; [done|]. split; [done|]. split.
  - rewrite <- (length_rows (n_rows X) f), <- Hfst, length_map. exact Hk.
  - rewrite !map_take_drop, Hfst, Hsnd. done.
Qed.

Lemma mlp_training_batches_keep_their_rows_witness :
  exists f y k,
    getcols toy_frame FEATURES = Ok f /\ getcol toy_frame "MedHouseVal" = Ok y
    /\ k * 512 < n_rows toy_frame
    /\ map fst (ds_elems (toy_dataset false))
       = take 512 (drop (k * 512) (rows (n_rows toy_frame) f))
    /\ map snd (ds_elems (toy_dataset false)) = map Some (take 512 (drop (k * 512) y)).
Proof.
  refine (mlp_training_batches_keep_their_rows toy_lib toy_frame "MedHouseVal"
            {| ds_keys := None; ds_elems := ds_elems (toy_dataset false);
               ds_shuffle := None; ds_batch := 512;
               ds_shuffle_batches := Some (512 * 4) |} 0
            (ds_elems (toy_dataset false)) _ _).
  - vm_compute. reflexivity.
  - vm_compute. apply list_elem_of_here.
Defined.

(** ** [df_to_dataset] *)

(** X13.  [df_to_dataset] with a target.  When the table lacks the target
    column the call raises its [KeyError].  On a well-formed table with
    distinct column names that has the target column: asked to shuffle a
    table without rows, the call raises the [InvalidArgumentError] of a
    shuffle buffer of size zero; otherwise, with a positive batch size, it
    returns a data set whose labels are the target column, row by row, and
    whose features are the other columns, the target not being one of
    them; it is batched by [batch_size], and shuffled over the whole table
    exactly when [shuffle] is set; the [j]-th feature of the [i]-th element
    is the value of the [j]-th remaining column at row [i]. *)
Theorem df_to_dataset_with_target df t shuffle batch_size :
  t <> "" ->
  (t ∉ column_names df -> df_to_dataset df (Some t) shuffle batch_size = Raise (KeyError t))
  /\ (forall labels,
        wf_frame df -> NoDup (column_names df) -> getcol df t = Ok labels ->
        shuffle = true -> n_rows df = 0 ->
        exists msg,
          df_to_dataset df (Some t) shuffle batch_size = Raise (InvalidArgumentError msg))
  /\ (forall labels,
        wf_frame df -> NoDup (column_names df) -> getcol df t = Ok labels ->
        0 < batch_size -> (shuffle = true -> 0 < n_rows df) ->
        exists ds keys,
          df_to_dataset df (Some t) shuffle batch_size = Ok ds
          /\ ds_keys ds = Some keys
          /\ keys = filter (fun c => c <> t) (column_names df)
          /\ map snd (ds_elems ds) = map Some labels
          /\ ds_batch ds = batch_size
          /\ ds_shuffle ds = (if shuffle then Some (n_rows df) else None)
          /\ ds_shuffle_batches ds = None
          /\ (forall i j c col x e,
                keys !! j = Some c -> getcol df c = Ok col -> col !! i = Some x ->
                ds_elems ds !! i = Some e -> e.1 !! j = Some x)).
Proof.
  intros Ht.
  assert (forall labels, wf_frame df -> getcol df t = Ok labels ->
            exists es,
              from_tensor_slices
                (rows (n_rows df) (filter (fun cv => cv.1 <> t) (df_columns df)))
                (Some labels) = Ok es) as Hslices.
  { intros labels Hwf Hlab.
    destruct (from_tensor_slices _ (Some labels)) as [es|e] eqn:Ees; [by exists es|].
    cbn in Ees. rewrite decide_True in Ees; [discriminate|].
    rewrite length_rows. symmetry. by eapply getcol_wf. }
  split; [|split].
  - intros Hno. unfold df_to_dataset, df_pop. rewrite truthy_Some by done.
    change (default "" (Some t)) with t.
    unfold getcol. apply assoc_None_names in Hno. by rewrite Hno.
  - intros labels Hwf Hnd Hlab -> Hn.
    destruct (Hslices labels Hwf Hlab) as [es Hes].
    rewrite (df_to_dataset_labelled_empty _ _ _ _ _ Ht Hnd Hlab Hes Hn). by eexists.
  - intros labels Hwf Hnd Hlab Hb Hsh.
    destruct (Hslices labels Hwf Hlab) as [es Hes].
    rewrite (df_to_dataset_labelled _ _ _ _ _ _ Ht Hnd Hlab Hes Hb Hsh).
    apply from_tensor_slices_labelled in Hes as (Hlen & Hfst & Hsnd).
    set (cols := filter (fun cv => cv.1 <> t) (df_columns df)) in *.
    eexists _, _. split; [reflexivity|]. cbn.
    split; [reflexivity|]. split; [reflexivity|]. split; [exact Hsnd|].
    split; [done|]. split; [done|]. split; [done|].
    intros i j c col x e Hj Hc Hx He.
    assert (map fst es !! i = Some e.1) as Hrow.
    { change (map fst es) with (fst <$> es). by rewrite list_lookup_fmap, He. }
    rewrite Hfst in Hrow.
    assert (i < n_rows df) as Hi.
    { apply lookup_lt_Some in Hrow. by rewrite length_rows in Hrow. }
    rewrite rows_lookup in Hrow by done. injection Hrow as <-.
    unfold column_names in Hj. rewrite <- names_filter_ne in Hj. fold cols in Hj.
    change (map fst cols) with (fst <$> cols) in Hj.
    rewrite list_lookup_fmap in Hj.
    destruct (cols !! j) as [[c' v]|] eqn:Ecol; [|discriminate].
    cbn in Hj. injection Hj as ->.
    rewrite list_lookup_fmap, Ecol. cbn. f_equal.
    assert ((c, v) ∈ df_columns df) as Hin.
    { apply list_elem_of_lookup_2 in Ecol. unfold cols in Ecol.
      by apply list_elem_of_filter in Ecol as [_ ?]. }
    unfold getcol in Hc. rewrite (assoc_NoDup_elem c v _ Hnd Hin) in Hc.
    injection Hc as ->. by apply nth_lookup_Some.
Qed.

Lemma df_to_dataset_with_target_witness :
  exists labels ds keys,
    getcol toy_frame "MedHouseVal" = Ok labels
    /\ df_to_dataset toy_frame (Some "MedHouseVal") true 32 = Ok ds
    /\ ds_keys ds = Some keys
    /\ keys = filter (fun c => c <> "MedHouseVal") (column_names toy_frame)
    /\ map snd (ds_elems ds) = map Some labels
    /\ ds_batch ds = 32
    /\ ds_shuffle ds = Some (n_rows toy_frame)
    /\ ds_shuffle_batches ds = None
    /\ (forall i j c col x e,
          keys !! j = Some c -> getcol toy_frame c = Ok col -> col !! i = Some x ->
          ds_elems ds !! i = Some e -> e.1 !! j = Some x).
Proof.
  eexists.
  assert (getcol toy_frame "MedHouseVal" = Ok _) as Hy by (vm_compute; reflexivity).
  destruct (proj2 (proj2 (df_to_dataset_with_target toy_frame "MedHouseVal" true 32
                            ltac:(discriminate))) _
              ltac:(apply (bool_decide_unpack _); vm_compute; reflexivity)
              ltac:(apply (bool_decide_unpack _); vm_compute; reflexivity)
              Hy ltac:(lia) ltac:(intros _; vm_compute; lia))
    as (ds & keys & H).
  exists ds, keys. split; [exact Hy|]. exact H.
Defined.

(** X14.  [df_to_dataset] without a target.  With [target=None], and just
    the same with the empty string (Python tests [if target:]), no column
    is taken as the label.  On a table with distinct column names and with
    a positive batch size: a table without columns makes an empty dict,
    which [from_tensor_slices] refuses with a [ValueError]; asked to
    shuffle a table without rows, the call raises the
    [InvalidArgumentError] of a shuffle buffer of size zero; otherwise it
    returns a data set whose features are all the columns of the table, one
    element per row and none with a label; it is batched by [batch_size]
    and shuffled over the whole table exactly when [shuffle] is set. *)
Theorem df_to_dataset_without_target df shuffle batch_size :
  0 < batch_size -> NoDup (column_names df) ->
  (df_columns df = [] ->
   exists msg,
     df_to_dataset df None shuffle batch_size = Raise (ValueError msg)
     /\ df_to_dataset df (Some "") shuffle batch_size = Raise (ValueError msg))
  /\ (df_columns df <> [] -> shuffle = true -> n_rows df = 0 ->
      exists msg,
        df_to_dataset df None shuffle batch_size = Raise (InvalidArgumentError msg)
        /\ df_to_dataset df (Some "") shuffle batch_size = Raise (InvalidArgumentError msg))
  /\ (df_columns df <> [] -> (shuffle = true -> 0 < n_rows df) ->
      exists ds,
        df_to_dataset df None shuffle batch_size = Ok ds
        /\ df_to_dataset df (Some "") shuffle batch_size = Ok ds
        /\ ds_keys ds = Some (column_names df)
        /\ map fst (ds_elems ds) = rows (n_rows df) (df_columns df)
        /\ Forall (fun e => e.2 = None) (ds_elems ds)
        /\ ds_batch ds = batch_size
        /\ ds_shuffle ds = (if shuffle then Some (n_rows df) else None)
        /\ ds_shuffle_batches ds = None).
Proof.
  intros Hb Hnd. split; [|split].
  - intros Hcols. unfold df_to_dataset. cbn [truthy String.eqb negb].
    rewrite Hcols. cbn. by eexists.
  - intros Hcols -> Hn. unfold df_to_dataset. cbn [truthy String.eqb negb].
    rewrite (dict_of_columns_NoDup (df_columns df)) by done.
    unfold from_dict_slices.
    destruct (df_columns df) as [|c cols] eqn:E; [done|]. rewrite <- E.
    cbn [from_tensor_slices mbind Result_bind mret Result_ret].
    unfold ds_shuffled. rewrite decide_True by done. by eexists.
  - intros Hcols Hsh.
    rewrite !df_to_dataset_unlabelled by done.
    eexists. split; [reflexivity|]. split; [reflexivity|]. cbn -[rows].
    split; [done|]. split; [|split; [|done]].
    + rewrite map_map. cbn. apply map_id.
    + apply Forall_map. by apply Forall_forall.
Qed.

Lemma df_to_dataset_without_target_witness :
  exists ds,
    df_to_dataset toy_frame None true 32 = Ok ds
    /\ df_to_dataset toy_frame (Some "") true 32 = Ok ds
    /\ ds_keys ds = Some (column_names toy_frame)
    /\ map fst (ds_elems ds) = rows (n_rows toy_frame) (df_columns toy_frame)
    /\ Forall (fun e => e.2 = None) (ds_elems ds)
    /\ ds_batch ds = 32
    /\ ds_shuffle ds = Some (n_rows toy_frame)
    /\ ds_shuffle_batches ds = None.
Proof.
  apply (proj2 (proj2 (df_to_dataset_without_target toy_frame true 32 ltac:(lia)
                         ltac:(apply (bool_decide_unpack _); vm_compute; reflexivity)))).
  - discriminate.
  - intros _. vm_compute. lia.
Defined.

(** A table without rows cannot be shuffled, and a table without columns
    makes no data set. *)
Example df_to_dataset_on_empty_tables :
  df_to_dataset {| df_index := []; df_columns := [("MedInc", [])] |} None true 32
  = Raise (InvalidArgumentError "buffer_size must be greater than zero")
  /\ df_to_dataset {| df_index := [0; 1]; df_columns := [] |} None false 32
     = Raise (ValueError "element should not be empty").
Proof. split; reflexivity. Qed.

(** Two columns of one name make one key, with the values of the second. *)
Example df_to_dataset_on_repeated_names :
  df_to_dataset {| df_index := [0]; df_columns := [("a", [1%Q]); ("a", [2%Q])] |}
    None false 32
  = Ok {| ds_keys := Some ["a"]; ds_elems := [([2%Q], None)]; ds_shuffle := None;
          ds_batch := 32; ds_shuffle_batches := None |}.
Proof. reflexivity. Qed.

Lemma getcols_app df cs1 cs2 :
  getcols df (cs1 ++ cs2)
  = (a ← getcols df cs1; b ← getcols df cs2; mret (a ++ b)).
Proof.
  induction cs1 as [|c cs1 IH]; cbn [getcols app].
  - cbn. by destruct (getcols df cs2).
  - destruct (getcol df c) as [v|e]; [|done]. cbn. rewrite IH.
    destruct (getcols df cs1) as [a|e]; [|done]. cbn.
    by destruct (getcols df cs2).
Qed.

Lemma assoc_app_notin {A} c (l1 l2 : list (string * A)) :
  c ∉ map fst l1 -> assoc c (l1 ++ l2) = assoc c l2.
Proof.
  induction l1 as [|[k v] l1 IH]; [done|]. cbn. intros H.
  apply not_elem_of_cons in H as [Hne H]. rewrite decide_False by done. by apply IH.
Qed.

Lemma filter_names_notin (t : string) (l : list (string * list Q)) :
  t ∉ map fst l -> filter (fun cv => cv.1 <> t) l = l.
Proof.
  induction l as [|[k v] l IH]; [done|]. cbn [map fst]. intros H.
  apply not_elem_of_cons in H as [Hne H]. rewrite filter_cons. cbn [fst].
  rewrite decide_True by done. by rewrite IH.
Qed.

(** X15.  The transformer's labelled data sets.  For a label that is not
    one of the features and a well-formed table with distinct column
    names, [df_to_dataset(X[FEATURES + [LABEL]], LABEL, shuffle=...)], as
    the notebook builds its training and validation sets, raises the
    [InvalidArgumentError] of an empty shuffle buffer when asked to shuffle
    a table without rows, and otherwise returns a data set keyed by the
    features, in their order, whose elements are the rows of the feature
    columns, each with the label of its row; it is batched by 32 and
    shuffled over the whole table exactly when [shuffle] is set. *)
Theorem transformer_data_sets_pair_rows_with_labels X LABEL shuffle f y :
  LABEL ∉ FEATURES -> LABEL <> "" -> wf_frame X -> NoDup (column_names X) ->
  getcols X FEATURES = Ok f -> getcol X LABEL = Ok y ->
  (shuffle = true -> n_rows X = 0 ->
   exists msg, labelled_dataset_of X LABEL shuffle = Raise (InvalidArgumentError msg))
  /\ ((shuffle = true -> 0 < n_rows X) ->
      exists ds,
        labelled_dataset_of X LABEL shuffle = Ok ds
        /\ ds_keys ds = Some FEATURES
        /\ map fst (ds_elems ds) = rows (n_rows X) f
        /\ map snd (ds_elems ds) = map Some y
        /\ ds_batch ds = 32
        /\ ds_shuffle ds = (if shuffle then Some (n_rows X) else None)
        /\ ds_shuffle_batches ds = None).
Proof.
  intros Hnotin Hne Hwf _ Hf Hy.
  pose proof (getcols_names _ _ _ Hf) as Hnames.
  assert (NoDup (FEATURES ++ [LABEL])) as Hnd.
  { apply NoDup_app. split; [apply NoDup_FEATURES|]. split.
    - intros c Hc Hin. apply list_elem_of_singleton in Hin. by subst.
    - apply NoDup_singleton. }
  set (df := {| df_index := df_index X; df_columns := f ++ [(LABEL, y)] |}).
  assert (labelled_dataset_of X LABEL shuffle = df_to_dataset df (Some LABEL) shuffle 32)
    as ->.
  { unfold labelled_dataset_of. rewrite getcols_app, Hf.
    cbn [mbind Result_bind getcols]. rewrite Hy. reflexivity. }
  assert (column_names df = FEATURES ++ [LABEL]) as Hcols.
  { unfold column_names, df. cbn [df_columns]. by rewrite map_app, Hnames. }
  assert (getcol df LABEL = Ok y) as Hlab.
  { unfold getcol, df. cbn [df_columns].
    rewrite assoc_app_notin by (by rewrite Hnames). cbn [assoc].
    by rewrite decide_True. }
  assert (filter (fun cv => cv.1 <> LABEL) (df_columns df) = f) as Hfilter.
  { unfold df. cbn [df_columns].
    rewrite filter_app, filter_names_notin by (by rewrite Hnames).
    rewrite filter_cons. cbn [fst]. rewrite decide_False by (intros H; by apply H).
    by rewrite filter_nil, app_nil_r. }
  assert (exists es, from_tensor_slices (rows (n_rows X) f) (Some y) = Ok es) as [es Hes].
  { destruct (from_tensor_slices _ (Some y)) as [es|e] eqn:Ees; [by exists es|].
    cbn in Ees. rewrite decide_True in Ees; [discriminate|].
    rewrite length_rows. symmetry. by eapply getcol_wf. }
  split.
  - intros -> Hn.
    rewrite (df_to_dataset_labelled_empty df LABEL 32 y es); try done.
    + by eexists.
    + by rewrite Hcols.
    + by rewrite Hfilter.
  - intros Hsh.
    rewrite (df_to_dataset_labelled df LABEL shuffle 32 y es); try done; try lia.
    2:{ by rewrite Hcols. }
    2:{ by rewrite Hfilter. }
    assert (filter (fun c => c <> LABEL) (column_names df) = FEATURES) as ->.
    { unfold column_names. by rewrite <- names_filter_ne, Hfilter. }
    apply from_tensor_slices_labelled in Hes as (Hlen & Hfst & Hsnd).
    eexists. split; [reflexivity|]. cbn -[rows FEATURES]. done.
Qed.

Lemma transformer_data_sets_pair_rows_with_labels_witness :
  exists f y ds,
    getcols toy_frame FEATURES = Ok f /\ getcol toy_frame "MedHouseVal" = Ok y
    /\ labelled_dataset_of toy_frame "MedHouseVal" true = Ok ds
    /\ ds_keys ds = Some FEATURES
    /\ map fst (ds_elems ds) = rows (n_rows toy_frame) f
    /\ map snd (ds_elems ds) = map Some y
    /\ ds_batch ds = 32
    /\ ds_shuffle ds = Some (n_rows toy_frame)
    /\ ds_shuffle_batches ds = None.
Proof.
  eexists _, _.
  assert (getcols toy_frame FEATURES = Ok _) as Hf by (vm_compute; reflexivity).
  assert (getcol toy_frame "MedHouseVal" = Ok _) as Hy by (vm_compute; reflexivity).
  destruct (proj2 (transformer_data_sets_pair_rows_with_labels toy_frame "MedHouseVal"
                     true _ _
                     ltac:(apply (bool_decide_unpack _); vm_compute; reflexivity)
                     ltac:(discriminate)
                     ltac:(apply (bool_decide_unpack _); vm_compute; reflexivity)
                     ltac:(apply (bool_decide_unpack _); vm_compute; reflexivity)
                     Hf Hy)
              ltac:(intros _; vm_compute; lia))
    as (ds & H).
  exists ds. split; [exact Hf|]. split; [exact Hy|]. exact H.
Defined.

(** ** One pass over a data set *)

Lemma Permutation_concat_batches {A} (l l' : list (list A)) :
  Permutation l l' -> Permutation (concat l) (concat l').
Proof.
  induction 1 as [|x l l' _ IH|x y l|l l' l'' _ IH1 _ IH2]; cbn.
  - done.
  - by apply Permutation_app_head.
  - rewrite !app_assoc. apply Permutation_app_tail. apply Permutation_app_comm.
  - by etrans.
Qed.

(** X16.  An epoch visits each element once.  When the library's shuffle
    draws a permutation, one pass over a data set of the notebook (shuffled
    before batching as [df_to_dataset] does, or after batching as the
    MLP's data sets are, or not at all) yields every element of the data
    set exactly once, for any positive batch size. *)
Theorem epoch_visits_each_element_once lib seed d :
  (forall seed buffer n, Permutation (tf_shuffle lib seed buffer n) (seq 0 n)) ->
  0 < ds_batch d ->
  Permutation (concat (iterate lib seed d)) (ds_elems d).
Proof.
  intros Hperm Hb. unfold iterate.
  set (es := match ds_shuffle d with
             | Some buffer => select (tf_shuffle lib seed buffer (length (ds_elems d)))
                                (ds_elems d)
             | None => ds_elems d
             end).
  assert (Permutation es (ds_elems d)) as Hes.
  { unfold es. destruct (ds_shuffle d); [|done]. apply select_Permutation. apply Hperm. }
  rewrite <- Hes.
  destruct (ds_shuffle_batches d) as [buffer|].
  - rewrite (Permutation_concat_batches _ (chunks (length es) (ds_batch d) es)).
    + by rewrite concat_chunks.
    + apply select_Permutation. apply Hperm.
  - by rewrite concat_chunks.
Qed.

Lemma epoch_visits_each_element_once_witness :
  Permutation (concat (iterate toy_lib 1 (toy_dataset true))) (ds_elems (toy_dataset true)).
Proof.
  apply (epoch_visits_each_element_once toy_lib 1 (toy_dataset true)).
  - intros seed buffer n. cbn. destruct (Nat.even seed); [done|].
    symmetry. apply Permutation_rev.
  - vm_compute. lia.
Defined.

(** ** Reloading a model and predicting *)







(** ** Errors of the trainers and of the transformer's builder *)

(** X17.  The trainers read four keys and raise on the first one missing.
    When [train_params] lacks one of [learning_rate], [weight_decay],
    [early_stop_patience] and [num_epochs], having those that come before
    it in that order, [train_mlp] and [train_model] raise the [KeyError] of
    that key, whatever the libraries do: no epoch is trained. *)
Theorem trainers_raise_first_missing_key lib model (tp : gmap string Value) tr va
    before k after :
  train_params_keys = before ++ k :: after ->
  Forall (fun k' => is_Some (tp !! k')) before ->
  tp !! k = None ->
  train_mlp lib model tp tr va = Raise (KeyError k)
  /\ train_model lib model tp tr va = Raise (KeyError k).
Proof.
  intros Hkeys Hbefore Hk. unfold train_params_keys in Hkeys.
  unfold train_mlp, train_model.
  destruct before as [|k1 before]; cbn in Hkeys.
  { injection Hkeys as <- _. by rewrite (getitem_None _ _ Hk). }
  injection Hkeys as <- Hkeys. apply Forall_cons in Hbefore as [[v1 H1] Hbefore].
  rewrite (getitem_Some _ _ _ H1). cbn [mbind Result_bind].
  destruct before as [|k2 before]; cbn in Hkeys.
  { injection Hkeys as <- _. by rewrite (getitem_None _ _ Hk). }
  injection Hkeys as <- Hkeys. apply Forall_cons in Hbefore as [[v2 H2] Hbefore].
  rewrite (getitem_Some _ _ _ H2). cbn [mbind Result_bind].
  destruct before as [|k3 before]; cbn in Hkeys.
  { injection Hkeys as <- _. by rewrite (getitem_None _ _ Hk). }
  injection Hkeys as <- Hkeys. apply Forall_cons in Hbefore as [[v3 H3] Hbefore].
  rewrite (getitem_Some _ _ _ H3). cbn [mbind Result_bind].
  destruct before as [|k4 before]; cbn in Hkeys.
  { injection Hkeys as <- _. by rewrite (getitem_None _ _ Hk). }
  injection Hkeys as _ Hkeys. by destruct before.
Qed.

Lemma trainers_raise_first_missing_key_witness :
  train_mlp failing_lib (Sequential []) (delete "weight_decay" train_params)
    (toy_dataset true) (toy_dataset false) = Raise (KeyError "weight_decay")
  /\ train_model failing_lib (Sequential []) (delete "weight_decay" train_params)
       (toy_dataset true) (toy_dataset false) = Raise (KeyError "weight_decay").
Proof.
  apply (trainers_raise_first_missing_key failing_lib (Sequential [])
           (delete "weight_decay" train_params) (toy_dataset true) (toy_dataset false)
           ["learning_rate"] "weight_decay" ["early_stop_patience"; "num_epochs"]).
  - reflexivity.
  - repeat constructor. exists (VFloat (8 # 1000)). vm_compute. reflexivity.
  - vm_compute. reflexivity.
Defined.

(** X18.  [build_fttransformer] refuses a keyword given twice.  When
    [params_to_log] and [params_to_skip] share a key, unpacking both into
    the encoder's call raises a [TypeError]: the encoder's constructor is
    not reached, whatever it would have answered. *)
Theorem build_fttransformer_rejects_repeated_keyword lib (params_to_log skip : gmap string Value)
    k out_dim out_activation :
  is_Some (params_to_log !! k) -> is_Some (skip !! k) ->
  exists msg,
    build_fttransformer lib params_to_log skip out_dim out_activation
    = Raise (TypeError msg).
Proof.
  intros Ha Hb. unfold build_fttransformer, call_kwargs.
  rewrite decide_False; [by eexists|].
  intros H. apply elem_of_dom in Ha, Hb.
  assert (k ∈ dom params_to_log ∩ dom skip) as Hk by (apply elem_of_intersection; done).
  rewrite H in Hk. by apply not_elem_of_empty in Hk.
Qed.

Lemma build_fttransformer_rejects_repeated_keyword_witness :
  exists msg,
    build_fttransformer toy_lib (<["y" := VNone]> linear_embeddings_params)
      (params_to_skip [] []) 1 "relu"
    = Raise (TypeError msg).
Proof.
  apply (build_fttransformer_rejects_repeated_keyword toy_lib
           (<["y" := VNone]> linear_embeddings_params) (params_to_skip [] []) "y" 1 "relu").
  - exists VNone. apply lookup_insert_eq.
  - eexists. vm_compute. reflexivity.
Defined.

(** ** What is logged and what is built *)

(** X19.  The skipped parameters reach the encoder and are not logged.
    With [encoder_params] and [params_to_skip] sharing no key, the encoder
    is constructed from the entries of both, and an entry that only
    [params_to_skip] holds is not among the parameters the run records. *)
Theorem skipped_parameters_reach_the_encoder_unlogged lib name
    (ep tp skip : gmap string Value) tr va te y seed s k v :
  active s = None -> ep ##ₘ skip -> skip !! k = Some v -> tp !! k = None ->
  (exists kw,
      kw !! k = Some v
      /\ (forall k' v', ep !! k' = Some v' -> kw !! k' = Some v')
      /\ build_fttransformer lib ep skip 1 "relu"
         = (enc ← FTTransformerEncoder lib kw; mret (FTTransformer enc 1 "relu")))
  /\ forall v',
       (k, v') ∉ recorded_params s
                   (fttransformer_mlflow_run lib name ep tp skip tr va te y seed).
Proof.
  intros Hact Hdisj Hk Htp.
  assert (ep !! k = None) as Hep.
  { destruct (ep !! k) as [w|] eqn:E; [|done].
    exfalso. by apply (map_disjoint_spec ep skip) with (i := k) (x := w) (y := v) in Hdisj. }
  split.
  - exists (ep ∪ skip). split; [|split].
    + rewrite lookup_union_r by done. exact Hk.
    + intros k' v' Hk'. by apply lookup_union_Some_l.
    + unfold build_fttransformer. by rewrite call_kwargs_disjoint.
  - intros v'. rewrite recorded_params_ft by done.
    rewrite elem_of_app, !elem_of_map_to_list. intros [H|H]; congruence.
Qed.

Lemma skipped_parameters_reach_the_encoder_unlogged_witness :
  (exists kw,
      kw !! "y" = Some (VArray [[]])
      /\ (forall k' v', linear_embeddings_params !! k' = Some v' -> kw !! k' = Some v')
      /\ build_fttransformer toy_lib linear_embeddings_params (params_to_skip [] []) 1 "relu"
         = (enc ← FTTransformerEncoder toy_lib kw; mret (FTTransformer enc 1 "relu")))
  /\ forall v',
       ("y", v') ∉ recorded_params empty_store
                     (fttransformer_mlflow_run toy_lib "linear" linear_embeddings_params
                        train_params (params_to_skip [] []) (toy_dataset true)
                        (toy_dataset false) toy_test_ds [] 0).
Proof.
  apply (skipped_parameters_reach_the_encoder_unlogged toy_lib "linear"
           linear_embeddings_params train_params (params_to_skip [] [])
           (toy_dataset true) (toy_dataset false) toy_test_ds [] 0 empty_store
           "y" (VArray [[]])).
  - reflexivity.
  - apply map_disjoint_dom. apply (bool_decide_unpack _). vm_compute. reflexivity.
  - vm_compute. reflexivity.
  - vm_compute. reflexivity.
Defined.

(** ** A run that fails *)

(** X20.  A harness run that fails keeps its parameters and stores no
    model.  Started with no run in progress and given a build and a train
    configuration that share no key, [mlp_mlflow_run] raises only what the
    builder, the trainer or the metric raised, and
    [fttransformer_mlflow_run] only what the builder, the trainer,
    [test_preds.ravel()] or the metric raised; the record of a run that
    raised holds the parameters and the tag logged before the build, then
    its [FAILED] seal: no metric and no model. *)
Theorem failed_harness_run_keeps_parameters_only lib name mp tp ep skip tr va te y seed
    s e :
  active s = None -> mp ##ₘ tp -> ep ##ₘ tp ->
  ((mlp_mlflow_run lib name mp tp tr va te y seed s).2 = Raise e ->
   (build_mlp lib mp = Raise e
    \/ (exists m, build_mlp lib mp = Ok m /\ train_mlp lib m tp tr va = Raise e)
    \/ (exists m f, build_mlp lib mp = Ok m /\ train_mlp lib m tp tr va = Ok f
          /\ mean_squared_error lib y (ravel (predict lib f te seed)) false = Raise e))
   /\ new_calls s (mlp_mlflow_run lib name mp tp tr va te y seed s).1
      = COpen (length (runs s)) name
        :: param_calls (length (runs s)) mp ++ param_calls (length (runs s)) tp
        ++ [CSetTag (length (runs s)) "model_name" "MLP"; CSeal (length (runs s)) FAILED])
  /\ ((fttransformer_mlflow_run lib name ep tp skip tr va te y seed s).2 = Raise e ->
      (build_fttransformer lib ep skip 1 "relu" = Raise e
       \/ (exists m, build_fttransformer lib ep skip 1 "relu" = Ok m
             /\ train_model lib m tp tr va = Raise e)
       \/ (exists m f, build_fttransformer lib ep skip 1 "relu" = Ok m
             /\ train_model lib m tp tr va = Ok f
             /\ ravel_of (keras_predict lib f te seed) = Raise e)
       \/ (exists m f flat, build_fttransformer lib ep skip 1 "relu" = Ok m
             /\ train_model lib m tp tr va = Ok f
             /\ ravel_of (keras_predict lib f te seed) = Ok flat
             /\ mean_squared_error lib y flat false = Raise e))
      /\ new_calls s (fttransformer_mlflow_run lib name ep tp skip tr va te y seed s).1
         = COpen (length (runs s)) name
           :: CSetTag (length (runs s)) "model_name" "FTTransformer"
           :: param_calls (length (runs s)) ep ++ param_calls (length (runs s)) tp
           ++ [CSeal (length (runs s)) FAILED]).
Proof.
  intros Hact _ _. split.
  - rewrite mlp_mlflow_run_eq by done. cbn [fst snd]. rewrite new_calls_sealed.
    unfold mlp_pipeline.
    destruct (build_mlp lib mp) as [m|e1] eqn:E1; cbn.
    2:{ intros [= ->]. split; [by left|]. by rewrite <- !app_assoc. }
    destruct (train_mlp lib m tp tr va) as [f|e1] eqn:E2; cbn.
    2:{ intros [= ->]. split; [right; left; by exists m|]. by rewrite <- !app_assoc. }
    rewrite (keras_predict_mlp _ _ _ _ _ _ _ te seed E1 E2). cbn.
    destruct (mean_squared_error lib y _ false) as [v|e1] eqn:E3; cbn; [discriminate|].
    intros [= ->]. split; [right; right; by exists m, f|]. by rewrite <- !app_assoc.
  - rewrite fttransformer_mlflow_run_eq by done. cbn [fst snd]. rewrite new_calls_sealed.
    unfold ft_pipeline.
    destruct (build_fttransformer lib ep skip 1 "relu") as [m|e1] eqn:E1; cbn.
    2:{ intros [= ->]. split; [by left|]. by rewrite <- !app_assoc. }
    destruct (train_model lib m tp tr va) as [f|e1] eqn:E2; cbn.
    2:{ intros [= ->]. split; [right; left; by exists m|]. by rewrite <- !app_assoc. }
    destruct (ravel_of (keras_predict lib f te seed)) as [flat|e1] eqn:E3; cbn.
    2:{ intros [= ->]. split; [right; right; left; by exists m, f|].
        by rewrite <- !app_assoc. }
    destruct (mean_squared_error lib y flat false) as [v|e1] eqn:E4; cbn; [discriminate|].
    intros [= ->]. split; [right; right; right; by exists m, f, flat|].
    by rewrite <- !app_assoc.
Qed.

Lemma failed_harness_run_keeps_parameters_only_witness :
  ((mlp_mlflow_run failing_lib "mlp_base" mlp_params train_params toy_mlp_dataset
      toy_mlp_dataset toy_mlp_test_ds toy_labels 0 empty_store).2
   = Raise (LibraryError "loss is not finite")
   /\ new_calls empty_store
        (mlp_mlflow_run failing_lib "mlp_base" mlp_params train_params toy_mlp_dataset
           toy_mlp_dataset toy_mlp_test_ds toy_labels 0 empty_store).1
      = COpen 0 "mlp_base"
        :: param_calls 0 mlp_params ++ param_calls 0 train_params
        ++ [CSetTag 0 "model_name" "MLP"; CSeal 0 FAILED])
  /\ ((fttransformer_mlflow_run toy_lib "linear_embeddings" linear_embeddings_params
         train_params (params_to_skip [] []) (toy_dataset true) (toy_dataset false)
         toy_test_ds toy_labels 0 empty_store).2
      = Raise (AttributeError "'dict' object has no attribute 'ravel'")
      /\ new_calls empty_store
           (fttransformer_mlflow_run toy_lib "linear_embeddings" linear_embeddings_params
              train_params (params_to_skip [] []) (toy_dataset true) (toy_dataset false)
              toy_test_ds toy_labels 0 empty_store).1
         = COpen 0 "linear_embeddings"
           :: CSetTag 0 "model_name" "FTTransformer"
           :: param_calls 0 linear_embeddings_params ++ param_calls 0 train_params
           ++ [CSeal 0 FAILED]).
Proof.
  assert (mlp_params ##ₘ train_params) as Hd1
    by (apply map_disjoint_dom; apply (bool_decide_unpack _); vm_compute; reflexivity).
  assert (linear_embeddings_params ##ₘ train_params) as Hd2
    by (apply map_disjoint_dom; apply (bool_decide_unpack _); vm_compute; reflexivity).
  split.
  - assert ((mlp_mlflow_run failing_lib "mlp_base" mlp_params train_params
               toy_mlp_dataset toy_mlp_dataset toy_mlp_test_ds toy_labels 0
               empty_store).2
            = Raise (LibraryError "loss is not finite")) as H by (vm_compute; reflexivity).
    split; [exact H|].
    exact (proj2 (proj1 (failed_harness_run_keeps_parameters_only failing_lib "mlp_base"
                           mlp_params train_params linear_embeddings_params
                           (params_to_skip [] []) toy_mlp_dataset toy_mlp_dataset
                           toy_mlp_test_ds toy_labels 0 empty_store
                           (LibraryError "loss is not finite") eq_refl Hd1 Hd2) H)).
  - assert ((fttransformer_mlflow_run toy_lib "linear_embeddings"
               linear_embeddings_params train_params (params_to_skip [] [])
               (toy_dataset true) (toy_dataset false) toy_test_ds toy_labels 0
               empty_store).2
            = Raise (AttributeError "'dict' object has no attribute 'ravel'")) as H
      by (vm_compute; reflexivity).
    split; [exact H|].
    exact (proj2 (proj2 (failed_harness_run_keeps_parameters_only toy_lib
                           "linear_embeddings" mlp_params train_params
                           linear_embeddings_params (params_to_skip [] [])
                           (toy_dataset true) (toy_dataset false) toy_test_ds toy_labels 0
                           empty_store
                           (AttributeError "'dict' object has no attribute 'ravel'")
                           eq_refl Hd1 Hd2) H)).
Defined.

(** ** Models in the store *)

Lemma store_at_rest_empty : store_at_rest empty_store.
Proof. repeat split; constructor. Qed.

Lemma find_model_app id path cs1 cs2 :
  find_model id path (cs1 ++ cs2)
  = match find_model id path cs2 with
    | Some m => Some m
    | None => find_model id path cs1
    end.
Proof.
  induction cs1 as [|c cs1 IH]; cbn.
  - by destruct (find_model id path cs2).
  - destruct c; try exact IH.
    rewrite IH. by destruct (find_model id path cs2).
Qed.

Lemma find_model_other_runs id path cs :
  Forall (fun c => call_run c <> id) cs -> find_model id path cs = None.
Proof.
  induction 1 as [|c cs Hc _ IH]; [done|].
  destruct c; cbn in *; try exact IH.
  rewrite IH. rewrite decide_False; [done|]. by intros [? _].
Qed.

Lemma find_model_no_model id path cs :
  Forall (fun c => is_model_call c = false) cs -> find_model id path cs = None.
Proof.
  induction 1 as [|c cs Hc _ IH]; [done|]. destruct c; cbn in *; done.
Qed.

Lemma no_model_param_calls id d : Forall (fun c => is_model_call c = false) (param_calls id d).
Proof. unfold param_calls. apply Forall_map. by apply Forall_forall. Qed.

Lemma find_model_result_calls id path0 p path :
  find_model id path (result_calls id path0 p)
  = match p with
    | Ok (m, _) => if decide (path0 = path) then Some m else None
    | Raise _ => None
    end.
Proof.
  destruct p as [[m v]|e]; [|done]. cbn.
  destruct (decide (path0 = path)) as [->|Hne].
  - by rewrite decide_True.
  - rewrite decide_False; [done|]. by intros [_ ?].
Qed.

Lemma load_model_sealed s name pre path0 p o path :
  store_at_rest s ->
  Forall (fun c => is_model_call c = false) pre ->
  load_model (sealed s name (pre ++ result_calls (length (runs s)) path0 p) o)
    (length (runs s)) path
  = match p with
    | Ok (m, _) => if decide (path0 = path) then Ok m
                   else Raise (MlflowException "no such artifact")
    | Raise _ => Raise (MlflowException "no such artifact")
    end.
Proof.
  intros (_ & _ & Hcalls) Hpre. unfold load_model, sealed. cbn [calls].
  rewrite find_model_app.
  change (COpen ?i name :: ?l) with ([COpen i name] ++ l).
  rewrite !find_model_app. cbn [find_model].
  rewrite find_model_result_calls, (find_model_no_model _ _ pre Hpre).
  rewrite (find_model_other_runs _ _ (calls s)).
  2:{ eapply Forall_impl; [exact Hcalls|]. intros c Hc. cbn in Hc. lia. }
  destruct p as [[m v]|e]; [|done]. by destruct (decide (path0 = path)).
Qed.

Lemma stored_model_intro s' id path (p : Result (Fitted * Q))
    (evaluation : Result (Fitted * list Q * list Q)) lib :
  p = (e ← evaluation;
       v ← mean_squared_error lib e.1.2 e.2 false;
       mret (e.1.1, v)) ->
  (forall path',
      load_model s' id path'
      = match p with
        | Ok (m, _) => if decide (path = path') then Ok m
                       else Raise (MlflowException "no such artifact")
        | Raise _ => Raise (MlflowException "no such artifact")
        end) ->
  stored_model s' id path (result_of p) evaluation.
Proof.
  intros -> Hload.
  destruct evaluation as [[[f y] q]|e]; [|intros path'; rewrite Hload; by eexists].
  cbn in *.
  destruct (mean_squared_error lib y q false) as [v|e] eqn:E;
    [|intros path'; rewrite Hload; by eexists].
  cbn in *.
  exists f, y, q. split; [done|]. split.
  - by rewrite Hload, decide_True.
  - intros path' Hne. rewrite Hload, decide_False by done. by eexists.
Qed.

Lemma Forall_app_3 {A} (P : A -> Prop) l1 l2 l3 :
  Forall P l1 -> Forall P l2 -> Forall P l3 -> Forall P (l1 ++ l2 ++ l3).
Proof. intros. apply Forall_app_2; [done|]. by apply Forall_app_2. Qed.

(** X21.  The model a run logs is the one [load_model] returns.  In a
    store between two runs, each of the four runs that returns leaves,
    under its artifact path ([tf_models], [sk_models] or [cb_models]) and
    under no other path of its record, the fitted model it evaluated;
    a run that raised leaves no model at all in its record.  The MLP,
    random-forest and CatBoost runs do leave their model as soon as it is
    fitted and there are as many predictions as test labels, one at least;
    a transformer run whose encoder is explainable, as the notebook
    configures it, leaves none, because it raises before [log_model]. *)
Theorem logged_model_is_the_one_reloaded lib name mp tp ep skip tr va te y seed
    X_train test_data LABEL ptrain pval ptest s :
  store_at_rest s ->
  (stored_model (mlp_mlflow_run lib name mp tp tr va te y seed s).1 (length (runs s))
     "tf_models" (mlp_mlflow_run lib name mp tp tr va te y seed s).2
     (mlp_evaluation lib mp tp tr va te y seed)
   /\ stored_model (fttransformer_mlflow_run lib name ep tp skip tr va te y seed s).1
        (length (runs s)) "tf_models"
        (fttransformer_mlflow_run lib name ep tp skip tr va te y seed s).2
        (ft_evaluation lib ep tp skip tr va te y seed)
   /\ stored_model (rf_baseline_run lib X_train test_data LABEL s).1 (length (runs s))
        "sk_models" (rf_baseline_run lib X_train test_data LABEL s).2
        (rf_evaluation lib X_train test_data LABEL)
   /\ stored_model (catboost_run lib ptrain pval ptest test_data LABEL s).1
        (length (runs s)) "cb_models"
        (catboost_run lib ptrain pval ptest test_data LABEL s).2
        (catboost_evaluation lib ptrain pval ptest test_data LABEL))
  /\ (forall fitted labels predictions,
        length labels = length predictions -> 0 < length labels ->
        (mlp_evaluation lib mp tp tr va te y seed = Ok (fitted, labels, predictions) ->
         load_model (mlp_mlflow_run lib name mp tp tr va te y seed s).1 (length (runs s))
           "tf_models" = Ok fitted)
        /\ (rf_evaluation lib X_train test_data LABEL = Ok (fitted, labels, predictions) ->
            load_model (rf_baseline_run lib X_train test_data LABEL s).1 (length (runs s))
              "sk_models" = Ok fitted)
        /\ (catboost_evaluation lib ptrain pval ptest test_data LABEL
              = Ok (fitted, labels, predictions) ->
            load_model (catboost_run lib ptrain pval ptest test_data LABEL s).1
              (length (runs s)) "cb_models" = Ok fitted))
  /\ (forall enc fitted path,
        build_fttransformer lib ep skip 1 "relu" = Ok (FTTransformer enc 1 "relu") ->
        explainable enc = true ->
        train_model lib (FTTransformer enc 1 "relu") tp tr va = Ok fitted ->
        load_model (fttransformer_mlflow_run lib name ep tp skip tr va te y seed s).1
          (length (runs s)) path
        = Raise (MlflowException "no such artifact")).
Proof.
  intros Hrest. pose proof Hrest as (Hact & _).
  rewrite mlp_mlflow_run_eq, fttransformer_mlflow_run_eq, rf_baseline_run_eq,
    catboost_run_eq by exact Hact.
  cbn [fst snd].
  assert (forall pre, Forall (fun c => is_model_call c = false) pre ->
            forall name' path0 p path,
              load_model (sealed s name' (pre ++ result_calls (length (runs s)) path0 p)
                            (outcome_of (result_of p)))
                (length (runs s)) path
              = match p with
                | Ok (m, _) => if decide (path0 = path) then Ok m
                               else Raise (MlflowException "no such artifact")
                | Raise _ => Raise (MlflowException "no such artifact")
                end) as Hload.
  { intros pre Hpre name' path0 p path. by apply load_model_sealed. }
  assert (Forall (fun c => is_model_call c = false)
            (param_calls (length (runs s)) mp ++ param_calls (length (runs s)) tp
             ++ [CSetTag (length (runs s)) "model_name" "MLP"])) as Hmlp.
  { apply Forall_app_3; try apply no_model_param_calls. by repeat constructor. }
  assert (Forall (fun c => is_model_call c = false)
            ([CSetTag (length (runs s)) "model_name" "FTTransformer"]
             ++ param_calls (length (runs s)) ep ++ param_calls (length (runs s)) tp))
    as Hft.
  { apply Forall_app_3; try apply no_model_param_calls. by repeat constructor. }
  assert (Forall (fun c => is_model_call c = false)
            ([CSetTag (length (runs s)) "model_name" "RF"]
             ++ param_calls (length (runs s)) rf_params)) as Hrf.
  { apply Forall_app_2; [by repeat constructor|apply no_model_param_calls]. }
  assert (Forall (fun c => is_model_call c = false)
            [CSetTag (length (runs s)) "model_name" "CatBoost"]) as Hcb
    by (by repeat constructor).
  split; [|split].
  - split; [|split; [|split]]; apply (stored_model_intro _ _ _ _ _ lib).
    + apply mlp_pipeline_evaluation.
    + intros path'. rewrite !app_assoc. apply load_model_sealed; [done|].
      by rewrite <- app_assoc.
    + apply ft_pipeline_evaluation.
    + intros path'. rewrite !app_assoc. apply load_model_sealed; [done|].
      by rewrite <- app_assoc.
    + apply rf_pipeline_evaluation.
    + intros path'. rewrite !app_assoc. apply load_model_sealed; [done|]. done.
    + apply catboost_pipeline_evaluation.
    + intros path'. apply load_model_sealed; [done|]. done.
  - intros fitted labels predictions Hlen Hpos.
    split; [|split]; intros Hev.
    + rewrite !app_assoc, load_model_sealed; [|done|by rewrite <- app_assoc].
      rewrite (pipeline_of_evaluation _ _ _ _ _ _
                 (mlp_pipeline_evaluation _ _ _ _ _ _ _ _) Hev Hlen Hpos).
      by rewrite decide_True.
    + rewrite !app_assoc, load_model_sealed; [|done|done].
      rewrite (pipeline_of_evaluation _ _ _ _ _ _
                 (rf_pipeline_evaluation _ _ _ _) Hev Hlen Hpos).
      by rewrite decide_True.
    + rewrite load_model_sealed; [|done|done].
      rewrite (pipeline_of_evaluation _ _ _ _ _ _
                 (catboost_pipeline_evaluation _ _ _ _ _ _) Hev Hlen Hpos).
      by rewrite decide_True.
  - intros enc fitted path Hb He Ht.
    rewrite !app_assoc, load_model_sealed; [|done|by rewrite <- app_assoc].
    by rewrite (ft_pipeline_explainable _ _ _ _ _ _ _ y seed _ _ Hb He Ht).
Qed.

Lemma logged_model_is_the_one_reloaded_witness :
  (exists fitted labels predictions,
      rf_evaluation toy_lib toy_frame toy_frame "MedHouseVal"
      = Ok (fitted, labels, predictions)
      /\ load_model (rf_baseline_run toy_lib toy_frame toy_frame "MedHouseVal"
                       empty_store).1 0 "sk_models" = Ok fitted)
  /\ load_model
       (fttransformer_mlflow_run toy_lib "linear_embeddings" linear_embeddings_params
          train_params (params_to_skip [] []) (toy_dataset true) (toy_dataset false)
          toy_test_ds toy_labels 0 empty_store).1 0 "tf_models"
     = Raise (MlflowException "no such artifact").
Proof.
  pose proof (logged_model_is_the_one_reloaded toy_lib "linear_embeddings" mlp_params
                train_params linear_embeddings_params (params_to_skip [] [])
                (toy_dataset true) (toy_dataset false) toy_test_ds toy_labels 0
                toy_frame toy_frame "MedHouseVal" toy_pool toy_pool toy_pool empty_store
                store_at_rest_empty) as (_ & Hstored & Hft).
  split.
  - assert (rf_evaluation toy_lib toy_frame toy_frame "MedHouseVal" = Ok (_, _, _))
      as Hev by (vm_compute; reflexivity).
    eexists _, _, _. split; [exact Hev|].
    refine (proj1 (proj2 (Hstored _ _ _ _ _)) Hev); [vm_compute; reflexivity|vm_compute; lia].
  - eapply Hft; [vm_compute; reflexivity | vm_compute; reflexivity
                | vm_compute; reflexivity].
Defined.

(** X22.  A model reloaded after an MLP run reproduces the logged metric.
    After a run of [mlp_mlflow_run] that returned, in a store between two
    runs, reloading the run's [tf_models] artifact and predicting on the
    same test data set, when that data set is not shuffled, gives an array
    of predictions whose [mean_squared_error(..., squared=False)] against
    the same labels is the value recorded as [test_rmse], whatever the
    state of the random generator at the second prediction. *)
Theorem reloaded_model_reproduces_the_logged_metric lib name mp tp tr va te y
    seed seed' s :
  store_at_rest s ->
  ds_shuffle te = None -> ds_shuffle_batches te = None ->
  (mlp_mlflow_run lib name mp tp tr va te y seed s).2 = Ok tt ->
  exists predictions v,
    reload_and_predict lib (mlp_mlflow_run lib name mp tp tr va te y seed s).1
      (length (runs s)) te seed' = Ok (PArray predictions)
    /\ mean_squared_error lib y (ravel predictions) false = Ok v
    /\ recorded_metrics s (mlp_mlflow_run lib name mp tp tr va te y seed)
       = [("test_rmse", v)].
Proof.
  intros Hrest Hs1 Hs2. pose proof Hrest as (Hact & _).
  assert (forall f, predict lib f te seed' = predict lib f te seed) as Hpred.
  { intros f. unfold predict. by rewrite (iterate_not_shuffled lib te seed' seed). }
  rewrite recorded_metrics_mlp by done.
  rewrite mlp_mlflow_run_eq by done. cbn [fst snd].
  unfold reload_and_predict. rewrite !app_assoc, load_model_sealed; [|done|].
  2:{ rewrite <- app_assoc. apply Forall_app_3; try apply no_model_param_calls.
      by repeat constructor. }
  unfold mlp_pipeline.
  destruct (build_mlp lib mp) as [m|e] eqn:Eb; cbn -[keras_predict predict];
    [|discriminate].
  destruct (train_mlp lib m tp tr va) as [f|e] eqn:Et; cbn -[keras_predict predict];
    [|discriminate].
  rewrite (keras_predict_mlp _ _ _ _ _ _ _ te seed Eb Et). cbn -[keras_predict predict].
  destruct (mean_squared_error lib y _ false) as [v|e] eqn:E;
    cbn -[keras_predict predict]; [|discriminate].
  intros _. apply build_mlp_Ok in Eb as (u1 & a & r & u2 & _ & _ & _ & _ & ->).
  rewrite decide_True by done. cbn [mbind Result_bind mret Result_ret].
  rewrite (keras_predict_Sequential _ _ _ _ _ (train_mlp_model _ _ _ _ _ _ Et)).
  eexists _, v. split; [reflexivity|]. by rewrite Hpred.
Qed.

Lemma reloaded_model_reproduces_the_logged_metric_witness :
  exists predictions v,
    reload_and_predict unit_lib
      (mlp_mlflow_run unit_lib "mlp_base" mlp_params train_params toy_mlp_dataset
         toy_mlp_dataset toy_mlp_test_ds toy_labels 0 empty_store).1
      (length (runs empty_store)) toy_mlp_test_ds 1 = Ok (PArray predictions)
    /\ mean_squared_error unit_lib toy_labels (ravel predictions) false = Ok v
    /\ recorded_metrics empty_store
         (mlp_mlflow_run unit_lib "mlp_base" mlp_params train_params toy_mlp_dataset
            toy_mlp_dataset toy_mlp_test_ds toy_labels 0)
       = [("test_rmse", v)].
Proof.
  apply (reloaded_model_reproduces_the_logged_metric unit_lib "mlp_base"
           mlp_params train_params toy_mlp_dataset toy_mlp_dataset toy_mlp_test_ds
           toy_labels 0 1 empty_store store_at_rest_empty eq_refl eq_refl).
  vm_compute. reflexivity.
Defined.

(** ** Hyperparameters on record *)

Lemma rf_pipeline_model lib X_train test_data LABEL f v :
  rf_pipeline lib X_train test_data LABEL = Ok (f, v) ->
  f.1 = RandomForestRegressor 100 20.
Proof.
  unfold rf_pipeline.
  destruct (getcols X_train FEATURES) as [X|e]; [|discriminate]. cbn -[getcols getcol].
  destruct (getcol X_train LABEL) as [y0|e]; [|discriminate]. cbn -[getcols getcol].
  destruct (tree_fit lib _ _ y0 None) as [w|e]; [|discriminate]. cbn -[getcols getcol].
  destruct (getcols test_data FEATURES) as [Xt|e]; [|discriminate]. cbn -[getcols getcol].
  destruct (getcol test_data LABEL) as [yt|e]; [|discriminate]. cbn -[getcols getcol].
  destruct (mean_squared_error lib yt _ false) as [v'|e]; [|discriminate].
  by intros [= <- _].
Qed.

(** X23.  The [rf_baseline] run logs the hyperparameters of the forest it
    stores.  After a run that returned, in a store between two runs, the
    model under [sk_models] is a random forest whose two constructor
    arguments are the values recorded as [n_estimators] and [max_depth],
    and the run records no other parameter. *)
Theorem rf_run_logs_the_hyperparameters_it_uses lib X_train test_data LABEL s :
  store_at_rest s ->
  (rf_baseline_run lib X_train test_data LABEL s).2 = Ok tt ->
  exists n_estimators max_depth w,
    load_model (rf_baseline_run lib X_train test_data LABEL s).1 (length (runs s))
      "sk_models" = Ok (RandomForestRegressor n_estimators max_depth, w)
    /\ forall k v,
         (k, v) ∈ recorded_params s (rf_baseline_run lib X_train test_data LABEL)
         <-> (k = "n_estimators" /\ v = VInt n_estimators)
             \/ (k = "max_depth" /\ v = VInt max_depth).
Proof.
  intros Hrest. pose proof Hrest as (Hact & _).
  rewrite recorded_params_rf by done.
  rewrite rf_baseline_run_eq by done. cbn [fst snd].
  rewrite !app_assoc, load_model_sealed; [|done|].
  2:{ apply Forall_app_2; [by repeat constructor|apply no_model_param_calls]. }
  destruct (rf_pipeline lib X_train test_data LABEL) as [[[m w] v0]|e] eqn:E;
    cbn; [|discriminate].
  intros _. apply rf_pipeline_model in E. cbn in E. subst m.
  exists 100%Z, 20%Z, w. split; [done|].
  intros k v. rewrite elem_of_map_to_list. unfold rf_params.
  rewrite lookup_insert_Some, lookup_singleton_Some. split.
  - intros [[<- <-]|(_ & <- & <-)]; [by left|by right].
  - intros [[-> ->]|[-> ->]]; [by left|right; by repeat split].
Qed.

Lemma rf_run_logs_the_hyperparameters_it_uses_witness :
  exists n_estimators max_depth w,
    load_model (rf_baseline_run toy_lib toy_frame toy_frame "MedHouseVal" empty_store).1
      (length (runs empty_store)) "sk_models"
    = Ok (RandomForestRegressor n_estimators max_depth, w)
    /\ forall k v,
         (k, v) ∈ recorded_params empty_store
                    (rf_baseline_run toy_lib toy_frame toy_frame "MedHouseVal")
         <-> (k = "n_estimators" /\ v = VInt n_estimators)
             \/ (k = "max_depth" /\ v = VInt max_depth).
Proof.
  apply (rf_run_logs_the_hyperparameters_it_uses toy_lib toy_frame toy_frame
           "MedHouseVal" empty_store).
  - apply store_at_rest_empty.
  - vm_compute. reflexivity.
Defined.

(** X24.  The MLP run logs what it builds.  After a run that returned, in a
    store between two runs, the model under [tf_models] is the five-layer
    stack whose two layer sizes, activation and dropout rate are the values
    recorded for [layer1_size], [layer2_size], [activation] and
    [dropout_rate]; its last layer is [Dense(1, activation='relu')]. *)
Theorem mlp_run_logs_what_it_builds lib name mp tp tr va te y seed s :
  store_at_rest s ->
  (mlp_mlflow_run lib name mp tp tr va te y seed s).2 = Ok tt ->
  exists u1 u2 a r w,
    load_model (mlp_mlflow_run lib name mp tp tr va te y seed s).1 (length (runs s))
      "tf_models"
    = Ok (Sequential [Dense u1 a; Dropout r; Dense u2 a; Dropout r;
                      Dense (VInt 1) (VStr "relu")], w)
    /\ Forall (fun kv => kv ∈ recorded_params s
                                (mlp_mlflow_run lib name mp tp tr va te y seed))
         [("layer1_size", u1); ("layer2_size", u2); ("activation", a);
          ("dropout_rate", r)].
Proof.
  intros Hrest. pose proof Hrest as (Hact & _).
  rewrite recorded_params_mlp by done.
  rewrite mlp_mlflow_run_eq by done. cbn [fst snd].
  rewrite !app_assoc, load_model_sealed; [|done|].
  2:{ rewrite <- app_assoc. apply Forall_app_3; try apply no_model_param_calls.
      by repeat constructor. }
  unfold mlp_pipeline.
  destruct (build_mlp lib mp) as [m|e] eqn:Eb; cbn -[keras_predict]; [|discriminate].
  destruct (train_mlp lib m tp tr va) as [[m' w]|e] eqn:Et; cbn -[keras_predict];
    [|discriminate].
  destruct (ravel_of (keras_predict lib (m', w) te seed)) as [flat|e];
    cbn -[keras_predict]; [|discriminate].
  destruct (mean_squared_error lib y flat false) as [v|e]; cbn; [|discriminate].
  intros _. apply train_mlp_model in Et. cbn in Et. subst m'.
  apply build_mlp_Ok in Eb as (u1 & a & r & u2 & H1 & H2 & H3 & H4 & ->).
  exists u1, u2, a, r, w. split; [done|].
  repeat (apply Forall_cons; split;
          [apply elem_of_app; left; by apply elem_of_map_to_list|]).
  constructor.
Qed.

Lemma mlp_run_logs_what_it_builds_witness :
  exists u1 u2 a r w,
    load_model (mlp_mlflow_run unit_lib "mlp_base" mlp_params train_params
                  (toy_dataset true) (toy_dataset false) toy_test_ds
                  (map (fun i => inject_Z (Z.of_nat i)) (seq 0 5)) 0 empty_store).1
      (length (runs empty_store)) "tf_models"
    = Ok (Sequential [Dense u1 a; Dropout r; Dense u2 a; Dropout r;
                      Dense (VInt 1) (VStr "relu")], w)
    /\ Forall (fun kv => kv ∈ recorded_params empty_store
                                (mlp_mlflow_run unit_lib "mlp_base" mlp_params train_params
                                   (toy_dataset true) (toy_dataset false) toy_test_ds
                                   (map (fun i => inject_Z (Z.of_nat i)) (seq 0 5)) 0))
         [("layer1_size", u1); ("layer2_size", u2); ("activation", a);
          ("dropout_rate", r)].
Proof.
  apply (mlp_run_logs_what_it_builds unit_lib "mlp_base" mlp_params train_params
           (toy_dataset true) (toy_dataset false) toy_test_ds
           (map (fun i => inject_Z (Z.of_nat i)) (seq 0 5)) 0 empty_store).
  - apply store_at_rest_empty.
  - vm_compute. reflexivity.
Defined.

(** ** Runs one after the other *)

Lemma sealed_at_rest s name new o :
  store_at_rest s -> Forall (is_logging (length (runs s))) new ->
  store_at_rest (sealed s name new o).
Proof.
  intros (Hact & Hruns & Hcalls) Hnew. split; [done|]. split.
  - unfold sealed. cbn [runs].
    rewrite insert_app_r_alt, Nat.sub_diag by done. cbn.
    apply Forall_app_2; [done|by repeat constructor].
  - rewrite length_sealed. unfold sealed. cbn [calls].
    apply Forall_app_2.
    + eapply Forall_impl; [exact Hcalls|]. intros c Hc. cbn in Hc. lia.
    + constructor; [cbn; lia|]. apply Forall_app_2; [|repeat constructor; cbn; lia].
      eapply Forall_impl; [exact Hnew|]. intros c Hc.
      destruct c; cbn in *; try contradiction; lia.
Qed.

Lemma run_cell_sealed lib c s :
  active s = None ->
  exists name new o,
    (run_cell lib c s).1 = sealed s name new o
    /\ Forall (is_logging (length (runs s))) new.
Proof.
  intros Hact. destruct c; cbn [run_cell].
  - rewrite rf_baseline_run_eq by done. eexists _, _, _. split; [reflexivity|].
    apply Forall_app_3; [apply Forall_logging_tag|apply Forall_logging_params
                        |apply Forall_logging_results].
  - rewrite catboost_run_eq by done. eexists _, _, _. split; [reflexivity|].
    apply Forall_app_2; [apply Forall_logging_tag|apply Forall_logging_results].
  - rewrite mlp_mlflow_run_eq by done. eexists _, _, _. split; [reflexivity|].
    apply Forall_app_2; [apply Forall_logging_params|].
    apply Forall_app_3; [apply Forall_logging_params|apply Forall_logging_tag
                        |apply Forall_logging_results].
  - rewrite fttransformer_mlflow_run_eq by done. eexists _, _, _. split; [reflexivity|].
    apply Forall_app_2; [apply Forall_logging_tag|].
    apply Forall_app_3; [apply Forall_logging_params|apply Forall_logging_params
                        |apply Forall_logging_results].
Qed.

(** X25.  Runs can follow one another.  From a store between two runs, any
    sequence of the notebook's run cells, whether each returns or raises,
    leaves a store between two runs: no run is current, every record is
    sealed, every call belongs to a record, and there is one more record
    per cell run. *)
Theorem runs_leave_the_store_at_rest lib cs s :
  store_at_rest s ->
  store_at_rest (run_cells lib cs s)
  /\ length (runs (run_cells lib cs s)) = length (runs s) + length cs.
Proof.
  revert s. induction cs as [|c cs IH]; intros s Hrest.
  - cbn. split; [done|lia].
  - cbn [run_cells foldl]. fold (run_cells lib cs (run_cell lib c s).1).
    destruct (run_cell_sealed lib c s) as (name & new & o & Heq & Hnew); [apply Hrest|].
    rewrite Heq.
    destruct (IH (sealed s name new o)) as [IH1 IH2]; [by apply sealed_at_rest|].
    split; [done|]. rewrite IH2, length_sealed. cbn. lia.
Qed.

Lemma runs_leave_the_store_at_rest_witness :
  store_at_rest
    (run_cells failing_lib
       [RfCell toy_frame toy_frame "MedHouseVal";
        MlpCell "mlp_base" mlp_params train_params (toy_dataset true) (toy_dataset false)
          toy_test_ds [] 0] empty_store)
  /\ length (runs (run_cells failing_lib
                     [RfCell toy_frame toy_frame "MedHouseVal";
                      MlpCell "mlp_base" mlp_params train_params (toy_dataset true)
                        (toy_dataset false) toy_test_ds [] 0] empty_store))
     = length (runs empty_store) + 2.
Proof.
  exact (runs_leave_the_store_at_rest failing_lib
           [RfCell toy_frame toy_frame "MedHouseVal";
            MlpCell "mlp_base" mlp_params train_params (toy_dataset true)
              (toy_dataset false) toy_test_ds [] 0] empty_store store_at_rest_empty).
Defined.

(** ** Dict objects *)

(** X26.  The PLE quantile cell changes a copy.  The cell leaves the dict
    that [params_to_skip] refers to as it was, so the later PLE target run
    still receives the labels under ["y"]; the dict it passes to its own
    run is a new object that has [None] under ["y"] and the other entries
    of [params_to_skip]; no other object changes. *)
Theorem pleq_cell_updates_a_copy params_to_skip (h : list (gmap string Value)) d :
  h !! params_to_skip = Some d ->
  exists h' pleq_params_to_skip,
    pleq_params_to_skip_cell params_to_skip h = Some (h', pleq_params_to_skip)
    /\ pleq_params_to_skip <> params_to_skip
    /\ h' !! params_to_skip = Some d
    /\ h' !! pleq_params_to_skip = Some (<["y" := VNone]> d)
    /\ (forall k, k <> "y" -> <["y" := VNone]> d !! k = d !! k)
    /\ (forall r, r <> pleq_params_to_skip -> h' !! r = h !! r).
Proof.
  intros Hd. unfold pleq_params_to_skip_cell, dict_copy, dict_setitem.
  rewrite Hd. cbn [mbind option_bind].
  rewrite (lookup_app_r h [d] (length h)), Nat.sub_diag by done.
  cbn [lookup list_lookup mbind option_bind].
  pose proof (lookup_lt_Some _ _ _ Hd) as Hlt.
  eexists _, _. split; [reflexivity|].
  split; [lia|]. split; [|split; [|split]].
  - rewrite list_lookup_insert_ne by lia. by rewrite lookup_app_l.
  - rewrite list_lookup_insert_eq; [done|]. rewrite length_app. cbn. lia.
  - intros k Hk. by rewrite lookup_insert_ne.
  - intros r Hr. rewrite list_lookup_insert_ne by done.
    destruct (decide (r < length h)) as [Hlt'|Hge].
    + by rewrite lookup_app_l.
    + rewrite !lookup_ge_None_2; [done|lia|]. rewrite length_app. cbn. lia.
Qed.

Lemma pleq_cell_updates_a_copy_witness :
  exists h' pleq_params_to_skip,
    pleq_params_to_skip_cell 0 [params_to_skip [[1%Q]] [2%Q]]
    = Some (h', pleq_params_to_skip)
    /\ pleq_params_to_skip <> 0
    /\ h' !! 0 = Some (params_to_skip [[1%Q]] [2%Q])
    /\ h' !! pleq_params_to_skip = Some (<["y" := VNone]> (params_to_skip [[1%Q]] [2%Q]))
    /\ (forall k, k <> "y" ->
          <["y" := VNone]> (params_to_skip [[1%Q]] [2%Q]) !! k
          = params_to_skip [[1%Q]] [2%Q] !! k)
    /\ (forall r, r <> pleq_params_to_skip ->
          h' !! r = [params_to_skip [[1%Q]] [2%Q]] !! r).
Proof.
  apply (pleq_cell_updates_a_copy 0 [params_to_skip [[1%Q]] [2%Q]]
           (params_to_skip [[1%Q]] [2%Q])).
  reflexivity.
Defined.

(** ** Rows through the splits *)

Lemma index_of_Some id idx p : index_of id idx = Some p -> idx !! p = Some id.
Proof.
  revert p. induction idx as [|i idx IH]; intros p; [done|]. cbn.
  case_decide as Hi.
  - intros [= <-]. by subst.
  - destruct (index_of id idx) as [q|]; [|done]. cbn. intros [= <-]. by apply IH.
Qed.

Lemma index_of_NoDup id idx p :
  NoDup idx -> idx !! p = Some id -> index_of id idx = Some p.
Proof.
  intros Hnd. revert p. induction Hnd as [|i idx Hi Hnd IH]; intros p; [done|].
  destruct p as [|p]; cbn.
  - intros [= ->]. by rewrite decide_True.
  - intros Hp. rewrite decide_False.
    + by rewrite (IH p Hp).
    + intros ->. apply Hi. by eapply list_elem_of_lookup_2.
Qed.

(** Selecting the same positions in two lists of one length keeps them
    aligned. *)
Lemma select_aligned {A B} (pos : list nat) (l1 : list A) (l2 : list B) k x :
  length l2 = length l1 ->
  select pos l1 !! k = Some x ->
  exists p, l1 !! p = Some x /\ select pos l2 !! k = l2 !! p.
Proof.
  intros Hlen. unfold select. revert k.
  induction pos as [|p0 pos IH]; intros k; [done|]. cbn.
  destruct (l1 !! p0) as [y|] eqn:E1.
  - assert (is_Some (l2 !! p0)) as [z E2].
    { apply lookup_lt_is_Some. rewrite Hlen. by eapply lookup_lt_Some. }
    rewrite E2. destruct k as [|k]; cbn.
    + intros [= <-]. by exists p0.
    + apply IH.
  - assert (l2 !! p0 = None) as ->.
    { apply lookup_ge_None. rewrite Hlen. by apply lookup_ge_None. }
    apply IH.
Qed.

Lemma cell_take_rows pos df id c v :
  wf_frame df -> NoDup (df_index df) ->
  cell (take_rows pos df) id c = Some v -> cell df id c = Some v.
Proof.
  intros Hwf Hnd. unfold cell, take_rows. cbn [df_index df_columns].
  rewrite assoc_map.
  destruct (index_of id (select pos (df_index df))) as [k|] eqn:Ek; [|done].
  cbn [mbind option_bind].
  destruct (assoc c (df_columns df)) as [col|] eqn:Ec; [|done].
  cbn [fmap option_fmap option_map mbind option_bind]. intros Hv.
  apply index_of_Some in Ek.
  assert (length col = length (df_index df)) as Hlen.
  { apply assoc_Some_elem in Ec.
    by apply (proj1 (Forall_forall _ _) Hwf (c, col)). }
  destruct (select_aligned pos (df_index df) col k id Hlen Ek) as (p & Hp & Hsel).
  rewrite (index_of_NoDup id _ p Hnd Hp). cbn. by rewrite <- Hsel.
Qed.

Lemma cell_same_outside cs df df' id c :
  same_outside cs df df' -> c ∉ cs -> cell df' id c = cell df id c.
Proof.
  intros (Hidx & _ & Hcol) Hc. unfold cell. rewrite Hidx.
  specialize (Hcol c Hc). unfold getcol in Hcol.
  destruct (assoc c (df_columns df')) as [a|], (assoc c (df_columns df)) as [b|];
    try done; by injection Hcol as ->.
Qed.

Lemma train_test_split_NoDup perm df test_size tr te :
  NoDup (df_index df) -> Permutation perm (seq 0 (n_rows df)) ->
  train_test_split perm df test_size = Ok (tr, te) ->
  NoDup (df_index tr) /\ NoDup (df_index te).
Proof.
  intros Hnd Hperm Hsplit.
  destruct (train_test_split_partition _ _ _ _ _ Hperm Hsplit) as [HP _].
  rewrite <- HP in Hnd. apply NoDup_app in Hnd as (H1 & _ & H2). done.
Qed.

Lemma cell_train_test_split perm df test_size tr te id c v :
  wf_frame df -> NoDup (df_index df) ->
  train_test_split perm df test_size = Ok (tr, te) ->
  cell tr id c = Some v \/ cell te id c = Some v -> cell df id c = Some v.
Proof.
  intros Hwf Hnd. unfold train_test_split. case_decide; [discriminate|].
  intros [= <- <-] [Hc|Hc]; by eapply cell_take_rows.
Qed.

(** X27.  Rows go through the preparation whole.  For a well-formed table
    with distinct row labels and a first split order that is a permutation
    of the row positions, every row of each prepared partition is a row of
    the table: under the same row label, each column that is not a numeric
    feature (the label column among them) holds in the partition the value
    it holds in the table.  The splits move whole rows and scaling leaves
    those columns alone, so no row is paired with another row's label. *)
Theorem prepared_rows_keep_their_values lib perm1 perm2 df X_train X_val test_data
    id c v :
  wf_frame df -> NoDup (df_index df) ->
  Permutation perm1 (seq 0 (n_rows df)) ->
  prepare lib perm1 perm2 df = Ok (X_train, X_val, test_data) ->
  c ∉ NUMERIC_FEATURES ->
  cell X_train id c = Some v \/ cell X_val id c = Some v \/ cell test_data id c = Some v ->
  cell df id c = Some v.
Proof.
  intros Hwf Hnd Hperm Hprep Hc Hcell.
  apply prepare_Ok in Hprep as (train_data & test0 & Xt & Xv & E1 & E2 & Hsc).
  unfold split_cell in E1.
  destruct (train_test_split_wf _ _ _ _ _ Hwf E1) as [Hw1 _].
  destruct (train_test_split_NoDup _ _ _ _ _ Hnd Hperm E1) as [Hn1 _].
  pose proof Hsc as (a & b & c0 & Ha & Hb & Hc0 & Htr & Hva & Hte)%scale_partitions_result.
  assert (same_outside NUMERIC_FEATURES Xt X_train) as Hs1.
  { rewrite Htr. apply loc_set_same_outside, getcols_in_names. by eexists. }
  assert (same_outside NUMERIC_FEATURES Xv X_val) as Hs2.
  { rewrite Hva. apply loc_set_same_outside, getcols_in_names. by eexists. }
  assert (same_outside NUMERIC_FEATURES test0 test_data) as Hs3.
  { rewrite Hte. apply loc_set_same_outside, getcols_in_names. by eexists. }
  rewrite (cell_same_outside _ _ _ id c Hs1 Hc), (cell_same_outside _ _ _ id c Hs2 Hc),
    (cell_same_outside _ _ _ id c Hs3 Hc) in Hcell.
  destruct Hcell as [H|[H|H]].
  - eapply cell_train_test_split; [done|done|exact E1|]. left.
    eapply cell_train_test_split; [done|done|exact E2|]. by left.
  - eapply cell_train_test_split; [done|done|exact E1|]. left.
    eapply cell_train_test_split; [done|done|exact E2|]. by right.
  - eapply cell_train_test_split; [done|done|exact E1|]. by right.
Qed.

Lemma prepared_rows_keep_their_values_witness :
  exists X_train X_val test_data,
    prepare toy_lib (rev (seq 0 5)) (rev (seq 0 4)) toy_frame
    = Ok (X_train, X_val, test_data)
    /\ cell test_data 4 "MedHouseVal" = Some 4%Q
    /\ cell toy_frame 4 "MedHouseVal" = Some 4%Q.
Proof.
  eexists _, _, _. split; [vm_compute; reflexivity|].
  match goal with
  | |- ?P /\ _ => assert P as Hcell by (vm_compute; reflexivity)
  end.
  split; [exact Hcell|].
  eapply (prepared_rows_keep_their_values toy_lib (rev (seq 0 5)) (rev (seq 0 4))
            toy_frame _ _ _ 4 "MedHouseVal" 4%Q).
  - apply (bool_decide_unpack _). vm_compute. reflexivity.
  - apply (NoDup_seq 0 5).
  - symmetry. apply (Permutation_rev (seq 0 5)).
  - vm_compute. reflexivity.
  - apply (bool_decide_unpack _). vm_compute. reflexivity.
  - right. right. exact Hcell.
Defined.

(** ** Runs and the records of earlier runs *)

(** X28.  A run does not read the store.  Started with no run in
    progress, each of the four runs returns or raises the same, and
    records the same metrics and the same parameters, whatever earlier
    runs have left in the store. *)
Theorem runs_do_not_depend_on_earlier_records lib c s s' :
  active s = None -> active s' = None ->
  (run_cell lib c s).2 = (run_cell lib c s').2
  /\ recorded_metrics s (run_cell lib c) = recorded_metrics s' (run_cell lib c)
  /\ recorded_params s (run_cell lib c) = recorded_params s' (run_cell lib c).
Proof.
  intros Hs Hs'. destruct c; cbn [run_cell].
  - rewrite !recorded_metrics_rf, !recorded_params_rf, !rf_baseline_run_eq by done. done.
  - rewrite !recorded_metrics_catboost, !recorded_params_catboost, !catboost_run_eq
      by done. done.
  - rewrite !recorded_metrics_mlp, !recorded_params_mlp, !mlp_mlflow_run_eq by done. done.
  - rewrite !recorded_metrics_ft, !recorded_params_ft, !fttransformer_mlflow_run_eq
      by done. done.
Qed.

Lemma runs_do_not_depend_on_earlier_records_witness :
  (run_cell toy_lib (RfCell toy_frame toy_frame "MedHouseVal") empty_store).2
  = (run_cell toy_lib (RfCell toy_frame toy_frame "MedHouseVal")
       (run_cells toy_lib [RfCell toy_frame toy_frame "MedHouseVal"] empty_store)).2
  /\ recorded_metrics empty_store
       (run_cell toy_lib (RfCell toy_frame toy_frame "MedHouseVal"))
     = recorded_metrics (run_cells toy_lib [RfCell toy_frame toy_frame "MedHouseVal"]
                           empty_store)
         (run_cell toy_lib (RfCell toy_frame toy_frame "MedHouseVal"))
  /\ recorded_params empty_store
       (run_cell toy_lib (RfCell toy_frame toy_frame "MedHouseVal"))
     = recorded_params (run_cells toy_lib [RfCell toy_frame toy_frame "MedHouseVal"]
                          empty_store)
         (run_cell toy_lib (RfCell toy_frame toy_frame "MedHouseVal")).
Proof.
  apply (runs_do_not_depend_on_earlier_records toy_lib
           (RfCell toy_frame toy_frame "MedHouseVal") empty_store
           (run_cells toy_lib [RfCell toy_frame toy_frame "MedHouseVal"] empty_store)).
  - reflexivity.
  - vm_compute. reflexivity.
Defined.
